(** * Agentic-DevOps: query resolution and execution pipeline

    A shallow embedding of the Python sources under [devops_agent/]
    (safety classifier, semantic cache, intent router, LLM agent parse
    pipeline, smart router, backend client, FAISS tool index and tool
    retriever), followed by the properties proved about them.

    Conventions.
    - Python [str] is [string]; the case and whitespace functions are the
      ASCII ones ([lower] maps A-Z to a-z and leaves other bytes alone).
    - Python [float] is IEEE 754 binary64: the similarity scores of the
      semantic cache and of the intent router, which are compared with
      the thresholds, are primitive floats with their rounding, infinities
      and NaN.  The tool retriever only ranks its scores and the vector
      index only stores its vectors; these are kept as rationals ([Q]).
    - [math.sqrt], the built-in [sum] and the other library calls the
      code makes (the embedding service, [json_repair], [str] on a dict,
      the FAISS search, the language model) are arguments of the
      definitions that use them.
    - A Python [dict] with string keys produced by the program is a
      [gmap string _]; a decoded JSON object keeps its key order in an
      association list.
    - A function that can raise returns a sum or an [option]. *)

From Stdlib Require Import String Ascii List ZArith QArith Lia Bool Sorted Floats.
From stdpp Require Import base option list gmap strings sets.

Set Warnings "-register-all,-clear-no-such-hyp".
Import ListNotations.
Local Open Scope string_scope.
Local Open Scope Z_scope.

(* ===================================================================== *)
(** * Part I: definitions *)
(* ===================================================================== *)

(** ** Python string primitives *)

Module PyStr.

(** [c.lower()] on one ASCII character. *)
Definition lower_ascii (c : ascii) : ascii :=
  let n := nat_of_ascii c in
  if (Nat.leb 65 n && Nat.leb n 90)%bool then ascii_of_nat (n + 32) else c.

(** [s.lower()] *)
Fixpoint lower (s : string) : string :=
  match s with
  | EmptyString => EmptyString
  | String c s' => String (lower_ascii c) (lower s')
  end.

(** [s.startswith(p)] *)
Definition startswith (s p : string) : bool := String.prefix p s.

(** [k in s] for two strings: [k] occurs in [s] as a substring. *)
Fixpoint contains (k s : string) : bool :=
  if String.prefix k s then true
  else match s with
       | EmptyString => false
       | String _ s' => contains k s'
       end.

(** Whitespace as [str.strip] and [str.split] see it (ASCII range). *)
Definition is_space (c : ascii) : bool :=
  let n := nat_of_ascii c in
  ((Nat.leb 9 n && Nat.leb n 13) || (Nat.leb 28 n && Nat.leb n 32))%bool.

Fixpoint lstrip (s : string) : string :=
  match s with
  | String c s' => if is_space c then lstrip s' else s
  | EmptyString => EmptyString
  end.

(** [rstrip]: drop the trailing whitespace; a character is kept when
    something that is not whitespace follows it. *)
Fixpoint rstrip (s : string) : string :=
  match s with
  | EmptyString => EmptyString
  | String c s' =>
      match rstrip s' with
      | EmptyString => if is_space c then EmptyString else String c EmptyString
      | r => String c r
      end
  end.

(** [s.strip()] *)
Definition strip (s : string) : string := rstrip (lstrip s).

(** [s.split()]: the maximal runs of non-whitespace characters. *)
Fixpoint split_go (cur : option string) (s : string) : list string :=
  match s with
  | EmptyString =>
      match cur with Some w => [String.rev w] | None => [] end
  | String c s' =>
      if is_space c
      then match cur with
           | Some w => String.rev w :: split_go None s'
           | None => split_go None s'
           end
      else split_go (Some (String c (default EmptyString cur))) s'
  end.
Definition split (s : string) : list string := split_go None s.

(** Line boundaries of [str.splitlines] in the ASCII range, CR apart:
    LF, VT, FF, FS, GS, RS. *)
Definition is_linebreak (c : ascii) : bool :=
  let n := nat_of_ascii c in
  (Nat.eqb n 10 || Nat.eqb n 11 || Nat.eqb n 12
   || Nat.eqb n 28 || Nat.eqb n 29 || Nat.eqb n 30)%bool.

(** [s.splitlines()]; CR LF counts as one boundary. *)
Fixpoint splitlines_go (cur : string) (s : string) : list string :=
  match s with
  | EmptyString =>
      match cur with EmptyString => [] | _ => [String.rev cur] end
  | String c s' =>
      if is_linebreak c then String.rev cur :: splitlines_go EmptyString s'
      else if Ascii.eqb c "013" then
        match s' with
        | String c' s'' =>
            if Ascii.eqb c' "010"
            then String.rev cur :: splitlines_go EmptyString s''
            else String.rev cur :: splitlines_go EmptyString s'
        | EmptyString => [String.rev cur]
        end
      else splitlines_go (String c cur) s'
  end.
Definition splitlines (s : string) : list string := splitlines_go EmptyString s.

(** ["\n".join(lines)] *)
Fixpoint join_lines (ls : list string) : string :=
  match ls with
  | [] => EmptyString
  | [l] => l
  | l :: rest => l ++ String "010" (join_lines rest)
  end.

(** [s.find(c)] for a single character: [None] stands for [-1]. *)
Fixpoint find_char (c : ascii) (s : string) : option nat :=
  match s with
  | EmptyString => None
  | String d s' =>
      if Ascii.eqb c d then Some 0%nat
      else option_map S (find_char c s')
  end.

(** [s[n:]] *)
Fixpoint drop (n : nat) (s : string) : string :=
  match n, s with
  | O, _ => s
  | S n', String _ s' => drop n' s'
  | S _, EmptyString => EmptyString
  end.

(** [s[:n]] for a non-negative [n]. *)
Fixpoint take (n : nat) (s : string) : string :=
  match n, s with
  | O, _ => EmptyString
  | S n', String c s' => String c (take n' s')
  | S _, EmptyString => EmptyString
  end.

End PyStr.

(** ** JSON values, as [json.loads] and [response.json()] produce them *)

Inductive json : Type :=
| JNull
| JBool (b : bool)
| JInt (z : Z)
| JFloat (q : Q)
| JStr (s : string)
| JArr (items : list json)
| JObj (fields : list (string * json)).

Module PyVal.

(** Truth value of a decoded JSON value ([bool(v)]). *)
Definition truthy (v : json) : bool :=
  match v with
  | JNull => false
  | JBool b => b
  | JInt z => negb (Z.eqb z 0)
  | JFloat q => negb (Qeq_bool q 0)
  | JStr s => negb (String.eqb s "")
  | JArr l => match l with [] => false | _ => true end
  | JObj l => match l with [] => false | _ => true end
  end.

(** [d.get(k)] on a decoded object: [None] when the key is absent. *)
Fixpoint get (k : string) (d : list (string * json)) : option json :=
  match d with
  | [] => None
  | (k', v) :: d' => if String.eqb k k' then Some v else get k d'
  end.

(** [k in d] *)
Definition has_key (k : string) (d : list (string * json)) : bool :=
  match get k d with Some _ => true | None => false end.

(** [d.get(k)] as a value: Python's [None] (JSON null) when absent. *)
Definition get_or_none (k : string) (d : list (string * json)) : json :=
  match get k d with Some v => v | None => JNull end.

(** [a or b] *)
Definition py_or (a b : json) : json := if truthy a then a else b.

End PyVal.

(** ** devops_agent/safety.py *)

Module Safety.

Definition DANGEROUS_PREFIXES : list string :=
  [ "docker_stop"; "docker_rm"; "docker_prune";
    "k8s_delete"; "local_k8s_delete"; "remote_k8s_delete";
    "remote_k8s_promote"; "remote_k8s_exec" ].

Definition DANGEROUS_TOOLS_EXACT : list string := [ "docker_run_container" ].

Definition is_dangerous (tool_name : string) : bool :=
  if existsb (String.eqb tool_name) DANGEROUS_TOOLS_EXACT then true
  else existsb (PyStr.startswith tool_name) DANGEROUS_PREFIXES.

Record RiskAssessment := mkRisk {
  ra_is_dangerous : bool;
  ra_risk_level : string;
  ra_reason : string;
  ra_impact_analysis : list string
}.

Section Analyze.
(** Python's [str] on an argument value, as the f-strings apply it. *)
Variable py_str : json -> string.

(** [arguments.get(k, dflt)] rendered inside an f-string. *)
Definition arg_text (arguments : gmap string json) (k dflt : string) : string :=
  match arguments !! k with
  | Some v => py_str v
  | None => dflt
  end.

Definition analyze_risk (tool_name : string) (arguments : gmap string json)
  : RiskAssessment :=
  if negb (is_dangerous tool_name) then mkRisk false "LOW" "" []
  else
    let reason :=
      "Tool '" ++ tool_name ++ "' performs destructive or resource-intensive actions." in
    let impact :=
      if String.eqb tool_name "docker_stop_container" then
        [ "Stops container '" ++ arg_text arguments "container_id" "unknown" ++ "' immediately.";
          "Service interruption for applications in this container.";
          "Potential data loss in ephemeral volumes." ]
      else if String.eqb tool_name "docker_run_container" then
        [ "Starts new container from '" ++ arg_text arguments "image" "unknown" ++ "'.";
          "Consumes system resources (CPU/RAM).";
          "Binds network ports." ]
      else if PyStr.contains "delete" tool_name then
        [ "PERMANENTLY removes the target resource.";
          "Cannot be undone.";
          "Service interruption." ]
      else if PyStr.contains "exec" tool_name then
        let cmd :=
          match arguments !! "command" with
          | Some v => py_str v
          | None => arg_text arguments "cmd" "unknown command"
          end in
        [ "Executes arbitrary command: '" ++ cmd ++ "'";
          "Full shell access risks.";
          "Potential system modification." ]
      else if PyStr.contains "promote" tool_name then
        [ "Copies " ++ arg_text arguments "resource_type" "resource" ++ " '"
            ++ arg_text arguments "name" "unknown" ++ "' to the Remote Cluster.";
          "Modifies remote cluster state.";
          "Potential for configuration drift if versions mismatch." ]
      else [] in
    mkRisk true "HIGH" reason impact.
End Analyze.

(** The set of dangerous names as the specification words it: the plain
    prefixes, the pattern [*_k8s_delete] (any text, an underscore, then
    [k8s_delete], at the start of the name) and one exact name.  A name
    starts with [w ++ "_k8s_delete"] for some [w] exactly when
    ["_k8s_delete"] occurs in it. *)
Definition spec_plain_prefixes : list string :=
  [ "docker_stop"; "docker_rm"; "docker_prune";
    "remote_k8s_promote"; "remote_k8s_exec" ].

Definition spec_dangerous (tool_name : string) : bool :=
  (existsb (PyStr.startswith tool_name) spec_plain_prefixes
   || PyStr.contains "_k8s_delete" tool_name
   || String.eqb tool_name "docker_run_container")%bool.

End Safety.

(** ** Vectors and scores of rag/tool_retriever.py
    (the retriever ranks by its [_cosine_similarity] and compares no
    score with a threshold) *)

Module Vec.

Definition Qltb (x y : Q) : bool := negb (Qle_bool y x).

(** [sum(a * b for a, b in zip(v1, v2))] *)
Fixpoint dot (v1 v2 : list Q) : Q :=
  match v1, v2 with
  | a :: v1', b :: v2' => (a * b + dot v1' v2')%Q
  | _, _ => 0%Q
  end.

Section Cosine.
(** [math.sqrt] *)
Variable sqrt : Q -> Q.

Definition cosine_similarity (v1 v2 : list Q) : Q :=
  match v1, v2 with
  | [], _ | _, [] => 0%Q
  | _, _ =>
      let dot_product := dot v1 v2 in
      let norm_a := sqrt (dot v1 v1) in
      let norm_b := sqrt (dot v2 v2) in
      if (Qeq_bool norm_a 0 || Qeq_bool norm_b 0)%bool then 0%Q
      else (dot_product / (norm_a * norm_b))%Q
  end.
End Cosine.

End Vec.

(** ** Python floats: [_cosine_similarity] of semantic_cache.py and
    router.py (the same body in both classes) *)

Module PyFloat.

(** [0.98] and [0.82] are not binary64 numbers; Python reads each
    literal as the nearest one. *)
Definition lit_0_98 : float := 0x1.f5c28f5c28f5cp-1%float.
Definition lit_0_82 : float := 0x1.a3d70a3d70a3dp-1%float.

(** [[a * b for a, b in zip(v1, v2)]] *)
Definition products (v1 v2 : list float) : list float :=
  map (fun p => PrimFloat.mul (fst p) (snd p)) (combine v1 v2).

Section Cosine.
(** The built-in [sum] on floats: left-to-right addition before Python
    3.12, compensated summation since. *)
Variable fsum : list float -> float.
(** [math.sqrt]; its argument is a sum of squares here. *)
Variable sqrt : float -> float.

Definition cosine_similarity (v1 v2 : list float) : float :=
  match v1, v2 with
  | [], _ | _, [] => 0%float
  | _, _ =>
      let dot_product := fsum (products v1 v2) in
      let norm_a := sqrt (fsum (products v1 v1)) in
      let norm_b := sqrt (fsum (products v2 v2)) in
      if (PrimFloat.eqb norm_a 0%float || PrimFloat.eqb norm_b 0%float)%bool
      then 0%float
      else PrimFloat.div dot_product (PrimFloat.mul norm_a norm_b)
  end.
End Cosine.

End PyFloat.

(** ** devops_agent/semantic_cache.py *)

Module SemanticCache.

Record entry := mkEntry {
  e_query : string;
  e_embedding : list float;
  e_output : string;
  e_tool_calls : list json;
  e_active_mcp : option string;
  e_timestamp : float
}.

(** The object state: the threshold given to [__init__], the in-memory
    [entries], and the successive contents [_save] has dumped to the
    cache file (latest first). *)
Record t := mkCache {
  threshold : float;
  entries : list entry;
  disk_writes : list (list entry)
}.

Definition default_threshold : float := PyFloat.lit_0_98.
Definition MAX_ENTRIES : nat := 500.

(** [SemanticCache()] when no cache file exists. *)
Definition fresh : t := mkCache default_threshold [] [].

Definition _save (c : t) : t :=
  mkCache (threshold c) (entries c) (entries c :: disk_writes c).

(** Truth value of an [Optional[str]] argument. *)
Definition str_truthy (o : option string) : bool :=
  match o with
  | Some s => negb (String.eqb s "")
  | None => false
  end.

(** The guard of the scan: an entry is skipped when [active_mcp] is given
    and the entry's own [active_mcp] differs from it. *)
Definition eligible (active_mcp : option string) (e : entry) : bool :=
  if str_truthy active_mcp
  then bool_decide (e_active_mcp e = active_mcp)
  else true.

Inductive lookup_result :=
| Hit (output : string) (tool_calls : list json)   (* with ["cached": True] *)
| Miss                                             (* [None] *)
| LookupTypeError.                                 (* subscripting [None] *)

Section Ops.
(** The built-in [sum] and [math.sqrt]. *)
Variable fsum : list float -> float.
Variable sqrt : float -> float.
(** [async_get_embeddings]: the empty list when the service fails. *)
Variable embed : string -> list float.
(** Python's [str] on one tool call. *)
Variable py_str : json -> string.
(** [time.time()] *)
Variable now : float.

Definition _cosine_similarity : list float -> list float -> float :=
  PyFloat.cosine_similarity fsum sqrt.

(** The [for entry in self.entries] scan, carrying
    [(highest_score, best_match)]. *)
Fixpoint scan (query_emb : list float) (active_mcp : option string)
         (es : list entry) (acc : float * option entry) : float * option entry :=
  match es with
  | [] => acc
  | e :: es' =>
      if negb (eligible active_mcp e) then scan query_emb active_mcp es' acc
      else
        let score := _cosine_similarity query_emb (e_embedding e) in
        if PrimFloat.ltb (fst acc) score      (* [score > highest_score] *)
        then scan query_emb active_mcp es' (score, Some e)
        else scan query_emb active_mcp es' acc
  end.

Definition lookup (c : t) (query : string) (active_mcp : option string)
  : lookup_result :=
  match entries c with
  | [] => Miss
  | _ =>
      let query_emb := embed query in
      match query_emb with
      | [] => Miss
      | _ =>
          let '(highest_score, best_match) :=
            scan query_emb active_mcp (entries c) ((-1)%float, None) in
          (* [highest_score >= self.threshold] *)
          if PrimFloat.leb (threshold c) highest_score then
            match best_match with
            | Some e => Hit (e_output e) (e_tool_calls e)
            | None => LookupTypeError
            end
          else Miss
      end
  end.

Definition add (c : t) (query output : string) (tool_calls : list json)
           (active_mcp : option string) : t :=
  if (PyStr.contains "failed" (PyStr.lower output)
      || PyStr.contains "error" (PyStr.lower output))%bool then c
  else if existsb (fun tc => PyStr.contains "confirmation" (py_str tc)) tool_calls
  then c
  else
    let query_emb := embed query in
    match query_emb with
    | [] => c
    | _ =>
        if existsb (fun e => String.eqb (e_query e) query) (entries c) then c
        else
          let new_entry :=
            mkEntry query query_emb output tool_calls active_mcp now in
          let appended := (entries c ++ [new_entry])%list in
          let bounded :=
            if Nat.ltb MAX_ENTRIES (length appended)
            then List.tl appended          (* [self.entries.pop(0)] *)
            else appended in
          _save (mkCache (threshold c) bounded (disk_writes c))
    end.
End Ops.

End SemanticCache.

(** ** devops_agent/router.py: the semantic tier of [IntentRouter.route] *)

Module IntentRouter.

Record SemanticIntent := mkIntent {
  i_text : string;
  i_tool : string;
  i_args : json;
  i_embedding : list float
}.

(** One resolved call, [{"name": ..., "arguments": ...}]. *)
Record tool_call := mkCall { c_name : string; c_arguments : json }.

Definition SEMANTIC_THRESHOLD : float := PyFloat.lit_0_82.

Section Route.
(** The built-in [sum] and [math.sqrt]. *)
Variable fsum : list float -> float.
Variable sqrt : float -> float.
(** [get_embeddings] *)
Variable embed : string -> list float.
(** Tiers 0 and 2 ([RegexRouter.route] and the compiled templates):
    the call list they resolve the query to, if any. *)
Variable regex_tiers : string -> option (list tool_call).

Definition _cosine_similarity : list float -> list float -> float :=
  PyFloat.cosine_similarity fsum sqrt.

Fixpoint scan (query_emb : list float) (intents : list SemanticIntent)
         (acc : float * option SemanticIntent) : float * option SemanticIntent :=
  match intents with
  | [] => acc
  | i :: rest =>
      let score := _cosine_similarity query_emb (i_embedding i) in
      if PrimFloat.ltb (fst acc) score        (* [score > best_score] *)
      then scan query_emb rest (score, Some i)
      else scan query_emb rest acc
  end.

(** Step 3 of [route]. *)
Definition semantic_tier (intents : list SemanticIntent) (query : string)
  : option (list tool_call) :=
  match intents with
  | [] => None
  | _ =>
      let query_emb := embed query in
      match query_emb with
      | [] => None
      | _ =>
          let '(best_score, best_intent) :=
            scan query_emb intents ((-1)%float, None) in
          (* [best_score > 0.82] *)
          if PrimFloat.ltb SEMANTIC_THRESHOLD best_score then
            match best_intent with
            | Some i => Some [mkCall (i_tool i) (i_args i)]
            | None => None
            end
          else None
      end
  end.

Definition route (intents : list SemanticIntent) (query : string)
  : option (list tool_call) :=
  let query := PyStr.strip query in
  if String.eqb query "" then None
  else match regex_tiers query with
       | Some calls => Some calls
       | None => semantic_tier intents query
       end.
End Route.

End IntentRouter.

(** ** Reference definitions used to state properties of the two scans *)

Module Ref.

(** The scan both [SemanticCache.lookup] and [IntentRouter.route] run:
    keep the first element of strictly highest score among those that
    pass [ok]. *)
Fixpoint argmax_scan {A : Type} (score : A -> float) (ok : A -> bool)
         (xs : list A) (acc : float * option A) : float * option A :=
  match xs with
  | [] => acc
  | x :: xs' =>
      if negb (ok x) then argmax_scan score ok xs' acc
      else if PrimFloat.ltb (fst acc) (score x)
           then argmax_scan score ok xs' (score x, Some x)
           else argmax_scan score ok xs' acc
  end.

(** A computable square root, exact on the rationals whose numerator and
    denominator are perfect squares; it stands in for [math.sqrt] when
    the retriever is run on concrete vectors. *)
Definition sqrt_floor (q : Q) : Q := Z.sqrt (Qnum q) # Pos.sqrt (Qden q).

(** Left-to-right summation, to run the float definitions with.  On the
    integer-valued vectors of the runs below every partial sum is exact,
    so a compensated summation returns the same number. *)
Definition sum_left (xs : list float) : float :=
  fold_left PrimFloat.add xs 0%float.

Definition is_hit (r : SemanticCache.lookup_result) : bool :=
  match r with SemanticCache.Hit _ _ => true | _ => false end.

End Ref.

(** ** Histories of one semantic cache *)

Module CacheHistory.
Import SemanticCache.

(** [SemanticCache.__init__] on an existing cache file: [entries] starts
    empty and [_load] replaces it by the file's content, which is what
    the last [_save] dumped (no file when nothing was saved yet). *)
Definition reload (c : t) : t :=
  mkCache (threshold c)
          (match disk_writes c with s :: _ => s | [] => [] end)
          (disk_writes c).

Inductive op :=
| OpAdd (query output : string) (tool_calls : list json)
        (active_mcp : option string) (now : float)
| OpRestart.

Section Run.
Variable embed : string -> list float.
Variable py_str : json -> string.

Definition step (c : t) (o : op) : t :=
  match o with
  | OpAdd q out tcs mcp now => add embed py_str now c q out tcs mcp
  | OpRestart => reload c
  end.

(** The cache after a history of operations, starting with no file. *)
Definition run (ops : list op) : t := fold_left step ops fresh.
End Run.

End CacheHistory.

(** ** devops_agent/agent_module.py *)

Module AgentModule.

(** A normalized tool call, [{"name": ..., "arguments": ...}]; the name
    is whatever value the model put under the name key. *)
Record call := mkCall { call_name : json; call_arguments : json }.

Definition has_name_key (item : list (string * json)) : bool :=
  (PyVal.has_key "name" item || PyVal.has_key "tool_name" item
   || PyVal.has_key "tool" item)%bool.

Definition _normalize_single (item : list (string * json)) : call :=
  let g k := PyVal.get_or_none k item in
  let name := PyVal.py_or (g "name") (PyVal.py_or (g "tool_name") (g "tool")) in
  let args :=
    PyVal.py_or (g "arguments")
      (PyVal.py_or (g "parameters") (PyVal.py_or (g "input") (JObj []))) in
  mkCall name args.

(** The general loop of [_normalize_tool_list]. *)
Fixpoint normalize_items (data : list json) : list call :=
  match data with
  | [] => []
  | JStr s :: rest => mkCall (JStr s) (JObj []) :: normalize_items rest
  | JObj item :: rest =>
      if has_name_key item then _normalize_single item :: normalize_items rest
      else normalize_items rest
  | _ :: rest => normalize_items rest
  end.

Definition _normalize_tool_list (data : list json) : list call :=
  match data with
  | [JStr name; JObj args] => [mkCall (JStr name) (JObj args)]
  | [JStr name] => [mkCall (JStr name) (JObj [])]
  | _ => normalize_items data
  end.

(** The bracket-counting loop: the number of characters up to and
    including the one at which the count returns to zero. *)
Fixpoint balanced_end (opening closing : ascii) (s : string) (count : Z)
  : option nat :=
  match s with
  | EmptyString => None
  | String c s' =>
      let count' :=
        if Ascii.eqb c opening then count + 1
        else if Ascii.eqb c closing then count - 1
        else count in
      if Z.eqb count' 0 then Some 1%nat
      else option_map S (balanced_end opening closing s' count')
  end.

(** [lines[1:-1]] *)
Definition inner_lines (lines : list string) : list string :=
  List.removelast (List.tl lines).

(** The text clean-up in front of [json_repair.loads]: [None] when
    [_validate_and_parse] returns early. *)
Definition extract_json_text (output : string) : option string :=
  if String.eqb output "" then None
  else
    let cleaned := PyStr.strip output in
    let cleaned :=
      if PyStr.startswith cleaned "```" then
        let lines := PyStr.splitlines cleaned in
        if Nat.leb 3 (length lines) then PyStr.join_lines (inner_lines lines)
        else cleaned
      else cleaned in
    if (negb (PyStr.startswith cleaned "[") && negb (PyStr.startswith cleaned "{"))%bool
    then
      match PyStr.find_char "[" cleaned, PyStr.find_char "{" cleaned with
      | Some array_start, _ =>
          let rest := PyStr.drop array_start cleaned in
          match balanced_end "[" "]" rest 0 with
          | Some n => Some (PyStr.take n rest)
          | None => Some cleaned
          end
      | None, Some obj_start =>
          let rest := PyStr.drop obj_start cleaned in
          match balanced_end "{" "}" rest 0 with
          | Some n => Some ("[" ++ PyStr.take n rest ++ "]")
          | None => Some cleaned
          end
      | None, None => None
      end
    else Some cleaned.

(** The structure check on the decoded value (the body of the [try]). *)
Definition calls_of_data (data : json) : option (list call) :=
  match data with
  | JArr ((_ :: _) as items) =>
      let normalized_list :=
        List.filter (fun item => match item with
                                 | JObj d => has_name_key d
                                 | _ => false
                                 end) items in
      match normalized_list with
      | [] => None
      | _ => Some (_normalize_tool_list normalized_list)
      end
  | JObj d => if has_name_key d then Some [_normalize_single d] else None
  | _ => None
  end.

(** A tool descriptor of [tools_schema], as far as validation reads it:
    [t['name']] and [t['parameters']['required']] (empty when absent). *)
Record tool_schema := mkTool { t_name : string; t_required : list string }.

Inductive semantics_result :=
| SemValid                       (* [(True, "")] *)
| SemError (message : string)    (* [(False, message)] *)
| SemRaise (message : string).   (* a [TypeError] escapes; its [str] *)

Definition schema_map (tools_schema : list tool_schema) : gmap string tool_schema :=
  fold_left (fun m t => <[t_name t := t]> m) tools_schema ∅.

Inductive membership := Present | Absent | NotIterable.

(** [req in args] *)
Definition arg_present (req : string) (args : json) : membership :=
  match args with
  | JObj d => if PyVal.has_key req d then Present else Absent
  | JArr l =>
      if existsb (fun v => match v with JStr s => String.eqb s req | _ => false end) l
      then Present else Absent
  | JStr s => if PyStr.contains req s then Present else Absent
  | _ => NotIterable
  end.

Section Validate.
(** [json_repair.loads]; [None] when it raises. *)
Variable loads : string -> option json.
(** Python's [str] on a decoded value, as the f-strings apply it. *)
Variable py_str : json -> string.
(** The text of the [TypeError] raised on a value of the wrong kind. *)
Variable type_error_text : json -> string.

Definition _validate_and_parse (output : string) : option (list call) :=
  match extract_json_text output with
  | None => None
  | Some cleaned =>
      match loads cleaned with
      | Some data => calls_of_data data
      | None => None
      end
  end.

Fixpoint check_required (name : json) (args : json) (required : list string)
  : semantics_result :=
  match required with
  | [] => SemValid
  | req :: rest =>
      match arg_present req args with
      | Present => check_required name args rest
      | Absent =>
          SemError ("Tool '" ++ py_str name
                    ++ "' is missing required argument: '" ++ req ++ "'.")
      | NotIterable => SemRaise (type_error_text args)
      end
  end.

Fixpoint _validate_semantics (tool_calls : list call)
         (tools_schema : list tool_schema) : semantics_result :=
  match tool_calls with
  | [] => SemValid
  | c :: rest =>
      match call_name c with
      | JArr _ | JObj _ => SemRaise (type_error_text (call_name c))
      | JStr name =>
          match schema_map tools_schema !! name with
          | None =>
              SemError ("Tool '" ++ py_str (call_name c)
                        ++ "' does not exist. Please check 'available_tools' for the correct name.")
          | Some schema =>
              match check_required (call_name c) (call_arguments c)
                                   (t_required schema) with
              | SemValid => _validate_semantics rest tools_schema
              | r => r
              end
          end
      | _ =>
          SemError ("Tool '" ++ py_str (call_name c)
                    ++ "' does not exist. Please check 'available_tools' for the correct name.")
      end
  end.

(** Parse and validation of one raw model output, as both stages of
    [forward] run them: the validated calls, or the text assigned to
    [last_error]. *)
Inductive verdict :=
| Validated (calls : list call)
| Rejected (last_error : string).

Definition judge (tools_schema : list tool_schema) (raw_output : string) : verdict :=
  match _validate_and_parse raw_output with
  | Some ((_ :: _) as validated) =>
      match _validate_semantics validated tools_schema with
      | SemValid => Validated validated
      | SemError sem_error => Rejected ("Semantic Error: " ++ sem_error)
      | SemRaise message => Rejected message
      end
  | _ => Rejected "Output was not a valid JSON list of tool calls"
  end.

(** A [dspy.Prediction]: the raw [tool_calls] text and the
    [_validated_calls] marker ([None] when the attribute is absent). *)
Record prediction := mkPrediction {
  tool_calls : string;
  _validated_calls : option (list call)
}.

(** What one call of a language-model program does. *)
Inductive llm_outcome :=
| Returned (raw_output : string)
| Raised (message : string).          (* [str(e)] of the exception *)

(** [self.fast_agent(query=...)] *)
Variable fast_agent : string -> llm_outcome.
(** [self.smart_prog(user_query=...)] on the attempt of the given number. *)
Variable smart_prog : nat -> string -> llm_outcome.

(** The text an attempt leaves in [last_error], [None] when the
    attempt validated. *)
Definition attempt_error (tools_schema : list tool_schema) (o : llm_outcome)
  : option string :=
  match o with
  | Raised message => Some message
  | Returned raw =>
      match judge tools_schema raw with
      | Rejected e => Some e
      | Validated _ => None
      end
  end.

Definition with_hint (query last_error : string) : string :=
  query ++ String "010" (String "010"
    ("[SYSTEM: Your previous response was invalid. Error: " ++ last_error
     ++ ". Please output ONLY a valid JSON list.]")).

(** [modified_query] on an attempt, given [last_error]. *)
Definition first_query (query : string) (attempt : nat)
           (last_error : option string) : string :=
  match last_error with
  | Some e =>
      if (negb (String.eqb e "") && Nat.ltb 0 attempt)%bool
      then with_hint query e else query
  | None => query
  end.

(** [modified_query] on a retry whose predecessor left the text [e]. *)
Definition retry_query (query e : string) : string :=
  if String.eqb e "" then query else with_hint query e.

(** The outcome of [forward]: the value returned ([None] when
    [return prediction] finds the name unbound) and the queries sent to
    the chain-of-thought program, in order. *)
Record forward_result := mkForward {
  returned : option prediction;
  smart_queries : list string
}.

(** The [for attempt in range(self.max_retries + 1)] loop, from attempt
    number [attempt] with [remaining] iterations to go. *)
Fixpoint stage_b (tools_schema : list tool_schema) (query : string)
         (remaining : nat) (attempt : nat)
         (last_error : option string) (pred : option prediction)
         (sent : list string) : forward_result :=
  match remaining with
  | O => mkForward pred (rev sent)
  | S remaining' =>
      let modified_query := first_query query attempt last_error in
      match smart_prog attempt modified_query with
      | Raised message =>
          stage_b tools_schema query remaining' (S attempt)
                  (Some message) pred (modified_query :: sent)
      | Returned raw =>
          match judge tools_schema raw with
          | Validated validated =>
              mkForward (Some (mkPrediction raw (Some validated)))
                        (rev (modified_query :: sent))
          | Rejected e =>
              stage_b tools_schema query remaining' (S attempt)
                      (Some e) (Some (mkPrediction raw None))
                      (modified_query :: sent)
          end
      end
  end.

Definition forward (max_retries : Z) (query : string)
           (tools_schema : list tool_schema) : forward_result :=
  let attempts := Z.to_nat (max_retries + 1) in
  match fast_agent query with
  | Returned raw =>
      match judge tools_schema raw with
      | Validated validated =>
          mkForward (Some (mkPrediction raw (Some validated))) []
      | Rejected _ =>
          stage_b tools_schema query attempts 0 None
                  (Some (mkPrediction raw None)) []
      end
  | Raised _ => stage_b tools_schema query attempts 0 None None []
  end.
End Validate.

Definition default_max_retries : Z := 2.

End AgentModule.

(** ** Sample inputs for the parse pipeline *)

Module Samples.

(** The double-quote character, for writing JSON text. *)
Definition dq : string := String "034" EmptyString.
Definition quoted (s : string) : string := dq ++ s ++ dq.
Definition nl : string := String "010" EmptyString.

(** [{"name": "docker_list_containers", "arguments": {}}] *)
Definition object_text : string :=
  "{" ++ quoted "name" ++ ": " ++ quoted "docker_list_containers" ++ ", "
      ++ quoted "arguments" ++ ": {}}".
Definition object_value : json :=
  JObj [("name", JStr "docker_list_containers"); ("arguments", JObj [])].

Definition array_text : string := "[" ++ object_text ++ "]".
Definition array_value : json := JArr [object_value].

Definition fenced_text : string :=
  "```json" ++ nl ++ array_text ++ nl ++ "```".
Definition prose_text : string :=
  "Sure, I will list them: " ++ array_text ++ " Done.".

(** [["docker_list_containers"]] and [["docker_stop_container", {"container_id": "web"}]] *)
Definition name_only_text : string := "[" ++ quoted "docker_list_containers" ++ "]".
Definition name_only_value : json := JArr [JStr "docker_list_containers"].
Definition name_args_text : string :=
  "[" ++ quoted "docker_stop_container" ++ ", {" ++ quoted "container_id"
      ++ ": " ++ quoted "web" ++ "}]".
Definition name_args_value : json :=
  JArr [JStr "docker_stop_container"; JObj [("container_id", JStr "web")]].

(** A decoder given by a finite table; like [json_repair.loads] it
    yields the empty string on a text it cannot make sense of. *)
Definition loads_table (table : list (string * json)) (text : string) : option json :=
  match List.find (fun kv => String.eqb (fst kv) text) table with
  | Some kv => Some (snd kv)
  | None => Some (JStr "")
  end.

Definition sample_loads : string -> option json :=
  loads_table [ (array_text, array_value); (object_text, object_value);
                (name_only_text, name_only_value);
                (name_args_text, name_args_value) ].

End Samples.

(** ** devops_agent/smart_router.py *)

Module SmartRouter.

Definition MCP_DOCKER : string := "docker".
Definition MCP_K8S_LOCAL : string := "k8s_local".
Definition MCP_K8S_REMOTE : string := "k8s_remote".
Definition MCP_CHAT : string := "chat".

Definition docker_keywords : list string :=
  [ "docker"; "container"; "image"; "volume"; "network"; "compose" ].
Definition local_keywords : list string :=
  [ "local"; "minikube"; "kind"; "desktop"; "localhost" ].
Definition remote_keywords : list string :=
  [ "remote"; "cluster"; "aws"; "gcp"; "azure"; "cloud"; "production"; "staging" ].
Definition chat_keywords : list string :=
  [ "hi"; "hello"; "hey"; "help"; "who are you"; "what is this"; "thanks";
    "thank you"; "bye"; "test"; "explain"; "why" ].

(** [self.keywords] *)
Definition keywords : list (string * list string) :=
  [ (MCP_DOCKER, docker_keywords); (MCP_K8S_LOCAL, local_keywords);
    (MCP_K8S_REMOTE, remote_keywords); (MCP_CHAT, chat_keywords) ].

Definition k8s_common : list string :=
  [ "pod"; "node"; "deployment"; "service"; "namespace"; "replicaset";
    "configmap"; "secret"; "ingress"; "pvc"; "pv"; "log"; "logs"; "describe";
    "ip"; "port"; "status"; "phase"; "labeled"; "label"; "selector";
    "filtering"; "filter"; "promote"; "trace"; "diff"; "utilization"; "compare" ].

Definition context_indicators : list string :=
  [ "it"; "that"; "this"; "them"; "those"; "here"; "there"; "details"; "more";
    "describe"; "the" ].

(** [any(k in q_lower for k in ks)] *)
Definition mentions_any (ks : list string) (q_lower : string) : bool :=
  existsb (fun k => PyStr.contains k q_lower) ks.

(** What [get_pulse().get_status(MCP_K8S_REMOTE).get("status")] gives:
    a status (or [None]), or an exception anywhere in the [try] block. *)
Inductive pulse_reading :=
| PulseStatus (status : option string)
| PulseUnavailable.

Section Route.
(** [context_cache.get_last_mcp] *)
Variable get_last_mcp : string -> option string.
Variable pulse : pulse_reading.

(** The backend the sticky-context check adds, if any. *)
Definition sticky_backend (q_lower : string) (session_id : option string)
  : option string :=
  let words := PyStr.split q_lower in
  let is_follow_up :=
    existsb (fun w => existsb (String.eqb w) words) context_indicators in
  match session_id with
  | Some sid =>
      if (negb (String.eqb sid "") && is_follow_up)%bool then
        match get_last_mcp sid with
        | Some last_mcp => if String.eqb last_mcp "" then None else Some last_mcp
        | None => None
        end
      else None
  | None => None
  end.

(** Step 1: every backend one of whose keywords occurs in the query. *)
Definition keyword_hit (q_lower : string) (entry : string * list string)
  : gset string :=
  if mentions_any (snd entry) q_lower then {[ fst entry ]} else ∅.

Definition keyword_hits (q_lower : string) : gset string :=
  ⋃ (map (keyword_hit q_lower) keywords).

(** [selected_mcps] after the context check and step 1. *)
Definition after_keywords (q_lower : string) (session_id : option string)
  : gset string :=
  match sticky_backend q_lower session_id with
  | Some last_mcp => {[ last_mcp ]}
  | None => ∅
  end ∪ keyword_hits q_lower.

(** Step 2: a query with a common Kubernetes term and no scope yet. *)
Definition after_k8s_terms (q_lower : string) (selected : gset string)
  : gset string :=
  let is_k8s := mentions_any k8s_common q_lower in
  if is_k8s then
    let has_local := bool_decide (MCP_K8S_LOCAL ∈ selected) in
    let has_remote := bool_decide (MCP_K8S_REMOTE ∈ selected) in
    if (negb has_local && negb has_remote)%bool
    then selected ∪ {[ MCP_K8S_REMOTE ]} ∪ {[ MCP_K8S_LOCAL ]}
    else selected
  else selected.

(** Step 3: the fallback when nothing matched. *)
Definition after_fallback (q_lower : string) (selected : gset string)
  : gset string :=
  if bool_decide (selected = ∅) then
    if (PyStr.contains "status" q_lower || PyStr.contains "check" q_lower)%bool
    then {[ MCP_DOCKER; MCP_K8S_LOCAL; MCP_K8S_REMOTE ]}
    else if Nat.ltb 5 (length (PyStr.split q_lower))
         then {[ MCP_DOCKER; MCP_K8S_LOCAL; MCP_K8S_REMOTE; MCP_CHAT ]}
         else {[ MCP_CHAT ]}
  else selected.

(** [selected_mcps] as it stands in front of the pulse filter. *)
Definition candidates (query : string) (session_id : option string) : gset string :=
  let q_lower := PyStr.lower query in
  after_fallback q_lower
    (after_k8s_terms q_lower (after_keywords q_lower session_id)).

(** The filter on disconnected backends. *)
Definition pulse_filter (q_lower : string) (selected : gset string) : gset string :=
  let is_explicit_remote := PyStr.contains "remote" q_lower in
  if (bool_decide (MCP_K8S_REMOTE ∈ selected) && negb is_explicit_remote)%bool then
    match pulse with
    | PulseStatus (Some "disconnected") => selected ∖ {[ MCP_K8S_REMOTE ]}
    | _ => selected
    end
  else selected.

(** [route]; the returned list is [list(selected_mcps)], a set. *)
Definition route (query : string) (session_id : option string) : gset string :=
  pulse_filter (PyStr.lower query) (candidates query session_id).
End Route.

End SmartRouter.

(** ** devops_agent/mcp/client.py *)

Module McpClient.

(** The three endpoints, built from the settings at import time. *)
Record endpoints := mkEndpoints {
  MCP_URL : string;
  K8S_MCP_URL : string;
  REMOTE_K8S_MCP_URL : string
}.

(** [response.json()] *)
Inductive decoding :=
| Decoded (value : json)
| DecodeError (message : string).

(** What [await client.post(url, json=payload)] does. *)
Inductive post_outcome :=
| ConnectError                      (* [httpx.ConnectError] *)
| TimeoutException                  (* [httpx.TimeoutException] *)
| OtherError (message : string)     (* any other exception, with its [str] *)
| Response (status_code : Z) (body : decoding).

Definition select_url (urls : endpoints) (tool_name : string) : string :=
  if (PyStr.startswith tool_name "local_k8s_" || PyStr.startswith tool_name "k8s_")%bool
  then K8S_MCP_URL urls
  else if PyStr.startswith tool_name "remote_k8s_" then REMOTE_K8S_MCP_URL urls
  else MCP_URL urls.

Definition payload (tool_name : string) (arguments : json) : json :=
  JObj [ ("jsonrpc", JStr "2.0"); ("method", JStr tool_name);
         ("params", arguments); ("id", JInt 1) ].

(** [{"success": False, "error": ...}] *)
Definition failure (error : json) : json :=
  JObj [ ("success", JBool false); ("error", error) ].

(** [response.is_success]: [raise_for_status] raises on any other code. *)
Definition is_success (status_code : Z) : bool :=
  (Z.leb 200 status_code && Z.leb status_code 299)%bool.

Section Call.
Variable urls : endpoints.
(** The network: the outcome of posting a payload to a URL. *)
Variable post : string -> json -> post_outcome.
(** [str] of the [HTTPStatusError] for a status code and URL. *)
Variable status_error_text : Z -> string -> string.
(** [str] of the [TypeError] or [AttributeError] raised when the decoded
    body is not a dict. *)
Variable runtime_error_text : json -> string.

Definition async_error (message : string) : json :=
  failure (JStr ("Async error: " ++ message)).

(** The code after [result = response.json()]. *)
Definition interpret (result : json) : json :=
  match result with
  | JObj fields =>
      match PyVal.get "error" fields with
      | Some error =>
          JObj [ ("success", JBool false); ("error", error);
                 ("original_response", result) ]
      | None =>
          match PyVal.get "result" fields with
          | Some r => r
          | None => failure (JStr "No result returned")
          end
      end
  | _ => async_error (runtime_error_text result)
  end.

Definition call_tool_async (tool_name : string) (arguments : json) : json :=
  let url := select_url urls tool_name in
  match post url (payload tool_name arguments) with
  | Response status_code body =>
      if is_success status_code then
        match body with
        | Decoded result => interpret result
        | DecodeError message => async_error message
        end
      else async_error (status_error_text status_code url)
  | ConnectError =>
      failure (JStr ("Cannot connect to MCP server at " ++ url ++ ". Is it running?"))
  | TimeoutException => failure (JStr "Request timed out")
  | OtherError message => async_error message
  end.
End Call.

(** Reading a returned value as a dict. *)
Definition field (k : string) (v : json) : option json :=
  match v with
  | JObj fields => PyVal.get k fields
  | _ => None
  end.

End McpClient.

(** ** Sample endpoints and payloads for the backend client *)

Module ClientSamples.

(** The endpoints under the default settings. *)
Definition sample_endpoints : McpClient.endpoints :=
  McpClient.mkEndpoints "http://127.0.0.1:8080" "http://127.0.0.1:8081"
                        "http://127.0.0.1:8082".

(** A JSON-RPC error response. *)
Definition sample_error_payload : json :=
  JObj [ ("jsonrpc", JStr "2.0");
         ("error", JObj [("code", JInt (-32601)); ("message", JStr "Method not found")]);
         ("id", JInt 1) ].

End ClientSamples.

(** ** devops_agent/rag/faiss_index.py *)

Module FaissIndex.

Definition EMBEDDING_DIM : nat := 768.

(** One value of [metadata["tools"]]. *)
Record tool_info := mkInfo { idx : nat; description : string }.

(** [self.metadata]: the two dicts.  [idx_to_tool] is keyed by
    [str(idx)]; [str] is injective on integers, so the keys are kept as
    the integers. *)
Record metadata := mkMeta {
  m_tools : gmap string tool_info;
  m_idx_to_tool : gmap nat string
}.

(** The two files [_save] writes, each absent until first written. *)
Record files := mkFiles {
  metadata_file : option metadata;
  index_file : option (list (list Q))
}.

(** The object state.  [index] is the flat index, as the list of its
    vectors in position order ([ntotal] is its length); it is [None]
    when the [faiss] module is missing. *)
Record t := mkIndex {
  faiss_available : bool;
  index : option (list (list Q));
  meta : metadata;
  disk : files
}.

Definition tools (s : t) : gmap string tool_info := m_tools (meta s).
Definition idx_to_tool (s : t) : gmap nat string := m_idx_to_tool (meta s).

Definition empty_metadata : metadata := mkMeta ∅ ∅.

Inductive outcome :=
| ReturnsTrue
| ReturnsFalse
| ReturnsNone
| Raises.

Definition ntotal (s : t) : nat :=
  match index s with Some vectors => length vectors | None => 0%nat end.

(** [count()] *)
Definition count (s : t) : nat := size (tools s).

(** [_create_empty_index]; it raises, before any assignment, when the
    [faiss] module is missing. *)
Definition _create_empty_index (s : t) : t * outcome :=
  if faiss_available s
  then (mkIndex true (Some []) empty_metadata (disk s), ReturnsNone)
  else (s, Raises).

(** [_save]: the metadata file is replaced first, then the index file;
    with no index object [faiss.write_index] raises in between. *)
Definition _save (s : t) : t * outcome :=
  match index s with
  | Some vectors =>
      (mkIndex (faiss_available s) (index s) (meta s)
               (mkFiles (Some (meta s)) (Some vectors)),
       ReturnsNone)
  | None =>
      (mkIndex (faiss_available s) (index s) (meta s)
               (mkFiles (Some (meta s)) (index_file (disk s))),
       Raises)
  end.

(** [FaissToolIndex()] : [_load_or_create] on the files found. *)
Definition init (faiss_ok : bool) (found : files) : t :=
  if faiss_ok then
    match metadata_file found, index_file found with
    | Some m, Some vectors => mkIndex true (Some vectors) m found
    | _, _ => mkIndex true (Some []) empty_metadata found
    end
  else mkIndex false None empty_metadata found.

Definition clear (s : t) : t * outcome :=
  match _create_empty_index s with
  | (s', Raises) => (s', Raises)
  | (s', _) => _save s'
  end.

(** [_rebuild_without]: a new empty index and empty metadata; nothing is
    added back and nothing is saved. *)
Definition _rebuild_without (s : t) (exclude_tool : string) : t * outcome :=
  _create_empty_index s.

Definition remove (s : t) (tool_name : string) : t * outcome :=
  match tools s !! tool_name with
  | None => (s, ReturnsFalse)
  | Some _ =>
      let tools_to_keep := delete tool_name (tools s) in
      if bool_decide (tools_to_keep = ∅) then
        match clear s with
        | (s', Raises) => (s', Raises)
        | (s', _) => (s', ReturnsTrue)
        end
      else
        match _rebuild_without s tool_name with
        | (s', Raises) => (s', Raises)
        | (s', _) => (s', ReturnsTrue)
        end
  end.

Section Add.
(** [faiss.normalize_L2] on a one-row array. *)
Variable normalize_L2 : list Q -> list Q.

Definition add (s : t) (tool_name : string) (embedding : list Q)
           (description : string) : t * outcome :=
  match index s with
  | None => (s, ReturnsFalse)
  | Some _ =>
      if negb (faiss_available s) then (s, ReturnsFalse)
      else
        let emb := normalize_L2 embedding in
        let '(s1, removed) :=
          match tools s !! tool_name with
          | Some _ => remove s tool_name
          | None => (s, ReturnsFalse)
          end in
        match removed, index s1 with
        | Raises, _ => (s1, Raises)
        | _, None => (s1, Raises)
        | _, Some vectors =>
            let idx := length vectors in
            (* [self.index.add(emb)] checks the dimension of the row *)
            if negb (Nat.eqb (length embedding) EMBEDDING_DIM) then (s1, Raises)
            else
              let s2 :=
                mkIndex (faiss_available s1)
                        (Some (vectors ++ [emb])%list)
                        (mkMeta
                           (<[tool_name := mkInfo idx (PyStr.take 200 description)]>
                              (tools s1))
                           (<[idx := tool_name]> (idx_to_tool s1)))
                        (disk s1) in
              match _save s2 with
              | (s3, Raises) => (s3, Raises)
              | (s3, _) => (s3, ReturnsTrue)
              end
        end
  end.
End Add.

Inductive issue :=
| SizeMismatch (index_size tool_count : nat)
| MappingMismatch (name : string).

Record report := mkReport {
  valid : bool;
  tool_count : nat;
  index_size : nat;
  issues : list issue
}.

Definition mapping_issue (s : t) (entry : string * tool_info) : option issue :=
  if bool_decide (idx_to_tool s !! idx (snd entry) = Some (fst entry))
  then None else Some (MappingMismatch (fst entry)).

Definition verify (s : t) : report :=
  let size_issues :=
    match index s with
    | Some vectors =>
        if Nat.eqb (length vectors) (size (tools s)) then []
        else [SizeMismatch (length vectors) (size (tools s))]
    | None => []
    end in
  let mapping_issues := omap (mapping_issue s) (map_to_list (tools s)) in
  let issues := (size_issues ++ mapping_issues)%list in
  mkReport (match issues with [] => true | _ => false end)
           (count s) (ntotal s) issues.

(** Histories of one index object, restarts of the process included. *)
Inductive op :=
| OpAdd (tool_name : string) (embedding : list Q) (description : string)
| OpRemove (tool_name : string)
| OpClear
| OpRestart.

Definition step (normalize_L2 : list Q -> list Q) (s : t) (o : op) : t :=
  match o with
  | OpAdd n e d => fst (add normalize_L2 s n e d)
  | OpRemove n => fst (remove s n)
  | OpClear => fst (clear s)
  | OpRestart => init (faiss_available s) (disk s)
  end.

(** The state after a history that starts with no files on disk. *)
Definition run (normalize_L2 : list Q -> list Q) (faiss_ok : bool) (ops : list op) : t :=
  fold_left (step normalize_L2) ops (init faiss_ok (mkFiles None None)).

(** The consistency invariant of the specification. *)
Definition consistent (s : t) : Prop :=
  ntotal s = size (tools s)
  /\ forall name info, tools s !! name = Some info ->
                       idx_to_tool s !! idx info = Some name.

End FaissIndex.

(** ** Well-formed index states *)

Module FaissInv.
Import FaissIndex.

(** Metadata that fits an index of [n] vectors: one tool per vector,
    every recorded position below [n] and mapped back to its tool. *)
Definition fits (m : metadata) (n : nat) : Prop :=
  size (m_tools m) = n
  /\ forall name info, m_tools m !! name = Some info ->
       (idx info < n)%nat /\ m_idx_to_tool m !! idx info = Some name.

Definition wf (s : t) : Prop :=
  fits (meta s) (ntotal s)
  /\ (forall m vectors,
        metadata_file (disk s) = Some m -> index_file (disk s) = Some vectors ->
        fits m (length vectors)).

End FaissInv.

(** ** devops_agent/rag/tool_retriever.py *)

Module ToolRetriever.

(** A tool descriptor of [self.tools]. *)
Record tool := mkTool {
  name : string;
  description : string;
  parameters : json
}.

(** The retriever with the module-level query cache it uses. *)
Record t := mkRetriever {
  tools : list tool;
  tool_embeddings : gmap string (list Q);      (* the JSON fallback *)
  faiss_index : option FaissIndex.t;
  query_cache : gmap string (list Q)           (* [_ASYNC_QUERY_CACHE] *)
}.

Inductive outcome :=
| Returns (descriptors : list tool)
| Raises.

(** [xs[:n]] for a Python integer [n]. *)
Definition slice_to {A : Type} (n : Z) (xs : list A) : list A :=
  if Z.leb 0 n then firstn (Z.to_nat n) xs
  else firstn (length xs - Z.to_nat (- n)) xs.

(** [scores.sort(key=lambda x: x[0], reverse=True)]: stable, descending. *)
Fixpoint insert_desc {A : Type} (x : Q * A) (l : list (Q * A)) : list (Q * A) :=
  match l with
  | [] => [x]
  | y :: l' =>
      if Vec.Qltb (fst x) (fst y) then y :: insert_desc x l'
      else x :: y :: l'
  end.
Definition sort_desc {A : Type} (l : list (Q * A)) : list (Q * A) :=
  foldr insert_desc [] l.

(** [{t['name']: t for t in self.tools}] *)
Definition tool_map (ts : list tool) : gmap string tool :=
  fold_left (fun m t => <[name t := t]> m) ts ∅.

Section Retrieve.
Variable sqrt : Q -> Q.
(** [async_get_embeddings]: the empty list when the service fails. *)
Variable embed : string -> list Q.
Variable normalize_L2 : list Q -> list Q.
(** [index.search(query, k)] of the flat index: rows of (score,
    position), position [-1] for a missing neighbour; [None] when the
    call raises. *)
Variable faiss_search : list (list Q) -> list Q -> Z -> option (list (Q * Z)).

Definition _get_async_query_embedding (r : t) (query : string) : t * list Q :=
  match query_cache r !! query with
  | Some emb => (r, emb)
  | None =>
      match embed query with
      | [] => (r, [])
      | emb =>
          let cache :=
            if Nat.ltb 256 (size (query_cache r)) then ∅ else query_cache r in
          (mkRetriever (tools r) (tool_embeddings r) (faiss_index r)
                       (<[query := emb]> cache), emb)
      end
  end.

(** [_add_tool_to_faiss] for the tools missing from the index, in list
    order; [None] when an [add] raises. *)
Fixpoint sync_missing (indexed : gset string) (ts : list tool)
         (fi : FaissIndex.t) : option FaissIndex.t :=
  match ts with
  | [] => Some fi
  | tool :: rest =>
      if bool_decide (name tool ∈ indexed) then sync_missing indexed rest fi
      else
        let text := name tool ++ ": " ++ description tool in
        match embed text with
        | [] => sync_missing indexed rest fi
        | emb =>
            match FaissIndex.add normalize_L2 fi (name tool) emb (description tool) with
            | (_, FaissIndex.Raises) => None
            | (fi', _) => sync_missing indexed rest fi'
            end
        end
  end.

Definition _async_ensure_synced (r : t) : option t :=
  match faiss_index r with
  | None => Some r
  | Some fi =>
      match sync_missing (dom (FaissIndex.tools fi)) (tools r) fi with
      | Some fi' =>
          Some (mkRetriever (tools r) (tool_embeddings r) (Some fi') (query_cache r))
      | None => None
      end
  end.

(** The loop of [FaissToolIndex.search] over the rows found. *)
Fixpoint named_results (fi : FaissIndex.t) (rows : list (Q * Z))
  : list (string * Q) :=
  match rows with
  | [] => []
  | (score, i) :: rest =>
      if Z.ltb i 0 then named_results fi rest
      else
        match FaissIndex.idx_to_tool fi !! Z.to_nat i with
        | Some tool_name =>
            if String.eqb tool_name "" then named_results fi rest
            else (tool_name, score) :: named_results fi rest
        | None => named_results fi rest
        end
  end.

(** [FaissToolIndex.search] *)
Definition search (fi : FaissIndex.t) (query_embedding : list Q) (top_k : Z)
  : option (list (string * Q)) :=
  match FaissIndex.index fi with
  | None => Some []
  | Some vectors =>
      if (negb (FaissIndex.faiss_available fi) || Nat.eqb (length vectors) 0)%bool
      then Some []
      else
        let k := Z.min top_k (Z.of_nat (length vectors)) in
        match faiss_search vectors (normalize_L2 query_embedding) k with
        | Some rows => Some (named_results fi rows)
        | None => None
        end
  end.

Definition _retrieve_faiss (r : t) (fi : FaissIndex.t) (query_emb : list Q)
           (top_k : Z) : outcome :=
  match search fi query_emb top_k with
  | Some results =>
      Returns (omap (fun res => tool_map (tools r) !! fst res) results)
  | None => Raises
  end.

Definition _retrieve_json (r : t) (query_emb : list Q) (top_k : Z) : outcome :=
  let scores :=
    map (fun tool =>
           match tool_embeddings r !! name tool with
           | Some ((_ :: _) as emb) =>
               (Vec.cosine_similarity sqrt query_emb emb, tool)
           | _ => (0%Q, tool)
           end) (tools r) in
  Returns (map snd (slice_to top_k (sort_desc scores))).

Definition retrieve (r : t) (query : string) (top_k : Z) : t * outcome :=
  match _async_ensure_synced r with
  | None => (r, Raises)
  | Some r1 =>
      let '(r2, query_emb) := _get_async_query_embedding r1 query in
      match query_emb with
      | [] => (r2, Returns (tools r2))
      | _ =>
          match faiss_index r2 with
          | Some fi =>
              if Nat.ltb 0 (FaissIndex.count fi)
              then (r2, _retrieve_faiss r2 fi query_emb top_k)
              else (r2, _retrieve_json r2 query_emb top_k)
          | None => (r2, _retrieve_json r2 query_emb top_k)
          end
      end
  end.
End Retrieve.

(** A flat inner-product search to run the definitions with: the [k]
    best positions by inner product, and an error for [k <= 0] as the
    FAISS wrapper raises there. *)
Fixpoint indexed_scores (q : list Q) (vectors : list (list Q)) (pos : Z)
  : list (Q * Z) :=
  match vectors with
  | [] => []
  | v :: rest => (Vec.dot q v, pos) :: indexed_scores q rest (pos + 1)
  end.

Definition flat_search (vectors : list (list Q)) (q : list Q) (k : Z)
  : option (list (Q * Z)) :=
  if Z.leb k 0 then None
  else
    let ranked := sort_desc (indexed_scores q vectors 0) in
    let found := firstn (Z.to_nat k) ranked in
    Some (found ++ repeat ((-1)%Q, (-1)%Z) (Z.to_nat k - length found))%list.

End ToolRetriever.

(** ** Sample retrievers *)

Module RetrieverSamples.
Import ToolRetriever.

Definition three_tools : list tool :=
  [ mkTool "docker_list_containers" "List containers" (JObj []);
    mkTool "local_k8s_list_pods" "List pods" (JObj []);
    mkTool "remote_k8s_list_nodes" "List nodes" (JObj []) ].

(** A retriever on the JSON fallback, with cached tool embeddings. *)
Definition json_retriever : t :=
  mkRetriever three_tools
    (<["docker_list_containers" := [1; 0]%Q]>
       (<["local_k8s_list_pods" := [0; 1]%Q]>
          (<["remote_k8s_list_nodes" := [3; 4]%Q]> ∅)))
    None ∅.

(** An embedding service that is down. *)
Definition embed_down : string -> list Q := fun _ => [].

(** An embedding service that answers the query only. *)
Definition embed_query_only : string -> list Q :=
  fun text => if String.eqb text "show pods" then [0; 2]%Q else [].


End RetrieverSamples.

(** ** devops_agent/agent_module.py: [parse_dspy_tool_calls] *)

Module AgentParse.
Import AgentModule.

(** [\w] on ASCII text: letters, digits and the underscore. *)
Definition is_word (c : ascii) : bool :=
  let n := nat_of_ascii c in
  ((Nat.leb 48 n && Nat.leb n 57) || (Nat.leb 65 n && Nat.leb n 90)
   || (Nat.leb 97 n && Nat.leb n 122) || Nat.eqb n 95)%bool.

Fixpoint all_word (s : string) : bool :=
  match s with
  | EmptyString => true
  | String c s' => (is_word c && all_word s')%bool
  end.

(** The longest run of word characters at the start of [s] (greedy [\w+]). *)
Fixpoint word_run (s : string) : string :=
  match s with
  | String c s' => if is_word c then String c (word_run s') else EmptyString
  | EmptyString => EmptyString
  end.

(** One alternative [lit\w+] tried at the start of [s]. *)
Definition match_alt (lit s : string) : option string :=
  if String.prefix lit s then
    match word_run (PyStr.drop (String.length lit) s) with
    | EmptyString => None
    | run => Some (lit ++ run)
    end
  else None.

(** [(remote_k8s_\w+|k8s_\w+|docker_\w+)] tried at the start of [s], the
    alternatives in their order. *)
Definition match_at (s : string) : option string :=
  match match_alt "remote_k8s_" s with
  | Some m => Some m
  | None =>
      match match_alt "k8s_" s with
      | Some m => Some m
      | None => match_alt "docker_" s
      end
  end.

(** [re.findall(tool_pattern, cleaned)[0]]: the leftmost match. *)
Fixpoint first_tool_mention (s : string) : option string :=
  match match_at s with
  | Some m => Some m
  | None =>
      match s with
      | EmptyString => None
      | String _ s' => first_tool_mention s'
      end
  end.

(** The argument of [parse_dspy_tool_calls]: a prediction, a string, or
    anything else. *)
Inductive dspy_output :=
| OutPrediction (p : prediction)
| OutStr (s : string)
| OutOther.

Section Parse.
Variable loads : string -> option json.

Definition parse_dspy_tool_calls (output : dspy_output) : list call :=
  match output with
  | OutPrediction p =>
      match _validated_calls p with
      | Some calls => calls          (* [hasattr(output, '_validated_calls')] *)
      | None => []                   (* unexpected output type *)
      end
  | OutStr s =>
      match _validate_and_parse loads s with
      | Some ((_ :: _) as result) => result
      | _ =>
          match first_tool_mention (PyStr.strip s) with
          | Some m => [mkCall (JStr m) (JObj [])]
          | None => []
          end
      end
  | OutOther => []
  end.
End Parse.

(** The bracket count the extraction loop holds after reading [s]. *)
Fixpoint net_count (opening closing : ascii) (s : string) : Z :=
  match s with
  | EmptyString => 0
  | String c s' =>
      (if Ascii.eqb c opening then 1
       else if Ascii.eqb c closing then -1 else 0)
      + net_count opening closing s'
  end.

End AgentParse.

(** ** devops_agent/mcp/client.py: the synchronous client *)

Module McpSyncClient.
Import McpClient.

(** What [requests.post(url, json=payload, timeout=30)] does. *)
Inductive post_outcome :=
| ConnectionError                   (* [requests.exceptions.ConnectionError] *)
| OtherError (message : string)     (* any other exception, with its [str] *)
| Response (status_code : Z) (body : decoding).

(** What a Python expression evaluates to. *)
Inductive outcome (A : Type) :=
| Returns (a : A)
| Raises.
Arguments Returns {A} a.
Arguments Raises {A}.

(** [x in v] for a string [x]: key membership on a dict, element
    membership on a list, substring on a string, and a [TypeError]
    ([None]) on the other values. *)
Definition py_in (x : string) (v : json) : option bool :=
  match v with
  | JObj fields => Some (PyVal.has_key x fields)
  | JArr items =>
      Some (existsb (fun item => match item with
                                 | JStr s => String.eqb s x
                                 | _ => false
                                 end) items)
  | JStr s => Some (PyStr.contains x s)
  | _ => None
  end.

Section Call.
Variable urls : endpoints.
Variable post : string -> json -> post_outcome.
(** [response.raise_for_status()]: the text of the [HTTPError] it raises
    for a status code and URL, or [None] when it returns. *)
Variable http_error : Z -> string -> option string.
(** [str] of the [TypeError] or [AttributeError] raised when the decoded
    body is not a dict. *)
Variable runtime_error_text : json -> string.

Definition sync_error (message : string) : json :=
  failure (JStr ("Error: " ++ message)).

Definition _sync_call (url tool_name : string) (arguments : json) : json :=
  match post url (payload tool_name arguments) with
  | Response status_code body =>
      match http_error status_code url with
      | Some message => sync_error message
      | None =>
          match body with
          | Decoded result =>
              match result with
              | JObj fields =>
                  match PyVal.get "error" fields with
                  | Some error => failure error
                  | None =>
                      match PyVal.get "result" fields with
                      | Some r => r
                      | None => failure (JStr "No result")
                      end
                  end
              | _ => sync_error (runtime_error_text result)
              end
          | DecodeError message => sync_error message
          end
      end
  | ConnectionError => failure (JStr ("Cannot connect to server at " ++ url))
  | OtherError message => sync_error message
  end.

Definition call_tool (tool_name : string) (arguments : json) : json :=
  _sync_call (MCP_URL urls) tool_name arguments.

Definition call_k8s_tool (tool_name : string) (arguments : json) : json :=
  _sync_call (K8S_MCP_URL urls) tool_name arguments.

Definition call_remote_k8s_tool (tool_name : string) (arguments : json) : json :=
  _sync_call (REMOTE_K8S_MCP_URL urls) tool_name arguments.

(** ["error" not in res or "Cannot connect" not in res.get("error", "")] *)
Definition connection_verdict (res : json) : outcome bool :=
  match py_in "error" res with
  | None => Raises
  | Some false => Returns true
  | Some true =>
      match res with
      | JObj fields =>
          let error := match PyVal.get "error" fields with
                       | Some e => e
                       | None => JStr ""
                       end in
          match py_in "Cannot connect" error with
          | Some b => Returns (negb b)
          | None => Raises
          end
      | _ => Raises                 (* [res.get]: no such attribute *)
      end
  end.

Definition test_connection : outcome bool :=
  connection_verdict (call_tool "docker_list_containers" (JObj [])).

Definition test_k8s_connection : outcome bool :=
  connection_verdict
    (call_k8s_tool "local_k8s_list_pods" (JObj [("namespace", JStr "default")])).

Definition test_remote_k8s_connection : outcome bool :=
  connection_verdict
    (call_remote_k8s_tool "remote_k8s_list_pods" (JObj [("namespace", JStr "default")])).
End Call.

End McpSyncClient.

(** ** devops_agent/rag/faiss_index.py: [get_info] *)

Module FaissQueries.
Import FaissIndex.

(** The dict [get_info] returns. *)
Record info_view := mkView {
  v_name : string;
  v_idx : nat;
  v_description : string;
  v_indexed : bool
}.

Definition get_info (s : t) (tool_name : string) : option info_view :=
  match tools s !! tool_name with
  | None => None
  | Some info => Some (mkView tool_name (idx info) (description info) true)
  end.

End FaissQueries.

(* ===================================================================== *)
(** * Part II: properties *)
(* ===================================================================== *)

(** ** Strings *)

Lemma prefix_app_iff (p s : string) :
  String.prefix p s = true <-> exists r, s = p ++ r.
Proof.
  revert s; induction p as [|c p IH]; intros s; simpl.
  - split; [intros _; exists s; reflexivity | intros _; destruct s; reflexivity].
  - destruct s as [|d s]; simpl.
    + split; [discriminate | intros [r Hr]; discriminate].
    + destruct (ascii_dec c d) as [->|Hne].
      * rewrite IH. split; intros [r Hr]; exists r; [rewrite Hr; reflexivity|].
        injection Hr as Hr. exact Hr.
      * split; [discriminate | intros [r Hr]; injection Hr as Hc _; congruence].
Qed.

Lemma contains_unfold (k s : string) :
  PyStr.contains k s =
  if String.prefix k s then true
  else match s with
       | EmptyString => false
       | String _ s' => PyStr.contains k s'
       end.
Proof. destruct s; reflexivity. Qed.

Lemma contains_app_iff (k s : string) :
  PyStr.contains k s = true <-> exists a b, s = a ++ k ++ b.
Proof.
  induction s as [|c s IH]; rewrite contains_unfold;
    destruct (String.prefix k _) eqn:Hp.
  - split; [intros _ | reflexivity].
    apply prefix_app_iff in Hp as [r Hr]. exists "", r. exact Hr.
  - split; [discriminate|]. intros (a & b & Hab).
    destruct a; simpl in Hab; [|discriminate].
    assert (String.prefix k "" = true) by (apply prefix_app_iff; eauto).
    congruence.
  - split; [intros _ | reflexivity].
    apply prefix_app_iff in Hp as [r Hr]. exists "", r. exact Hr.
  - rewrite IH. split.
    + intros (a & b & ->). exists (String c a), b. reflexivity.
    + intros (a & b & Hab). destruct a as [|d a]; simpl in Hab.
      * assert (String.prefix k (String c s) = true)
          by (apply prefix_app_iff; eauto). congruence.
      * injection Hab as _ Hab. eauto.
Qed.

(** ** Safety classifier *)

Example is_dangerous_stop : Safety.is_dangerous "docker_stop_container" = true.
Proof. reflexivity. Qed.

Example is_dangerous_list : Safety.is_dangerous "docker_list_containers" = false.
Proof. reflexivity. Qed.

Example is_dangerous_bare_k8s_delete : Safety.is_dangerous "k8s_delete_pod" = true.
Proof. reflexivity. Qed.

Example analyze_risk_exec :
  Safety.ra_impact_analysis
    (Safety.analyze_risk (fun _ => "ls") "remote_k8s_exec_command"
       (<["command" := JStr "ls"]> ∅))
  = [ "Executes arbitrary command: 'ls'";
      "Full shell access risks.";
      "Potential system modification." ].
Proof. vm_compute. reflexivity. Qed.

(** C1, as stated, fails: the name [k8s_delete_pod] starts with the code's
    prefix [k8s_delete] and is classified dangerous, yet it matches none of
    the prefixes the claim lists (nothing precedes [k8s_delete], so the
    pattern [*_k8s_delete] does not apply) and is not [docker_run_container]. *)
Lemma safety_spec_set_counterexample :
  ~ (forall name : string,
        Safety.is_dangerous name = true <-> Safety.spec_dangerous name = true).
Proof.
  intros H. specialize (H "k8s_delete_pod").
  destruct H as [H _]. specialize (H eq_refl). vm_compute in H. discriminate.
Qed.

(** C1 (amended): a tool name is dangerous if and only if it is exactly
    [docker_run_container] or starts with one of the eight prefixes
    docker_stop, docker_rm, docker_prune, k8s_delete, local_k8s_delete,
    remote_k8s_delete, remote_k8s_promote, remote_k8s_exec; [analyze_risk]
    is a function of (name, arguments) whose report carries the classifier's
    verdict, is HIGH for a dangerous name, and is the non-dangerous LOW
    report with no impacts for every other name. *)
Theorem safety_classifier_exact
    (py_str : json -> string) (name : string) (arguments : gmap string json) :
  (Safety.is_dangerous name = true <->
     name = "docker_run_container" \/
     exists p, In p [ "docker_stop"; "docker_rm"; "docker_prune";
                      "k8s_delete"; "local_k8s_delete"; "remote_k8s_delete";
                      "remote_k8s_promote"; "remote_k8s_exec" ]
               /\ PyStr.startswith name p = true)
  /\ Safety.ra_is_dangerous (Safety.analyze_risk py_str name arguments)
     = Safety.is_dangerous name
  /\ (if Safety.is_dangerous name
      then Safety.ra_risk_level (Safety.analyze_risk py_str name arguments) = "HIGH"
      else Safety.analyze_risk py_str name arguments = Safety.mkRisk false "LOW" "" []).
Proof.
  split; [|split].
  - unfold Safety.is_dangerous, Safety.DANGEROUS_TOOLS_EXACT.
    cbn [existsb]. rewrite orb_false_r.
    destruct (String.eqb_spec name "docker_run_container") as [->|Hne].
    + split; [intros _; left; reflexivity | reflexivity].
    + rewrite existsb_exists. split.
      * intros (p & Hin & Hp). right. exists p. split; assumption.
      * intros [Heq | (p & Hin & Hp)]; [contradiction|]. exists p. split; assumption.
  - unfold Safety.analyze_risk. destruct (Safety.is_dangerous name); reflexivity.
  - unfold Safety.analyze_risk. destruct (Safety.is_dangerous name); reflexivity.
Qed.

(** ** Scores and thresholds *)



(** *** The order of binary64 numbers

    [<] and [<=] on floats are those of the IEEE 754 comparison: a
    comparison with NaN is false, and the numbers other than NaN are
    totally ordered. *)

Ltac sf_compare_cases :=
  repeat match goal with
  | |- context [(?a ?= ?b)%Z] => destruct (Z.compare_spec a b)
  | |- context [PosDef.Pos.compare_cont Eq ?a ?b] =>
      change (PosDef.Pos.compare_cont Eq a b) with (Pos.compare a b);
      destruct (Pos.compare_spec a b)
  end.

Ltac sf_solve :=
  unfold SFltb, SFleb, SFeqb, SFcompare;
  repeat match goal with
  | f : spec_float |- _ => destruct f as [[]|[]| |[] ? ?]
  end;
  try (intros; discriminate); try (intros; reflexivity);
  sf_compare_cases; cbn [CompOpp]; intros; subst;
  try discriminate; try reflexivity; try lia.

Lemma SFltb_trans (a b c : spec_float) :
  SFltb a b = true -> SFltb b c = true -> SFltb a c = true.
Proof. sf_solve. Qed.

Lemma SFleb_trans (a b c : spec_float) :
  SFleb a b = true -> SFleb b c = true -> SFleb a c = true.
Proof. sf_solve. Qed.

Lemma SFltb_leb_trans (a b c : spec_float) :
  SFltb a b = true -> SFleb b c = true -> SFltb a c = true.
Proof. sf_solve. Qed.

Lemma SFltb_false_leb (a b : spec_float) :
  SFltb a b = false -> SFeqb a a = true -> SFeqb b b = true -> SFleb b a = true.
Proof. sf_solve. Qed.

Lemma SFleb_not_ltb (a b : spec_float) :
  SFleb a b = true -> SFltb b a = false.
Proof. sf_solve. Qed.

Lemma SFltb_irrefl (a : spec_float) : SFltb a a = false.
Proof. sf_solve. Qed.

Lemma SFleb_not_nan (a b : spec_float) :
  SFleb a b = true -> SFeqb a a = true /\ SFeqb b b = true.
Proof. sf_solve; split; try reflexivity; try lia. Qed.

Lemma SFltb_not_nan (a b : spec_float) :
  SFltb a b = true -> SFeqb a a = true /\ SFeqb b b = true.
Proof. sf_solve; split; try reflexivity; try lia. Qed.

Section FloatOrder.
Local Open Scope float_scope.

Lemma f64_ltb_trans (a b c : float) :
  (a <? b) = true -> (b <? c) = true -> (a <? c) = true.
Proof. rewrite !FloatAxioms.ltb_spec. apply SFltb_trans. Qed.

Lemma f64_leb_trans (a b c : float) :
  (a <=? b) = true -> (b <=? c) = true -> (a <=? c) = true.
Proof. rewrite !FloatAxioms.leb_spec. apply SFleb_trans. Qed.

Lemma f64_ltb_leb_trans (a b c : float) :
  (a <? b) = true -> (b <=? c) = true -> (a <? c) = true.
Proof. rewrite !FloatAxioms.ltb_spec, FloatAxioms.leb_spec. apply SFltb_leb_trans. Qed.

(** The numbers other than NaN are totally ordered. *)
Lemma f64_total (a b : float) :
  (a <? b) = false -> (a =? a) = true -> (b =? b) = true -> (b <=? a) = true.
Proof. rewrite FloatAxioms.ltb_spec, FloatAxioms.leb_spec, !FloatAxioms.eqb_spec. apply SFltb_false_leb. Qed.

Lemma f64_leb_not_ltb (a b : float) : (a <=? b) = true -> (b <? a) = false.
Proof. rewrite FloatAxioms.ltb_spec, FloatAxioms.leb_spec. apply SFleb_not_ltb. Qed.

Lemma f64_ltb_irrefl (a : float) : (a <? a) = false.
Proof. rewrite FloatAxioms.ltb_spec. apply SFltb_irrefl. Qed.

Lemma f64_leb_not_nan (a b : float) :
  (a <=? b) = true -> (a =? a) = true /\ (b =? b) = true.
Proof. rewrite FloatAxioms.leb_spec, !FloatAxioms.eqb_spec. apply SFleb_not_nan. Qed.

Lemma f64_ltb_not_nan (a b : float) :
  (a <? b) = true -> (a =? a) = true /\ (b =? b) = true.
Proof. rewrite FloatAxioms.ltb_spec, !FloatAxioms.eqb_spec. apply SFltb_not_nan. Qed.
End FloatOrder.

(** *** The scan of [lookup] and of the semantic tier *)

Section ArgmaxScan.
Context {A : Type} (score : A -> float) (ok : A -> bool).

(** The scan returns its start value or an admissible element with its
    score. *)
Lemma argmax_scan_who (xs : list A) (acc : float * option A) :
  let r := Ref.argmax_scan score ok xs acc in
  r = acc \/ exists x, In x xs /\ ok x = true /\ r = (score x, Some x).
Proof.
  revert acc. induction xs as [|x xs IH]; intros acc; cbn zeta; [left; reflexivity|].
  cbn [Ref.argmax_scan]. destruct (ok x) eqn:Hok; cbn [negb].
  - destruct (PrimFloat.ltb (fst acc) (score x)).
    + destruct (IH (score x, Some x)) as [-> | (y & Hy & Hy' & ->)].
      * right. exists x. split; [left; reflexivity | auto].
      * right. exists y. split; [right; exact Hy | auto].
    + destruct (IH acc) as [-> | (y & Hy & Hy' & ->)]; [left; reflexivity|].
      right. exists y. split; [right; exact Hy | auto].
  - destruct (IH acc) as [-> | (y & Hy & Hy' & ->)]; [left; reflexivity|].
    right. exists y. split; [right; exact Hy | auto].
Qed.

(** Started on a number, the scan ends on a number that neither the
    start value nor the score of any admissible element exceeds. *)
Lemma argmax_scan_max (xs : list A) (acc : float * option A) :
  PrimFloat.eqb (fst acc) (fst acc) = true ->
  let r := Ref.argmax_scan score ok xs acc in
  PrimFloat.eqb (fst r) (fst r) = true
  /\ PrimFloat.ltb (fst r) (fst acc) = false
  /\ forall x, In x xs -> ok x = true -> PrimFloat.ltb (fst r) (score x) = false.
Proof.
  revert acc. induction xs as [|x xs IH]; intros acc Hacc; cbn zeta.
  - cbn [Ref.argmax_scan]. split; [exact Hacc|].
    split; [apply f64_ltb_irrefl | intros ? []].
  - cbn [Ref.argmax_scan]. destruct (ok x) eqn:Hok; cbn [negb].
    + destruct (PrimFloat.ltb (fst acc) (score x)) eqn:Hlt.
      * destruct (f64_ltb_not_nan _ _ Hlt) as [_ Hs].
        destruct (IH (score x, Some x) Hs) as (Hr & Hge & Hmax). cbn [fst] in Hge.
        split; [exact Hr|]. split.
        -- destruct (PrimFloat.ltb (fst (Ref.argmax_scan score ok xs (score x, Some x)))
                       (fst acc)) eqn:E; [|reflexivity].
           rewrite (f64_ltb_trans _ _ _ E Hlt) in Hge. discriminate.
        -- intros y [<-|Hy] Hy'; [exact Hge | exact (Hmax y Hy Hy')].
      * destruct (IH acc Hacc) as (Hr & Hge & Hmax).
        split; [exact Hr|]. split; [exact Hge|].
        intros y [<-|Hy] Hy'; [|exact (Hmax y Hy Hy')].
        destruct (PrimFloat.ltb (fst (Ref.argmax_scan score ok xs acc)) (score x))
          eqn:E; [|reflexivity].
        destruct (f64_ltb_not_nan _ _ E) as [_ Hs].
        pose proof (f64_total _ _ Hlt Hacc Hs) as Hle.
        rewrite (f64_ltb_leb_trans _ _ _ E Hle) in Hge. discriminate.
    + destruct (IH acc Hacc) as (Hr & Hge & Hmax).
      split; [exact Hr|]. split; [exact Hge|].
      intros y [<-|Hy] Hy'; [congruence | exact (Hmax y Hy Hy')].
Qed.

(** Started from [(-1.0, None)], the running maximum passes a test [cmp
    t] that is closed upwards and fails at -1.0 exactly when the score
    of an admissible element passes it, and then the scan holds an
    admissible element that none outscores. *)
Lemma argmax_scan_reaches (cmp : float -> float -> bool) (xs : list A) (t : float) :
  (forall a b c, cmp a b = true -> PrimFloat.leb b c = true -> cmp a c = true) ->
  (forall a b, cmp a b = true -> PrimFloat.eqb b b = true) ->
  cmp t (-1)%float = false ->
  let r := Ref.argmax_scan score ok xs ((-1)%float, None) in
  (cmp t (fst r) = true <-> exists x, In x xs /\ ok x = true /\ cmp t (score x) = true)
  /\ (cmp t (fst r) = true ->
      exists x, In x xs /\ ok x = true /\ r = (score x, Some x)
                /\ forall y, In y xs -> ok y = true ->
                             PrimFloat.ltb (score x) (score y) = false).
Proof.
  intros Hmono Hnum Hlow r.
  destruct (argmax_scan_max xs ((-1)%float, None) eq_refl) as (Hr & _ & Hmax).
  pose proof (argmax_scan_who xs ((-1)%float, None)) as Hwho.
  cbn zeta in Hwho. fold r in Hr, Hmax, Hwho.
  assert (Hsel : cmp t (fst r) = true ->
                 exists x, In x xs /\ ok x = true /\ r = (score x, Some x)
                           /\ forall y, In y xs -> ok y = true ->
                                        PrimFloat.ltb (score x) (score y) = false).
  { intros Hc. destruct Hwho as [Heq | (x & Hin & Hok & Hx)].
    - rewrite Heq in Hc. cbn [fst] in Hc. congruence.
    - exists x. split; [exact Hin|]. split; [exact Hok|]. split; [exact Hx|].
      intros y Hy Hy'. rewrite Hx in Hmax. exact (Hmax y Hy Hy'). }
  split; [|exact Hsel]. split.
  - intros Hc. destruct (Hsel Hc) as (x & Hin & Hok & Hx & _).
    exists x. rewrite Hx in Hc. auto.
  - intros (x & Hin & Hok & Hc).
    apply (Hmono _ _ _ Hc). apply f64_total; [apply Hmax; assumption | exact Hr|].
    exact (Hnum _ _ Hc).
Qed.
End ArgmaxScan.

Lemma cache_scan_argmax fsum sqrt q mcp es acc :
  SemanticCache.scan fsum sqrt q mcp es acc
  = Ref.argmax_scan
      (fun e => SemanticCache._cosine_similarity fsum sqrt q (SemanticCache.e_embedding e))
      (SemanticCache.eligible mcp) es acc.
Proof.
  revert acc. induction es as [|e es IH]; intros acc; simpl; [reflexivity|].
  destruct (SemanticCache.eligible mcp e); simpl; [|apply IH].
  destruct (PrimFloat.ltb _ _); apply IH.
Qed.

Lemma router_scan_argmax fsum sqrt q ints acc :
  IntentRouter.scan fsum sqrt q ints acc
  = Ref.argmax_scan
      (fun i => IntentRouter._cosine_similarity fsum sqrt q (IntentRouter.i_embedding i))
      (fun _ => true) ints acc.
Proof.
  revert acc. induction ints as [|i ints IH]; intros acc; simpl; [reflexivity|].
  destruct (PrimFloat.ltb _ _); apply IH.
Qed.

(** What [lookup] answers, read off the scan. *)
Lemma lookup_hit_inv
    (fsum : list float -> float) (sqrt : float -> float)
    (embed : string -> list float) (c : SemanticCache.t)
    (query : string) (mcp : option string) :
  let score := fun e =>
    SemanticCache._cosine_similarity fsum sqrt (embed query) (SemanticCache.e_embedding e) in
  match SemanticCache.lookup fsum sqrt embed c query mcp with
  | SemanticCache.Hit out tcs =>
      exists e,
        In e (SemanticCache.entries c)
        /\ SemanticCache.eligible mcp e = true
        /\ out = SemanticCache.e_output e
        /\ tcs = SemanticCache.e_tool_calls e
        /\ PrimFloat.leb (SemanticCache.threshold c) (score e) = true
        /\ forall e', In e' (SemanticCache.entries c) ->
                      SemanticCache.eligible mcp e' = true ->
                      PrimFloat.ltb (score e) (score e') = false
  | SemanticCache.Miss => True
  | SemanticCache.LookupTypeError =>
      PrimFloat.leb (SemanticCache.threshold c) (-1)%float = true
  end.
Proof.
  cbn zeta. unfold SemanticCache.lookup.
  destruct (SemanticCache.entries c) as [|e0 es0] eqn:Hes; [exact I|].
  rewrite <- Hes. clear Hes.
  destruct (embed query) as [|q0 qs] eqn:Hq; [exact I|].
  rewrite cache_scan_argmax.
  set (score := fun e => SemanticCache._cosine_similarity fsum sqrt (q0 :: qs)
                           (SemanticCache.e_embedding e)).
  destruct (argmax_scan_max score (SemanticCache.eligible mcp)
              (SemanticCache.entries c) ((-1)%float, None) eq_refl) as (_ & _ & Hmax).
  pose proof (argmax_scan_who score (SemanticCache.eligible mcp)
                (SemanticCache.entries c) ((-1)%float, None)) as Hwho.
  cbn zeta in Hwho.
  destruct (Ref.argmax_scan _ _ _ _) as [h b] eqn:Hscan. cbn [fst] in *.
  destruct (PrimFloat.leb (SemanticCache.threshold c) h) eqn:Hle; [|exact I].
  destruct Hwho as [Heq | (x & Hin & Hok & Hx)].
  - injection Heq as -> ->. exact Hle.
  - injection Hx as -> ->. exists x. repeat split; auto.
Qed.

Lemma cache_lookup_hit_iff
    (fsum : list float -> float) (sqrt : float -> float)
    (embed : string -> list float)
    (es : list SemanticCache.entry) (w : list (list SemanticCache.entry))
    (query : string) (mcp : option string) :
  let score := fun e =>
    SemanticCache._cosine_similarity fsum sqrt (embed query) (SemanticCache.e_embedding e) in
  Ref.is_hit (SemanticCache.lookup fsum sqrt embed
                (SemanticCache.mkCache SemanticCache.default_threshold es w)
                query mcp) = true
  <-> exists e, In e es /\ SemanticCache.eligible mcp e = true
        /\ PrimFloat.leb PyFloat.lit_0_98 (score e) = true.
Proof.
  cbn zeta. unfold SemanticCache.lookup.
  cbn [SemanticCache.entries SemanticCache.threshold].
  destruct es as [|e0 es0] eqn:Hes.
  { simpl. split; [discriminate | intros (e & [] & _)]. }
  rewrite <- Hes. clear Hes.
  destruct (embed query) as [|q0 qs] eqn:Hq.
  { simpl. split; [discriminate|]. intros (e & _ & _ & Hle). discriminate. }
  rewrite cache_scan_argmax.
  set (score := fun e => SemanticCache._cosine_similarity fsum sqrt (q0 :: qs)
                           (SemanticCache.e_embedding e)).
  pose proof (argmax_scan_reaches score (SemanticCache.eligible mcp)
                PrimFloat.leb es PyFloat.lit_0_98) as H.
  subst score. cbn zeta beta in H. destruct H as [Hiff Hsel].
  { apply f64_leb_trans. }
  { intros a b Hab. apply (f64_leb_not_nan a b Hab). }
  { reflexivity. }
  destruct (Ref.argmax_scan _ _ es _) as [h b] eqn:Hscan.
  cbn [fst] in Hiff, Hsel. rewrite <- Hiff.
  unfold SemanticCache.default_threshold.
  destruct (PrimFloat.leb PyFloat.lit_0_98 h) eqn:Hle.
  - destruct (Hsel eq_refl) as (x & _ & _ & Hx & _).
    injection Hx as _ ->. simpl. split; auto.
  - simpl. split; discriminate.
Qed.

Lemma semantic_tier_match_iff
    (fsum : list float -> float) (sqrt : float -> float)
    (embed : string -> list float)
    (intents : list IntentRouter.SemanticIntent) (query : string) :
  let score := fun i =>
    IntentRouter._cosine_similarity fsum sqrt (embed query) (IntentRouter.i_embedding i) in
  IntentRouter.semantic_tier fsum sqrt embed intents query <> None
  <-> exists i, In i intents /\ PrimFloat.ltb PyFloat.lit_0_82 (score i) = true.
Proof.
  cbn zeta. unfold IntentRouter.semantic_tier.
  destruct intents as [|i0 is0] eqn:His.
  { split; [congruence | intros (i & [] & _)]. }
  rewrite <- His. clear His.
  destruct (embed query) as [|q0 qs] eqn:Hq.
  { split; [congruence|]. intros (i & _ & Hlt). discriminate. }
  rewrite router_scan_argmax.
  set (score := fun i => IntentRouter._cosine_similarity fsum sqrt (q0 :: qs)
                           (IntentRouter.i_embedding i)).
  pose proof (argmax_scan_reaches score (fun _ => true)
                PrimFloat.ltb intents PyFloat.lit_0_82) as H.
  subst score. cbn zeta beta in H. destruct H as [Hiff Hsel].
  { apply f64_ltb_leb_trans. }
  { intros a b Hab. apply (f64_ltb_not_nan a b Hab). }
  { reflexivity. }
  destruct (Ref.argmax_scan _ _ intents _) as [h b] eqn:Hscan.
  cbn [fst] in Hiff, Hsel.
  assert (Hex : (exists i, In i intents
                   /\ PrimFloat.ltb PyFloat.lit_0_82
                        (IntentRouter._cosine_similarity fsum sqrt (q0 :: qs)
                           (IntentRouter.i_embedding i)) = true)
                <-> PrimFloat.ltb PyFloat.lit_0_82 h = true).
  { rewrite Hiff. split; intros (i & Hi); exists i; tauto. }
  rewrite Hex. unfold IntentRouter.SEMANTIC_THRESHOLD.
  destruct (PrimFloat.ltb PyFloat.lit_0_82 h) eqn:Hlt.
  - destruct (Hsel eq_refl) as (x & _ & _ & Hx & _).
    injection Hx as _ ->. split; [auto | congruence].
  - split; [congruence | discriminate].
Qed.

Lemma semantic_tier_inv
    (fsum : list float -> float) (sqrt : float -> float)
    (embed : string -> list float)
    (intents : list IntentRouter.SemanticIntent) (query : string)
    (calls : list IntentRouter.tool_call) :
  let score := fun i =>
    IntentRouter._cosine_similarity fsum sqrt (embed query) (IntentRouter.i_embedding i) in
  IntentRouter.semantic_tier fsum sqrt embed intents query = Some calls ->
  exists i,
    In i intents
    /\ calls = [IntentRouter.mkCall (IntentRouter.i_tool i) (IntentRouter.i_args i)]
    /\ PrimFloat.ltb PyFloat.lit_0_82 (score i) = true
    /\ forall j, In j intents -> PrimFloat.ltb (score i) (score j) = false.
Proof.
  cbn zeta. unfold IntentRouter.semantic_tier.
  destruct intents as [|i0 is0] eqn:His; [discriminate|].
  rewrite <- His. clear His.
  destruct (embed query) as [|q0 qs] eqn:Hq; [discriminate|].
  rewrite router_scan_argmax.
  set (score := fun i => IntentRouter._cosine_similarity fsum sqrt (q0 :: qs)
                           (IntentRouter.i_embedding i)).
  destruct (argmax_scan_max score (fun _ => true) intents ((-1)%float, None) eq_refl)
    as (_ & _ & Hmax).
  pose proof (argmax_scan_who score (fun _ => true) intents ((-1)%float, None)) as Hwho.
  cbn zeta in Hwho.
  destruct (Ref.argmax_scan _ _ _ _) as [h b] eqn:Hscan. cbn [fst] in *.
  unfold IntentRouter.SEMANTIC_THRESHOLD.
  destruct (PrimFloat.ltb PyFloat.lit_0_82 h) eqn:Hlt; [|discriminate].
  destruct Hwho as [Heq | (x & Hin & _ & Hx)].
  - injection Heq as -> ->. discriminate.
  - injection Hx as -> ->. intros Hc. injection Hc as <-.
    exists x. split; [exact Hin|]. split; [reflexivity|]. split; [exact Hlt|].
    intros j Hj. apply Hmax; [exact Hj | reflexivity].
Qed.

(** C2: scores are the binary64 numbers [_cosine_similarity] computes
    and the thresholds are the binary64 numbers Python reads [0.98] and
    [0.82] as.  With the default threshold, [SemanticCache.lookup] hits
    exactly when a best-scoring eligible entry (one that no eligible
    entry outscores) has a score at least 0.98, so a score equal to 0.98
    hits and a smaller best score misses; the semantic tier of the intent
    router returns a match exactly when a best-scoring intent has a score
    strictly above 0.82, so a score equal to 0.82, or below, misses. *)
Theorem threshold_boundaries
    (fsum : list float -> float) (sqrt : float -> float)
    (embed : string -> list float)
    (es : list SemanticCache.entry) (w : list (list SemanticCache.entry))
    (intents : list IntentRouter.SemanticIntent)
    (query : string) (mcp : option string) :
  let cache_score := fun e =>
    SemanticCache._cosine_similarity fsum sqrt (embed query) (SemanticCache.e_embedding e) in
  let intent_score := fun i =>
    IntentRouter._cosine_similarity fsum sqrt (embed query) (IntentRouter.i_embedding i) in
  (Ref.is_hit (SemanticCache.lookup fsum sqrt embed
                 (SemanticCache.mkCache SemanticCache.default_threshold es w)
                 query mcp) = true
   <-> exists e,
         In e es /\ SemanticCache.eligible mcp e = true
         /\ (forall e', In e' es -> SemanticCache.eligible mcp e' = true ->
                        PrimFloat.ltb (cache_score e) (cache_score e') = false)
         /\ PrimFloat.leb PyFloat.lit_0_98 (cache_score e) = true)
  /\ (IntentRouter.semantic_tier fsum sqrt embed intents query <> None
      <-> exists i,
            In i intents
            /\ (forall j, In j intents ->
                          PrimFloat.ltb (intent_score i) (intent_score j) = false)
            /\ PrimFloat.ltb PyFloat.lit_0_82 (intent_score i) = true).
Proof.
  cbn zeta. split; split.
  - intros Hhit.
    pose proof (lookup_hit_inv fsum sqrt embed
                  (SemanticCache.mkCache SemanticCache.default_threshold es w)
                  query mcp) as Hinv.
    cbn zeta in Hinv.
    destruct (SemanticCache.lookup _ _ _ _ _ _) as [out tcs| |]; try discriminate.
    destruct Hinv as (e & Hin & Hok & _ & _ & Hle & Hmax).
    exists e. repeat split; assumption.
  - intros (e & Hin & Hok & _ & Hle). apply cache_lookup_hit_iff. eauto.
  - intros Hm.
    destruct (IntentRouter.semantic_tier fsum sqrt embed intents query) as [calls|] eqn:Ht;
      [|congruence].
    destruct (semantic_tier_inv fsum sqrt embed intents query calls Ht)
      as (i & Hin & _ & Hlt & Hmax).
    exists i. repeat split; assumption.
  - intros (i & Hin & _ & Hlt). apply semantic_tier_match_iff. eauto.
Qed.

(** Boundary runs: with query vector (1,0,0,0), the stored vector
    (49,9,3,3) has norm 50 and the score 49/50 rounds to the number
    [0.98] is read as; (41,27,9,3) has norm 50 as well and its score is
    the number [0.82] is read as. *)
Example cache_hits_at_threshold :
  SemanticCache.lookup Ref.sum_left PrimFloat.sqrt (fun _ => [1; 0; 0; 0]%float)
    (SemanticCache.mkCache SemanticCache.default_threshold
       [SemanticCache.mkEntry "list containers" [49; 9; 3; 3]%float "2 containers"
          [] None 0%float] [])
    "show containers" None
  = SemanticCache.Hit "2 containers" [].
Proof. vm_compute. reflexivity. Qed.

Example cache_misses_below_threshold :
  SemanticCache.lookup Ref.sum_left PrimFloat.sqrt (fun _ => [1; 0; 0; 0]%float)
    (SemanticCache.mkCache SemanticCache.default_threshold
       [SemanticCache.mkEntry "list containers" [41; 27; 9; 3]%float "2 containers"
          [] None 0%float] [])
    "show containers" None
  = SemanticCache.Miss.
Proof. vm_compute. reflexivity. Qed.

Example cache_scope_filter :
  SemanticCache.lookup Ref.sum_left PrimFloat.sqrt (fun _ => [1; 0; 0; 0]%float)
    (SemanticCache.mkCache SemanticCache.default_threshold
       [SemanticCache.mkEntry "list pods" [1; 0; 0; 0]%float "3 pods"
          [] (Some "k8s_local") 0%float] [])
    "list pods" (Some "k8s_remote")
  = SemanticCache.Miss.
Proof. vm_compute. reflexivity. Qed.

Example router_misses_at_threshold :
  IntentRouter.semantic_tier Ref.sum_left PrimFloat.sqrt (fun _ => [1; 0; 0; 0]%float)
    [IntentRouter.mkIntent "show pods" "local_k8s_list_pods" (JObj [])
       [41; 27; 9; 3]%float]
    "pods please"
  = None.
Proof. vm_compute. reflexivity. Qed.

Example router_matches_above_threshold :
  IntentRouter.semantic_tier Ref.sum_left PrimFloat.sqrt (fun _ => [1; 0; 0; 0]%float)
    [IntentRouter.mkIntent "show pods" "local_k8s_list_pods" (JObj [])
       [49; 9; 3; 3]%float]
    "pods please"
  = Some [IntentRouter.mkCall "local_k8s_list_pods" (JObj [])].
Proof. vm_compute. reflexivity. Qed.

(** Rounding at the boundary (left-to-right summation): the stored
    vector (34.3, 6.3, 2.1, 2.1) is 0.7 times (49,9,3,3), yet its score
    comes out as 0.9799999999999999 and the lookup misses; (5.33, 3.51,
    1.17, 0.39) is 0.13 times (41,27,9,3), its score comes out as
    0.8200000000000002 and the semantic tier matches. *)
Example cache_rounding_below_threshold :
  let stored := [ 0x1.1266666666666p+5; 0x1.9333333333333p+2;
                  0x1.0cccccccccccdp+1; 0x1.0cccccccccccdp+1 ]%float in
  SemanticCache._cosine_similarity Ref.sum_left PrimFloat.sqrt
    [1; 0; 0; 0]%float stored = 0x1.f5c28f5c28f5bp-1%float
  /\ SemanticCache.lookup Ref.sum_left PrimFloat.sqrt (fun _ => [1; 0; 0; 0]%float)
       (SemanticCache.mkCache SemanticCache.default_threshold
          [SemanticCache.mkEntry "list containers" stored "2 containers" [] None 0%float] [])
       "show containers" None
     = SemanticCache.Miss.
Proof. cbn zeta. split; vm_compute; reflexivity. Qed.

Example router_rounding_above_threshold :
  let stored := [ 0x1.551eb851eb852p+2; 0x1.c147ae147ae14p+1;
                  0x1.2b851eb851eb8p+0; 0x1.8f5c28f5c28f6p-2 ]%float in
  IntentRouter._cosine_similarity Ref.sum_left PrimFloat.sqrt
    [1; 0; 0; 0]%float stored = 0x1.a3d70a3d70a3fp-1%float
  /\ IntentRouter.semantic_tier Ref.sum_left PrimFloat.sqrt (fun _ => [1; 0; 0; 0]%float)
       [IntentRouter.mkIntent "show pods" "local_k8s_list_pods" (JObj []) stored]
       "pods please"
     = Some [IntentRouter.mkCall "local_k8s_list_pods" (JObj [])].
Proof. cbn zeta. split; vm_compute; reflexivity. Qed.

(** ** Semantic cache: what is never inserted *)

(** C3: an [add] whose output contains "error" or "failed" in any letter
    case, or one of whose tool calls has "confirmation" in its string form,
    returns the cache object as it was: same entry list, and no new write
    of the cache file. *)
Theorem failures_never_cached
    (embed : string -> list float) (py_str : json -> string) (now : float)
    (c : SemanticCache.t) (query output : string) (tool_calls : list json)
    (active_mcp : option string) :
  PyStr.contains "error" (PyStr.lower output) = true
  \/ PyStr.contains "failed" (PyStr.lower output) = true
  \/ (exists tc, In tc tool_calls /\ PyStr.contains "confirmation" (py_str tc) = true) ->
  let c' := SemanticCache.add embed py_str now c query output tool_calls active_mcp in
  c' = c
  /\ SemanticCache.entries c' = SemanticCache.entries c
  /\ SemanticCache.disk_writes c' = SemanticCache.disk_writes c.
Proof.
  intros H. cbn zeta.
  assert (Heq : SemanticCache.add embed py_str now c query output tool_calls active_mcp = c).
  { unfold SemanticCache.add.
    destruct H as [He | [Hf | Hc]].
    - rewrite He, orb_true_r. reflexivity.
    - rewrite Hf. reflexivity.
    - destruct (_ || _)%bool; [reflexivity|].
      assert (Hex : existsb (fun tc => PyStr.contains "confirmation" (py_str tc))
                            tool_calls = true)
        by (apply existsb_exists; exact Hc).
      rewrite Hex. reflexivity. }
  rewrite Heq. auto.
Qed.

Lemma failures_never_cached_witness :
  let c := SemanticCache.mkCache SemanticCache.default_threshold
             [SemanticCache.mkEntry "list pods" [1]%float "3 pods" [] None 0%float] [] in
  SemanticCache.add (fun _ => [1; 2]%float) (fun _ => "{}") 7%float c
    "stop web" "Operation FAILED: no such container" [] None = c.
Proof.
  cbn zeta.
  apply (failures_never_cached (fun _ => [1; 2]%float) (fun _ => "{}") 7%float).
  right; left. vm_compute. reflexivity.
Defined.

Example confirmation_not_cached :
  SemanticCache.add (fun _ => [1; 2]%float)
    (fun _ => "{'confirmation_request': {'tool': 'docker_stop_container'}}") 7%float
    SemanticCache.fresh "stop web" "Please confirm" [JObj []] None
  = SemanticCache.fresh.
Proof. vm_compute. reflexivity. Qed.

Example success_is_cached :
  SemanticCache.entries
    (SemanticCache.add (fun _ => [1; 2]%float) (fun _ => "{}") 7%float
       SemanticCache.fresh "list pods" "3 pods" [] None)
  = [SemanticCache.mkEntry "list pods" [1; 2]%float "3 pods" [] None 7%float].
Proof. vm_compute. reflexivity. Qed.

(** ** Semantic cache: bound and eviction *)

Lemma add_cases
    (embed : string -> list float) (py_str : json -> string) (now : float)
    (c : SemanticCache.t) (query output : string) (tool_calls : list json)
    (active_mcp : option string) :
  let c' := SemanticCache.add embed py_str now c query output tool_calls active_mcp in
  let new_entry :=
    SemanticCache.mkEntry query (embed query) output tool_calls active_mcp now in
  let appended := (SemanticCache.entries c ++ [new_entry])%list in
  c' = c
  \/ (SemanticCache.threshold c' = SemanticCache.threshold c
      /\ SemanticCache.entries c' =
           (if Nat.ltb 500 (length appended) then List.tl appended else appended)
      /\ SemanticCache.disk_writes c' =
           SemanticCache.entries c' :: SemanticCache.disk_writes c).
Proof.
  cbn zeta. unfold SemanticCache.add.
  destruct (_ || _)%bool; [left; reflexivity|].
  destruct (existsb _ tool_calls); [left; reflexivity|].
  destruct (embed query) as [|q0 qs] eqn:Hq; [left; reflexivity|].
  destruct (existsb _ (SemanticCache.entries c)); [left; reflexivity|].
  right. unfold SemanticCache._save, SemanticCache.MAX_ENTRIES. cbn.
  auto.
Qed.

Lemma add_length_le
    (embed : string -> list float) (py_str : json -> string) (now : float)
    (c : SemanticCache.t) (query output : string) (tool_calls : list json)
    (active_mcp : option string) :
  (length (SemanticCache.entries c) <= 500)%nat ->
  (length (SemanticCache.entries
             (SemanticCache.add embed py_str now c query output tool_calls active_mcp))
   <= 500)%nat.
Proof.
  intros Hlen.
  destruct (add_cases embed py_str now c query output tool_calls active_mcp)
    as [Heq | (_ & Hent & _)]; [rewrite Heq; exact Hlen|].
  cbn zeta in Hent. rewrite Hent. rewrite length_app. cbn [length].
  destruct (Nat.ltb_spec 500 (length (SemanticCache.entries c) + 1)).
  - destruct (SemanticCache.entries c) as [|e0 es]; cbn [List.tl app length] in *;
      [lia|]. rewrite length_app. cbn [length]. lia.
  - rewrite length_app. cbn [length]. lia.
Qed.

(** C8: an [add] on a cache holding at most 500 entries leaves at most 500
    entries.  When one of its guards stops it (output with "failed" or
    "error", a confirmation among the calls, no embedding, query already
    cached) the cache is untouched; otherwise the new entry is inserted
    at the end, and when the list already held 500 entries the entry at
    position 0 is the one evicted while the others keep their order. *)
Theorem cache_bounded_fifo
    (embed : string -> list float) (py_str : json -> string) (now : float)
    (c : SemanticCache.t) (query output : string) (tool_calls : list json)
    (active_mcp : option string) :
  (length (SemanticCache.entries c) <= 500)%nat ->
  let c' := SemanticCache.add embed py_str now c query output tool_calls active_mcp in
  let new_entry :=
    SemanticCache.mkEntry query (embed query) output tool_calls active_mcp now in
  let inserts :=
    (negb (PyStr.contains "failed" (PyStr.lower output)
           || PyStr.contains "error" (PyStr.lower output))
     && negb (existsb (fun tc => PyStr.contains "confirmation" (py_str tc)) tool_calls)
     && match embed query with [] => false | _ => true end
     && negb (existsb (fun e => String.eqb (SemanticCache.e_query e) query)
                      (SemanticCache.entries c)))%bool in
  (length (SemanticCache.entries c') <= 500)%nat
  /\ (inserts = false -> c' = c)
  /\ (inserts = true -> (length (SemanticCache.entries c) < 500)%nat ->
      SemanticCache.entries c' = (SemanticCache.entries c ++ [new_entry])%list)
  /\ (inserts = true -> (length (SemanticCache.entries c) = 500)%nat ->
      forall oldest rest,
        SemanticCache.entries c = oldest :: rest ->
        SemanticCache.entries c' = (rest ++ [new_entry])%list).
Proof.
  intros Hlen. cbn zeta.
  split; [apply add_length_le, Hlen|].
  unfold SemanticCache.add.
  destruct (_ || _)%bool; cbn [negb andb]; [repeat split; discriminate|].
  destruct (existsb _ tool_calls); cbn [negb andb]; [repeat split; discriminate|].
  destruct (embed query) as [|q0 qs] eqn:Hq; cbn [andb]; [repeat split; discriminate|].
  destruct (existsb _ (SemanticCache.entries c)); cbn [negb];
    [repeat split; discriminate|].
  cbn [SemanticCache._save SemanticCache.entries].
  unfold SemanticCache.MAX_ENTRIES. rewrite length_app. cbn [length].
  split; [discriminate|]. split.
  - intros _ Hroom.
    destruct (Nat.ltb_spec 500 (length (SemanticCache.entries c) + 1)); [lia|].
    reflexivity.
  - intros _ Hfull oldest rest Hes.
    destruct (Nat.ltb_spec 500 (length (SemanticCache.entries c) + 1)); [|lia].
    rewrite Hes. reflexivity.
Qed.

Lemma cache_bounded_fifo_witness :
  SemanticCache.entries
    (SemanticCache.add (fun _ => [1; 2]%float) (fun _ => "{}") 7%float
       (SemanticCache.mkCache SemanticCache.default_threshold
          (SemanticCache.mkEntry "oldest" [1]%float "a" [] None 0%float
           :: repeat (SemanticCache.mkEntry "list pods" [1]%float "3 pods" [] None
                        1%float) 499) [])
       "list nodes" "2 nodes" [] None)
  = (repeat (SemanticCache.mkEntry "list pods" [1]%float "3 pods" [] None 1%float) 499
     ++ [SemanticCache.mkEntry "list nodes" [1; 2]%float "2 nodes" [] None 7%float])%list.
Proof.
  refine (proj2 (proj2 (proj2
            (cache_bounded_fifo (fun _ => [1; 2]%float) (fun _ => "{}") 7%float
               (SemanticCache.mkCache SemanticCache.default_threshold
                  (SemanticCache.mkEntry "oldest" [1]%float "a" [] None 0%float
                   :: repeat (SemanticCache.mkEntry "list pods" [1]%float "3 pods" []
                                None 1%float) 499) [])
               "list nodes" "2 nodes" [] None _)))
            _ _ (SemanticCache.mkEntry "oldest" [1]%float "a" [] None 0%float)
            (repeat (SemanticCache.mkEntry "list pods" [1]%float "3 pods" [] None
                       1%float) 499) eq_refl).
  - cbn [SemanticCache.entries length]. rewrite repeat_length. lia.
  - vm_compute. reflexivity.
  - cbn [SemanticCache.entries length]. rewrite repeat_length. reflexivity.
Defined.

Example cache_evicts_position_0 :
  let old := SemanticCache.mkEntry "oldest" [1]%float "a" [] None 0%float in
  let mid := SemanticCache.mkEntry "list pods" [1]%float "3 pods" [] None 1%float in
  let c := SemanticCache.mkCache SemanticCache.default_threshold
             (old :: repeat mid 499) [] in
  SemanticCache.entries
    (SemanticCache.add (fun _ => [1; 2]%float) (fun _ => "{}") 7%float c
       "list nodes" "2 nodes" [] None)
  = (repeat mid 499 ++ [SemanticCache.mkEntry "list nodes" [1; 2]%float "2 nodes" [] None 7%float])%list.
Proof. vm_compute. reflexivity. Qed.

(** Starting with no cache file, no history of adds and restarts ever holds
    or saves more than 500 entries. *)
Lemma cache_bounded_reachable
    (embed : string -> list float) (py_str : json -> string) (ops : list CacheHistory.op) :
  let c := CacheHistory.run embed py_str ops in
  (length (SemanticCache.entries c) <= 500)%nat
  /\ Forall (fun s => (length s <= 500)%nat) (SemanticCache.disk_writes c).
Proof.
  cbn zeta. unfold CacheHistory.run.
  assert (Hgen : forall c0,
             (length (SemanticCache.entries c0) <= 500)%nat ->
             Forall (fun s => (length s <= 500)%nat) (SemanticCache.disk_writes c0) ->
             let c := fold_left (CacheHistory.step embed py_str) ops c0 in
             (length (SemanticCache.entries c) <= 500)%nat
             /\ Forall (fun s => (length s <= 500)%nat) (SemanticCache.disk_writes c)).
  { induction ops as [|o ops IH]; intros c0 Hlen Hdisk; cbn zeta; [simpl; auto|].
    simpl. apply IH.
    - destruct o as [q out tcs mcp now|]; simpl.
      + apply add_length_le, Hlen.
      + destruct Hdisk; simpl; [lia | assumption].
    - destruct o as [q out tcs mcp now|]; simpl; [|exact Hdisk].
      pose proof (add_length_le embed py_str now c0 q out tcs mcp Hlen) as Hb.
      destruct (add_cases embed py_str now c0 q out tcs mcp) as [-> | (_ & _ & Hw)];
        [exact Hdisk|].
      cbn zeta in Hw. rewrite Hw. constructor; assumption. }
  apply Hgen; simpl; [lia | constructor].
Qed.

(** ** LLM agent: the parse pipeline *)

Example parse_bare_array :
  AgentModule._validate_and_parse Samples.sample_loads Samples.array_text
  = Some [AgentModule.mkCall (JStr "docker_list_containers") (JObj [])].
Proof. vm_compute. reflexivity. Qed.

Example parse_fenced_block :
  AgentModule._validate_and_parse Samples.sample_loads Samples.fenced_text
  = Some [AgentModule.mkCall (JStr "docker_list_containers") (JObj [])].
Proof. vm_compute. reflexivity. Qed.

Example parse_prose_with_array :
  AgentModule._validate_and_parse Samples.sample_loads Samples.prose_text
  = Some [AgentModule.mkCall (JStr "docker_list_containers") (JObj [])].
Proof. vm_compute. reflexivity. Qed.

Example parse_single_object :
  AgentModule._validate_and_parse Samples.sample_loads Samples.object_text
  = Some [AgentModule.mkCall (JStr "docker_list_containers") (JObj [])].
Proof. vm_compute. reflexivity. Qed.

Example parse_name_only_shorthand :
  AgentModule._validate_and_parse Samples.sample_loads Samples.name_only_text = None.
Proof. vm_compute. reflexivity. Qed.

Example parse_name_args_shorthand :
  AgentModule._validate_and_parse Samples.sample_loads Samples.name_args_text = None.
Proof. vm_compute. reflexivity. Qed.

Lemma parse_rejects_empty (loads : string -> option json) :
  AgentModule._validate_and_parse loads "" = None.
Proof. reflexivity. Qed.

Lemma find_char_none_not_first (c : ascii) (s : string) :
  PyStr.find_char c s = None -> PyStr.startswith s (String c EmptyString) = false.
Proof.
  unfold PyStr.startswith. destruct s as [|d s]; [reflexivity|].
  cbn [PyStr.find_char String.prefix]. intros H.
  destruct (ascii_dec c d) as [->|Hne]; [|reflexivity].
  rewrite Ascii.eqb_refl in H. discriminate.
Qed.

(** Text without any bracket or brace never reaches the decoder. *)
Lemma parse_rejects_bracketless (loads : string -> option json) (output : string) :
  PyStr.find_char "[" (PyStr.strip output) = None ->
  PyStr.find_char "{" (PyStr.strip output) = None ->
  PyStr.startswith (PyStr.strip output) "```" = false ->
  AgentModule._validate_and_parse loads output = None.
Proof.
  intros Ha Ho Hf. unfold AgentModule._validate_and_parse, AgentModule.extract_json_text.
  destruct (String.eqb output ""); [reflexivity|].
  cbv zeta. rewrite Hf.
  rewrite (find_char_none_not_first _ _ Ha), (find_char_none_not_first _ _ Ho).
  cbn [negb andb]. rewrite Ha, Ho. reflexivity.
Qed.

Lemma parse_rejects_bracketless_witness :
  AgentModule._validate_and_parse Samples.sample_loads "I cannot help with that" = None.
Proof.
  apply parse_rejects_bracketless; vm_compute; reflexivity.
Defined.

(** A decoded array of call objects is accepted, one call per object. *)
Lemma calls_of_call_objects (name : string) (args : json) (rest : list (string * json)) :
  AgentModule.calls_of_data (JArr [JObj (("name", JStr name) :: ("arguments", args) :: rest)])
  = Some [AgentModule.mkCall
            (PyVal.py_or (JStr name)
               (PyVal.py_or (PyVal.get_or_none "tool_name"
                               (("name", JStr name) :: ("arguments", args) :: rest))
                            (PyVal.get_or_none "tool"
                               (("name", JStr name) :: ("arguments", args) :: rest))))
            (AgentModule.call_arguments
               (AgentModule._normalize_single
                  (("name", JStr name) :: ("arguments", args) :: rest)))].
Proof. reflexivity. Qed.

(** C4 (the code at the two shorthand shapes): [_normalize_tool_list]
    turns [[name]] and [[name, args]] into one call, but the structure
    check of [_validate_and_parse] keeps only the dict items that carry a
    name key before it calls the normalizer, so a decoded [[name]] yields
    no call list, and a decoded [[name, args]] yields no call list unless
    [args] itself has a name key, in which case the call is built from
    [args] alone. *)
Theorem shorthand_never_reaches_normalizer (name : string) (args : list (string * json)) :
  AgentModule._normalize_tool_list [JStr name]
    = [AgentModule.mkCall (JStr name) (JObj [])]
  /\ AgentModule._normalize_tool_list [JStr name; JObj args]
    = [AgentModule.mkCall (JStr name) (JObj args)]
  /\ AgentModule.calls_of_data (JArr [JStr name]) = None
  /\ AgentModule.calls_of_data (JArr [JStr name; JObj args])
    = (if AgentModule.has_name_key args
       then Some [AgentModule._normalize_single args] else None)
  /\ AgentModule._validate_and_parse Samples.sample_loads Samples.name_only_text = None
  /\ AgentModule._validate_and_parse Samples.sample_loads Samples.name_args_text = None.
Proof.
  repeat split; try reflexivity.
  unfold AgentModule.calls_of_data. cbn [List.filter].
  destruct (AgentModule.has_name_key args) eqn:Hkey; [|reflexivity].
  cbn [AgentModule._normalize_tool_list AgentModule.normalize_items].
  rewrite Hkey. reflexivity.
Qed.

(** ** LLM agent: the chain-of-thought retries *)

Section StageB.
Variable loads : string -> option json.
Variable py_str : json -> string.
Variable type_error_text : json -> string.
Variable smart_prog : nat -> string -> AgentModule.llm_outcome.
Variable tools_schema : list AgentModule.tool_schema.
Variable query : string.

Local Abbreviation stage_b := (AgentModule.stage_b loads py_str type_error_text smart_prog tools_schema query).
Local Abbreviation judge := (AgentModule.judge loads py_str type_error_text tools_schema).
Local Abbreviation attempt_error := (AgentModule.attempt_error loads py_str type_error_text tools_schema).

Local Abbreviation retry_query := (AgentModule.retry_query query).
Local Abbreviation first_query := (AgentModule.first_query query).

Lemma first_query_retry (attempt : nat) (e : string) :
  first_query (S attempt) (Some e) = retry_query e.
Proof.
  unfold AgentModule.first_query, AgentModule.retry_query. cbn [Nat.ltb Nat.leb].
  destruct (String.eqb e ""); reflexivity.
Qed.

(** The queries the loop sends: at most [remaining] new ones, the first
    as [first_query] says, and each later one built from the error its
    predecessor left. *)
Lemma stage_b_queries (remaining : nat) :
  forall attempt last_error pred sent,
  exists news,
    AgentModule.smart_queries (stage_b remaining attempt last_error pred sent)
      = (rev sent ++ news)%list
    /\ (length news <= remaining)%nat
    /\ (forall q, nth_error news 0 = Some q -> q = first_query attempt last_error)
    /\ (forall k qk qk1,
          nth_error news k = Some qk -> nth_error news (S k) = Some qk1 ->
          exists e, attempt_error (smart_prog (attempt + k) qk) = Some e
                    /\ qk1 = retry_query e).
Proof.
  induction remaining as [|rem IH]; intros attempt last_error pred sent.
  - exists []. cbn. rewrite app_nil_r. repeat split; try lia; intros; discriminate.
  - cbn [AgentModule.stage_b].
    fold (first_query attempt last_error).
    set (mq := first_query attempt last_error).
    assert (Hstep : forall e pred',
               exists news,
                 AgentModule.smart_queries
                   (AgentModule.stage_b loads py_str type_error_text smart_prog
                      tools_schema query rem (S attempt) (Some e) pred' (mq :: sent))
                 = (rev sent ++ news)%list
                 /\ (length news <= S rem)%nat
                 /\ (forall q, nth_error news 0 = Some q -> q = mq)
                 /\ (forall k qk qk1,
                       nth_error news k = Some qk -> nth_error news (S k) = Some qk1 ->
                       (k = 0%nat /\ qk = mq /\ qk1 = retry_query e)
                       \/ exists e', attempt_error (smart_prog (attempt + k) qk) = Some e'
                                     /\ qk1 = retry_query e')).
    { intros e pred'.
      destruct (IH (S attempt) (Some e) pred' (mq :: sent)) as (news & Hq & Hlen & Hhd & Hch).
      exists (mq :: news). split; [|split; [|split]].
      - rewrite Hq. cbn [rev]. rewrite <- app_assoc. reflexivity.
      - cbn [length]. lia.
      - intros q Hq0. cbn in Hq0. congruence.
      - intros k qk qk1 Hk Hk1. destruct k as [|k].
        + left. cbn in Hk, Hk1. injection Hk as <-.
          rewrite (Hhd _ Hk1), first_query_retry. auto.
        + right. cbn [nth_error] in Hk, Hk1.
          destruct (Hch k qk qk1 Hk Hk1) as (e' & He' & ->).
          exists e'. split; [|reflexivity].
          replace (attempt + S k)%nat with (S attempt + k)%nat by lia. exact He'. }
    destruct (smart_prog attempt mq) as [raw|message] eqn:Hout.
    + destruct (AgentModule.judge loads py_str type_error_text tools_schema raw)
        as [validated|e] eqn:Hj.
      * exists [mq]. cbn [AgentModule.smart_queries rev]. repeat split.
        -- cbn [length]. lia.
        -- intros q Hq0. cbn in Hq0. congruence.
        -- intros k qk qk1 _ Hk1. destruct k; discriminate.
      * destruct (Hstep e (Some (AgentModule.mkPrediction raw None)))
          as (news & Hq & Hlen & Hhd & Hch).
        exists news. repeat split; try assumption.
        intros k qk qk1 Hk Hk1.
        destruct (Hch k qk qk1 Hk Hk1) as [(-> & -> & ->) | Hex]; [|exact Hex].
        exists e. split; [|reflexivity].
        unfold AgentModule.attempt_error.
        rewrite Nat.add_0_r, Hout, Hj. reflexivity.
    + destruct (Hstep message pred) as (news & Hq & Hlen & Hhd & Hch).
      exists news. repeat split; try assumption.
      intros k qk qk1 Hk Hk1.
      destruct (Hch k qk qk1 Hk Hk1) as [(-> & -> & ->) | Hex]; [|exact Hex].
      exists message. split; [|reflexivity].
      unfold AgentModule.attempt_error.
      rewrite Nat.add_0_r, Hout. reflexivity.
Qed.

(** When every attempt returns an output that fails validation, the loop
    runs all its iterations and ends on the last output, unmarked. *)
Lemma stage_b_all_rejected (remaining : nat) :
  (forall k q, exists raw e,
      smart_prog k q = AgentModule.Returned raw /\ judge raw = AgentModule.Rejected e) ->
  forall attempt last_error pred sent,
    let r := stage_b remaining attempt last_error pred sent in
    length (AgentModule.smart_queries r) = (length sent + remaining)%nat
    /\ match remaining with
       | O => AgentModule.returned r = pred
       | S _ =>
           exists q raw,
             List.last (AgentModule.smart_queries r) "" = q
             /\ smart_prog (attempt + remaining - 1) q = AgentModule.Returned raw
             /\ AgentModule.returned r = Some (AgentModule.mkPrediction raw None)
       end.
Proof.
  intros Hall. induction remaining as [|rem IH]; intros attempt last_error pred sent; cbn zeta.
  - cbn. rewrite length_rev. split; [lia | reflexivity].
  - cbn [AgentModule.stage_b].
    fold (first_query attempt last_error).
    set (mq := first_query attempt last_error).
    destruct (Hall attempt mq) as (raw & e & Hout & Hj).
    rewrite Hout, Hj.
    specialize (IH (S attempt) (Some e) (Some (AgentModule.mkPrediction raw None))
                   (mq :: sent)).
    cbn zeta in IH. destruct IH as [Hlen Hret].
    split; [rewrite Hlen; cbn [length]; lia|].
    destruct rem as [|rem'].
    + exists mq, raw. split; [|split].
      * cbn [AgentModule.stage_b AgentModule.smart_queries rev].
        apply last_last.
      * replace (attempt + 1 - 1)%nat with attempt by lia. exact Hout.
      * exact Hret.
    + destruct Hret as (q & raw' & Hlast & Hprog & Hr).
      exists q, raw'. split; [exact Hlast|]. split; [|exact Hr].
      replace (attempt + S (S rem') - 1)%nat with (S attempt + S rem' - 1)%nat by lia.
      exact Hprog.
Qed.
End StageB.

Example forward_fast_path :
  AgentModule.forward Samples.sample_loads (fun _ => "?") (fun _ => "TypeError")
    (fun _ => AgentModule.Returned Samples.array_text)
    (fun _ _ => AgentModule.Returned "unused")
    AgentModule.default_max_retries "list containers"
    [AgentModule.mkTool "docker_list_containers" []]
  = AgentModule.mkForward
      (Some (AgentModule.mkPrediction Samples.array_text
               (Some [AgentModule.mkCall (JStr "docker_list_containers") (JObj [])])))
      [].
Proof. vm_compute. reflexivity. Qed.

Example forward_second_attempt_succeeds :
  AgentModule.forward Samples.sample_loads (fun _ => "?") (fun _ => "TypeError")
    (fun _ => AgentModule.Raised "timeout")
    (fun k _ => match k with
                | O => AgentModule.Returned "no idea"
                | _ => AgentModule.Returned Samples.object_text
                end)
    AgentModule.default_max_retries "list containers"
    [AgentModule.mkTool "docker_list_containers" []]
  = AgentModule.mkForward
      (Some (AgentModule.mkPrediction Samples.object_text
               (Some [AgentModule.mkCall (JStr "docker_list_containers") (JObj [])])))
      [ "list containers";
        AgentModule.with_hint "list containers"
          "Output was not a valid JSON list of tool calls" ].
Proof. vm_compute. reflexivity. Qed.

(** C5, as stated, fails: with the default [max_retries = 2] and a model
    whose every output is rejected, the chain-of-thought program is called
    three times, not at most two. *)
Lemma stage_b_default_makes_three_attempts :
  (length (AgentModule.smart_queries
             (AgentModule.forward Samples.sample_loads (fun _ => "?") (fun _ => "TypeError")
                (fun _ => AgentModule.Returned "no idea")
                (fun _ _ => AgentModule.Returned "no idea")
                AgentModule.default_max_retries "list pods" []))
   > Z.to_nat AgentModule.default_max_retries)%nat.
Proof. vm_compute. lia. Qed.

(** C5 (amended): the chain-of-thought stage of [forward] makes at most
    [max_retries + 1] attempts (three by default); each attempt after the
    first sends the query followed by the system hint quoting the text its
    predecessor left in [last_error] (the query alone if that text is
    empty); and when the fast path and every attempt return an output that
    fails validation, exactly [max_retries + 1] attempts are made and
    [forward] returns the prediction of the last one, without a
    [_validated_calls] marker. *)
Theorem stage_b_attempts
    (loads : string -> option json) (py_str type_error_text : json -> string)
    (fast_agent : string -> AgentModule.llm_outcome)
    (smart_prog : nat -> string -> AgentModule.llm_outcome)
    (max_retries : Z) (query : string) (tools_schema : list AgentModule.tool_schema) :
  let r := AgentModule.forward loads py_str type_error_text fast_agent smart_prog
             max_retries query tools_schema in
  let judge := AgentModule.judge loads py_str type_error_text tools_schema in
  let attempts := Z.to_nat (max_retries + 1) in
  (length (AgentModule.smart_queries r) <= attempts)%nat
  /\ (forall q, nth_error (AgentModule.smart_queries r) 0 = Some q -> q = query)
  /\ (forall k qk qk1,
        nth_error (AgentModule.smart_queries r) k = Some qk ->
        nth_error (AgentModule.smart_queries r) (S k) = Some qk1 ->
        exists e,
          AgentModule.attempt_error loads py_str type_error_text tools_schema
            (smart_prog k qk) = Some e
          /\ qk1 = AgentModule.retry_query query e)
  /\ ((forall raw, fast_agent query = AgentModule.Returned raw ->
                   exists e, judge raw = AgentModule.Rejected e) ->
      (forall k q, exists raw e,
          smart_prog k q = AgentModule.Returned raw /\ judge raw = AgentModule.Rejected e) ->
      length (AgentModule.smart_queries r) = attempts
      /\ (0 <= max_retries ->
          exists q raw,
            List.last (AgentModule.smart_queries r) "" = q
            /\ smart_prog (attempts - 1)%nat q = AgentModule.Returned raw
            /\ AgentModule.returned r = Some (AgentModule.mkPrediction raw None)
            /\ AgentModule._validated_calls (AgentModule.mkPrediction raw None) = None)).
Proof.
  cbn zeta.
  set (attempts := Z.to_nat (max_retries + 1)).
  assert (Hvalid : forall raw validated,
             AgentModule.smart_queries
               (AgentModule.mkForward
                  (Some (AgentModule.mkPrediction raw (Some validated))) []) = []) by reflexivity.
  (* every way into the loop starts it at attempt 0, no error, nothing sent *)
  assert (Hloop : forall pred,
             let r := AgentModule.stage_b loads py_str type_error_text smart_prog
                        tools_schema query attempts 0 None pred [] in
             (length (AgentModule.smart_queries r) <= attempts)%nat
             /\ (forall q, nth_error (AgentModule.smart_queries r) 0 = Some q -> q = query)
             /\ (forall k qk qk1,
                   nth_error (AgentModule.smart_queries r) k = Some qk ->
                   nth_error (AgentModule.smart_queries r) (S k) = Some qk1 ->
                   exists e,
                     AgentModule.attempt_error loads py_str type_error_text tools_schema
                       (smart_prog k qk) = Some e
                     /\ qk1 = AgentModule.retry_query query e)).
  { intros pred. cbn zeta.
    destruct (stage_b_queries loads py_str type_error_text smart_prog tools_schema
                query attempts 0 None pred []) as (news & Hq & Hlen & Hhd & Hch).
    cbn [rev app] in Hq. rewrite Hq. repeat split; assumption. }
  unfold AgentModule.forward. fold attempts.
  destruct (fast_agent query) as [raw0|msg0] eqn:Hfast.
  - destruct (AgentModule.judge loads py_str type_error_text tools_schema raw0)
      as [validated|e0] eqn:Hj0.
    + cbn [AgentModule.smart_queries length]. split; [lia|].
      split; [intros q Hq0; discriminate|].
      split; [intros k qk qk1 Hk; destruct k; discriminate|].
      intros Hf _. destruct (Hf raw0 eq_refl) as (e & He). congruence.
    + destruct (Hloop (Some (AgentModule.mkPrediction raw0 None))) as (H1 & H2 & H3).
      split; [exact H1|]. split; [exact H2|]. split; [exact H3|].
      intros _ Hall.
      pose proof (stage_b_all_rejected loads py_str type_error_text smart_prog
                    tools_schema query attempts Hall 0%nat None
                    (Some (AgentModule.mkPrediction raw0 None)) []) as Hrej.
      cbn zeta in Hrej. destruct Hrej as [Hlen Hret].
      split; [exact Hlen|]. intros Hpos.
      destruct attempts as [|n] eqn:Hn; [subst attempts; lia|].
      destruct Hret as (q & raw & Hlast & Hprog & Hr).
      exists q, raw. repeat split; assumption.
  - destruct (Hloop None) as (H1 & H2 & H3).
    split; [exact H1|]. split; [exact H2|]. split; [exact H3|].
    intros _ Hall.
    pose proof (stage_b_all_rejected loads py_str type_error_text smart_prog
                  tools_schema query attempts Hall 0%nat None None []) as Hrej.
    cbn zeta in Hrej. destruct Hrej as [Hlen Hret].
    split; [exact Hlen|]. intros Hpos.
    destruct attempts as [|n] eqn:Hn; [subst attempts; lia|].
    destruct Hret as (q & raw & Hlast & Hprog & Hr).
    exists q, raw. repeat split; assumption.
Qed.

Lemma stage_b_attempts_witness :
  let r := AgentModule.forward Samples.sample_loads (fun _ => "?") (fun _ => "TypeError")
             (fun _ => AgentModule.Returned "no idea")
             (fun _ _ => AgentModule.Returned Samples.name_only_text)
             2 "list pods" [] in
  length (AgentModule.smart_queries r) = 3%nat
  /\ exists q raw,
       List.last (AgentModule.smart_queries r) "" = q
       /\ (fun (_ : nat) (_ : string) => AgentModule.Returned Samples.name_only_text)
            (Z.to_nat (2 + 1) - 1)%nat q = AgentModule.Returned raw
       /\ AgentModule.returned r = Some (AgentModule.mkPrediction raw None)
       /\ AgentModule._validated_calls (AgentModule.mkPrediction raw None) = None.
Proof.
  cbn zeta.
  destruct (stage_b_attempts Samples.sample_loads (fun _ => "?") (fun _ => "TypeError")
              (fun _ => AgentModule.Returned "no idea")
              (fun _ _ => AgentModule.Returned Samples.name_only_text)
              2 "list pods" []) as (_ & _ & _ & H).
  destruct H as [Hlen Hlast].
  - intros raw Hraw. injection Hraw as <-. eexists. vm_compute. reflexivity.
  - intros k q. eexists _, _. split; [reflexivity|]. vm_compute. reflexivity.
  - split; [exact Hlen|]. apply Hlast. lia.
Defined.

(** ** Smart routing *)

Example route_list_pods :
  SmartRouter.route (fun _ => None) (SmartRouter.PulseStatus (Some "healthy"))
    "list pods" None
  = {[ "k8s_local"; "k8s_remote" ]}.
Proof. apply set_eq. intros x. vm_compute. set_solver. Qed.

Example route_list_pods_remote_down :
  SmartRouter.route (fun _ => None) (SmartRouter.PulseStatus (Some "disconnected"))
    "list pods" None
  = {[ "k8s_local" ]}.
Proof. vm_compute. reflexivity. Qed.

Example route_why_is_remote_down :
  SmartRouter.route (fun _ => None) (SmartRouter.PulseStatus (Some "disconnected"))
    "show remote pods" None
  = {[ "k8s_remote" ]}.
Proof. vm_compute. reflexivity. Qed.

Example route_sticky_describe :
  SmartRouter.route (fun _ => Some "k8s_local") (SmartRouter.PulseStatus (Some "healthy"))
    "describe pod web" (Some "session-1")
  = {[ "k8s_local" ]}.
Proof. vm_compute. reflexivity. Qed.

(** C6, as stated, fails: the query below mentions "remote" and does not
    mention "local", yet both Kubernetes backends are selected, because
    "kind" is a local-scope keyword and keywords are matched as
    substrings. *)
Lemma remote_only_query_selects_both :
  let q := "what kind of pods are on remote" in
  let result :=
    SmartRouter.route (fun _ => None) (SmartRouter.PulseStatus (Some "healthy")) q None in
  PyStr.contains "remote" (PyStr.lower q) = true
  /\ PyStr.contains "local" (PyStr.lower q) = false
  /\ "k8s_remote" ∈ result
  /\ "k8s_local" ∈ result.
Proof.
  cbn zeta. split; [reflexivity|]. split; [reflexivity|].
  split; refine (bool_decide_unpack _ _); vm_compute; exact I.
Qed.

Lemma keyword_hits_spec (q x : string) :
  x ∈ SmartRouter.keyword_hits q <->
    (x = "docker" /\ SmartRouter.mentions_any SmartRouter.docker_keywords q = true)
    \/ (x = "k8s_local" /\ SmartRouter.mentions_any SmartRouter.local_keywords q = true)
    \/ (x = "k8s_remote" /\ SmartRouter.mentions_any SmartRouter.remote_keywords q = true)
    \/ (x = "chat" /\ SmartRouter.mentions_any SmartRouter.chat_keywords q = true).
Proof.
  unfold SmartRouter.keyword_hits, SmartRouter.keywords, SmartRouter.keyword_hit.
  cbn [map fst snd union_list foldr].
  unfold SmartRouter.MCP_DOCKER, SmartRouter.MCP_K8S_LOCAL,
    SmartRouter.MCP_K8S_REMOTE, SmartRouter.MCP_CHAT.
  destruct (SmartRouter.mentions_any SmartRouter.docker_keywords q),
    (SmartRouter.mentions_any SmartRouter.local_keywords q),
    (SmartRouter.mentions_any SmartRouter.remote_keywords q),
    (SmartRouter.mentions_any SmartRouter.chat_keywords q);
    set_solver.
Qed.

Lemma after_keywords_spec get_last_mcp (q : string) (sid : option string) (x : string) :
  x ∈ SmartRouter.after_keywords get_last_mcp q sid <->
    SmartRouter.sticky_backend get_last_mcp q sid = Some x
    \/ x ∈ SmartRouter.keyword_hits q.
Proof.
  unfold SmartRouter.after_keywords.
  destruct (SmartRouter.sticky_backend get_last_mcp q sid) as [m|]; set_solver.
Qed.

Lemma remote_keyword_of_remote (q : string) :
  PyStr.contains "remote" q = true ->
  SmartRouter.mentions_any SmartRouter.remote_keywords q = true.
Proof.
  intros H. unfold SmartRouter.mentions_any, SmartRouter.remote_keywords.
  cbn [existsb]. rewrite H. reflexivity.
Qed.

Lemma local_keyword_of_local (q : string) :
  PyStr.contains "local" q = true ->
  SmartRouter.mentions_any SmartRouter.local_keywords q = true.
Proof.
  intros H. unfold SmartRouter.mentions_any, SmartRouter.local_keywords.
  cbn [existsb]. rewrite H. reflexivity.
Qed.

(** Membership of the two Kubernetes backends in front of the fallback. *)
Lemma after_keywords_local get_last_mcp (q : string) (sid : option string) :
  "k8s_local" ∈ SmartRouter.after_keywords get_last_mcp q sid <->
    SmartRouter.sticky_backend get_last_mcp q sid = Some "k8s_local"
    \/ SmartRouter.mentions_any SmartRouter.local_keywords q = true.
Proof.
  rewrite after_keywords_spec, keyword_hits_spec. split.
  - intros [H | [[H _] | [[_ H] | [[H _] | [H _]]]]]; auto; discriminate.
  - intros [H | H]; auto.
Qed.

Lemma after_keywords_remote get_last_mcp (q : string) (sid : option string) :
  "k8s_remote" ∈ SmartRouter.after_keywords get_last_mcp q sid <->
    SmartRouter.sticky_backend get_last_mcp q sid = Some "k8s_remote"
    \/ SmartRouter.mentions_any SmartRouter.remote_keywords q = true.
Proof.
  rewrite after_keywords_spec, keyword_hits_spec. split.
  - intros [H | [[H _] | [[H _] | [[_ H] | [H _]]]]]; auto; discriminate.
  - intros [H | H]; auto 6.
Qed.

Lemma after_fallback_nonempty (q : string) (s : gset string) (x : string) :
  x ∈ s -> SmartRouter.after_fallback q s = s.
Proof.
  intros Hx. unfold SmartRouter.after_fallback.
  case_bool_decide as He; [|reflexivity]. set_solver.
Qed.

Lemma pulse_filter_remote pulse (q : string) (s : gset string) :
  "k8s_remote" ∈ SmartRouter.pulse_filter pulse q s <->
    "k8s_remote" ∈ s
    /\ (PyStr.contains "remote" q = true
        \/ pulse <> SmartRouter.PulseStatus (Some "disconnected")).
Proof.
  unfold SmartRouter.pulse_filter, SmartRouter.MCP_K8S_REMOTE.
  case_bool_decide as Hin; cbn [andb].
  - destruct (PyStr.contains "remote" q); cbn [negb].
    + split; [auto | tauto].
    + destruct pulse as [[st|]|].
      * destruct (String.eqb_spec st "disconnected") as [->|Hne].
        -- split; [set_solver|]. intros [_ [H | H]]; [discriminate | congruence].
        -- assert (Hsame : match st with
                           | "disconnected" => s ∖ {["k8s_remote"]}
                           | _ => s
                           end = s).
           { clear -Hne.
             repeat (destruct st as [|[[] [] [] [] [] [] [] []] st];
                     try reflexivity; try congruence). }
           rewrite Hsame. split; [|tauto]. intros _. split; [exact Hin|].
           right. congruence.
      * split; [|tauto]. intros _. split; [exact Hin|]. right. discriminate.
      * split; [|tauto]. intros _. split; [exact Hin|]. right. discriminate.
  - split; [intros H; contradiction | tauto].
Qed.

Lemma pulse_filter_other pulse (q : string) (s : gset string) (x : string) :
  x <> "k8s_remote" ->
  (x ∈ SmartRouter.pulse_filter pulse q s <-> x ∈ s).
Proof.
  intros Hx. unfold SmartRouter.pulse_filter, SmartRouter.MCP_K8S_REMOTE.
  destruct (_ && _)%bool; [|reflexivity].
  destruct pulse as [[st|]|]; try reflexivity.
  destruct (String.eqb_spec st "disconnected") as [->|Hne]; [set_solver|].
  assert (Hsame : match st with
                  | "disconnected" => s ∖ {["k8s_remote"]}
                  | _ => s
                  end = s).
  { clear -Hne.
    repeat (destruct st as [|[[] [] [] [] [] [] [] []] st];
            try reflexivity; try congruence). }
  rewrite Hsame. reflexivity.
Qed.

Lemma after_k8s_terms_mono (q : string) (s : gset string) (x : string) :
  x ∈ s -> x ∈ SmartRouter.after_k8s_terms q s.
Proof.
  unfold SmartRouter.after_k8s_terms. intros Hx.
  destruct (SmartRouter.mentions_any SmartRouter.k8s_common q); [|exact Hx].
  destruct (_ && _)%bool; set_solver.
Qed.

(** With a scope already present, step 2 adds nothing. *)
Lemma after_k8s_terms_scoped (q : string) (s : gset string) :
  "k8s_local" ∈ s \/ "k8s_remote" ∈ s -> SmartRouter.after_k8s_terms q s = s.
Proof.
  unfold SmartRouter.after_k8s_terms, SmartRouter.MCP_K8S_LOCAL, SmartRouter.MCP_K8S_REMOTE.
  intros H. destruct (SmartRouter.mentions_any SmartRouter.k8s_common q); [|reflexivity].
  do 2 case_bool_decide; cbn [negb andb]; try reflexivity. tauto.
Qed.

(** C6 (amended): scope is decided by the keyword sets, matched as
    substrings, and by the session's sticky backend.
    (1) A query with a common Kubernetes term, no local-scope and no
        remote-scope keyword, and no sticky Kubernetes backend has both
        k8s_local and k8s_remote among its candidates; k8s_local is
        returned, and k8s_remote is returned unless Pulse reports it
        "disconnected".
    (2) A query with a remote-scope keyword and no local-scope keyword
        (sticky backend not k8s_local) does not select k8s_local; one with a
        local-scope keyword and no remote-scope keyword (sticky backend not
        k8s_remote) selects k8s_local and not k8s_remote.  A query that
        contains "remote" always selects k8s_remote, one that contains
        "local" always selects k8s_local.
    (3) k8s_remote is returned exactly when it is a candidate and either
        the query contains "remote" or the Pulse status read is not
        "disconnected". *)
Theorem smart_routing_k8s
    (get_last_mcp : string -> option string) (pulse : SmartRouter.pulse_reading)
    (query : string) (session_id : option string) :
  let q := PyStr.lower query in
  let sticky := SmartRouter.sticky_backend get_last_mcp q session_id in
  let cands := SmartRouter.candidates get_last_mcp query session_id in
  let result := SmartRouter.route get_last_mcp pulse query session_id in
  let k8s_term := SmartRouter.mentions_any SmartRouter.k8s_common q in
  let local_kw := SmartRouter.mentions_any SmartRouter.local_keywords q in
  let remote_kw := SmartRouter.mentions_any SmartRouter.remote_keywords q in
  let disconnected := SmartRouter.PulseStatus (Some "disconnected") in
  (k8s_term = true -> local_kw = false -> remote_kw = false ->
   sticky <> Some "k8s_local" -> sticky <> Some "k8s_remote" ->
   "k8s_local" ∈ cands /\ "k8s_remote" ∈ cands
   /\ "k8s_local" ∈ result
   /\ ("k8s_remote" ∈ result <-> pulse <> disconnected))
  /\ (remote_kw = true -> local_kw = false -> sticky <> Some "k8s_local" ->
      ("k8s_local" ∉ result) /\ "k8s_remote" ∈ cands)
  /\ (local_kw = true -> remote_kw = false -> sticky <> Some "k8s_remote" ->
      "k8s_local" ∈ result /\ ("k8s_remote" ∉ result))
  /\ (PyStr.contains "remote" q = true -> "k8s_remote" ∈ result)
  /\ (PyStr.contains "local" q = true -> "k8s_local" ∈ result)
  /\ ("k8s_remote" ∈ result <->
        "k8s_remote" ∈ cands /\ (PyStr.contains "remote" q = true \/ pulse <> disconnected)).
Proof.
  cbn zeta. unfold SmartRouter.route, SmartRouter.candidates.
  set (q := PyStr.lower query).
  set (s1 := SmartRouter.after_keywords get_last_mcp q session_id).
  pose proof (after_keywords_local get_last_mcp q session_id) as HL. fold s1 in HL.
  pose proof (after_keywords_remote get_last_mcp q session_id) as HR. fold s1 in HR.
  assert (Hlocal_in : "k8s_local" ∈ s1 ->
            "k8s_local" ∈ SmartRouter.pulse_filter pulse q
              (SmartRouter.after_fallback q (SmartRouter.after_k8s_terms q s1))).
  { intros Hin. apply pulse_filter_other; [discriminate|].
    rewrite (after_fallback_nonempty q _ "k8s_local"); apply after_k8s_terms_mono, Hin. }
  assert (Hremote_cand : "k8s_remote" ∈ s1 ->
            "k8s_remote" ∈ SmartRouter.after_fallback q (SmartRouter.after_k8s_terms q s1)).
  { intros Hin.
    rewrite (after_fallback_nonempty q _ "k8s_remote"); apply after_k8s_terms_mono, Hin. }
  split; [|split; [|split; [|split; [|split]]]].
  - intros Hk Hl Hr Hsl Hsr.
    assert (HnL : "k8s_local" ∉ s1) by (rewrite HL; intros [?|?]; congruence).
    assert (HnR : "k8s_remote" ∉ s1) by (rewrite HR; intros [?|?]; congruence).
    assert (Hs2 : SmartRouter.after_k8s_terms q s1 = s1 ∪ {["k8s_remote"]} ∪ {["k8s_local"]}).
    { unfold SmartRouter.after_k8s_terms, SmartRouter.MCP_K8S_LOCAL,
        SmartRouter.MCP_K8S_REMOTE. rewrite Hk.
      do 2 case_bool_decide; try contradiction. reflexivity. }
    rewrite Hs2.
    rewrite (after_fallback_nonempty q _ "k8s_local") by set_solver.
    split; [set_solver|]. split; [set_solver|].
    split; [apply pulse_filter_other; [discriminate | set_solver]|].
    rewrite pulse_filter_remote. split.
    + intros [_ [Hc | Hp]]; [|exact Hp].
      apply remote_keyword_of_remote in Hc. congruence.
    + intros Hp. split; [set_solver | right; exact Hp].
  - intros Hr Hl Hsl.
    assert (HnL : "k8s_local" ∉ s1) by (rewrite HL; intros [?|?]; congruence).
    assert (HinR : "k8s_remote" ∈ s1) by (apply HR; right; exact Hr).
    rewrite (after_k8s_terms_scoped q s1) by (right; exact HinR).
    rewrite (after_fallback_nonempty q _ "k8s_remote") by exact HinR.
    split; [|exact HinR].
    rewrite pulse_filter_other by discriminate. exact HnL.
  - intros Hl Hr Hsr.
    assert (HnR : "k8s_remote" ∉ s1) by (rewrite HR; intros [?|?]; congruence).
    assert (HinL : "k8s_local" ∈ s1) by (apply HL; right; exact Hl).
    split; [apply Hlocal_in, HinL|].
    rewrite (after_k8s_terms_scoped q s1) by (left; exact HinL).
    rewrite (after_fallback_nonempty q _ "k8s_local") by exact HinL.
    rewrite pulse_filter_remote. tauto.
  - intros Hc. apply pulse_filter_remote. split; [|left; exact Hc].
    apply Hremote_cand, HR. right. apply remote_keyword_of_remote, Hc.
  - intros Hc. apply Hlocal_in, HL. right. apply local_keyword_of_local, Hc.
  - apply pulse_filter_remote.
Qed.

Lemma smart_routing_k8s_witness :
  let result :=
    SmartRouter.route (fun _ => None) (SmartRouter.PulseStatus (Some "degraded"))
      "list pods in kube-system" None in
  "k8s_local" ∈ result /\ "k8s_remote" ∈ result.
Proof.
  cbn zeta.
  destruct (smart_routing_k8s (fun _ => None) (SmartRouter.PulseStatus (Some "degraded"))
              "list pods in kube-system" None) as (H1 & _).
  destruct H1 as (_ & _ & Hl & Hr); try (vm_compute; congruence).
  split; [exact Hl|]. apply Hr. discriminate.
Defined.

(** ** Backend client *)

(** C7, as stated, fails: for a backend answering 200 with an [error]
    field, and for one answering 500, the value returned has no
    [raw_error] key; the payload of the first is under
    [original_response], the second carries no payload at all. *)
Lemma client_failure_has_no_raw_error :
  let on_error_field :=
    McpClient.call_tool_async ClientSamples.sample_endpoints
      (fun _ _ => McpClient.Response 200 (McpClient.Decoded ClientSamples.sample_error_payload))
      (fun _ _ => "Server error") (fun _ => "TypeError")
      "docker_list_containers" (JObj []) in
  let on_status_500 :=
    McpClient.call_tool_async ClientSamples.sample_endpoints
      (fun _ _ => McpClient.Response 500 (McpClient.Decoded ClientSamples.sample_error_payload))
      (fun _ _ => "Server error") (fun _ => "TypeError")
      "docker_list_containers" (JObj []) in
  McpClient.field "raw_error" on_error_field = None
  /\ McpClient.field "original_response" on_error_field = Some ClientSamples.sample_error_payload
  /\ McpClient.field "raw_error" on_status_500 = None
  /\ on_status_500 = McpClient.failure (JStr "Async error: Server error").
Proof. cbn zeta. repeat split; vm_compute; reflexivity. Qed.

Lemma connect_timeout_texts_differ (url : string) :
  JStr ("Cannot connect to MCP server at " ++ url ++ ". Is it running?")
  <> JStr "Request timed out".
Proof. intros H. injection H as H. discriminate. Qed.

(** C7 (amended): a decoded dict body that carries an [error] field yields
    [{success: false, error: <that field>, original_response: <the body>}];
    a status outside 200..299 yields [{success: false, error: "Async
    error: <text of the status error>"}] with no payload; connection
    failure and timeout yield [{success: false, error: ...}] with two
    different messages; and in each of these cases the value returned is a
    dict whose [success] is false (no exception escapes: the function is
    total). *)
Theorem client_failure_results
    (urls : McpClient.endpoints) (post : string -> json -> McpClient.post_outcome)
    (status_error_text : Z -> string -> string) (runtime_error_text : json -> string)
    (tool_name : string) (arguments : json) :
  let url := McpClient.select_url urls tool_name in
  let outcome := post url (McpClient.payload tool_name arguments) in
  let r := McpClient.call_tool_async urls post status_error_text runtime_error_text
             tool_name arguments in
  (forall status fields error,
      outcome = McpClient.Response status (McpClient.Decoded (JObj fields)) ->
      McpClient.is_success status = true ->
      PyVal.get "error" fields = Some error ->
      r = JObj [ ("success", JBool false); ("error", error);
                 ("original_response", JObj fields) ])
  /\ (forall status body,
        outcome = McpClient.Response status body ->
        McpClient.is_success status = false ->
        r = JObj [ ("success", JBool false);
                   ("error", JStr ("Async error: " ++ status_error_text status url)) ])
  /\ (outcome = McpClient.ConnectError ->
      r = JObj [ ("success", JBool false);
                 ("error", JStr ("Cannot connect to MCP server at " ++ url
                                 ++ ". Is it running?")) ])
  /\ (outcome = McpClient.TimeoutException ->
      r = JObj [ ("success", JBool false); ("error", JStr "Request timed out") ])
  /\ JStr ("Cannot connect to MCP server at " ++ url ++ ". Is it running?")
     <> JStr "Request timed out"
  /\ ((exists status fields error,
          outcome = McpClient.Response status (McpClient.Decoded (JObj fields))
          /\ PyVal.get "error" fields = Some error)
      \/ (exists status body,
             outcome = McpClient.Response status body
             /\ McpClient.is_success status = false)
      \/ outcome = McpClient.ConnectError
      \/ outcome = McpClient.TimeoutException ->
      McpClient.field "success" r = Some (JBool false)).
Proof.
  cbn zeta. unfold McpClient.call_tool_async.
  set (url := McpClient.select_url urls tool_name).
  set (outcome := post url (McpClient.payload tool_name arguments)).
  split; [|split; [|split; [|split; [|split]]]].
  - intros status fields error -> Hs He. rewrite Hs. cbn. rewrite He. reflexivity.
  - intros status body -> Hs. rewrite Hs. reflexivity.
  - intros ->. reflexivity.
  - intros ->. reflexivity.
  - apply connect_timeout_texts_differ.
  - intros [(status & fields & error & -> & He) | [(status & body & -> & Hs) | [-> | ->]]].
    + destruct (McpClient.is_success status); [|reflexivity].
      cbn. rewrite He. reflexivity.
    + rewrite Hs. reflexivity.
    + reflexivity.
    + reflexivity.
Qed.

Lemma client_failure_results_witness :
  McpClient.call_tool_async ClientSamples.sample_endpoints
    (fun _ _ => McpClient.Response 200 (McpClient.Decoded ClientSamples.sample_error_payload))
    (fun _ _ => "Server error") (fun _ => "TypeError")
    "remote_k8s_list_pods" (JObj [])
  = JObj [ ("success", JBool false);
           ("error", JObj [("code", JInt (-32601)); ("message", JStr "Method not found")]);
           ("original_response", ClientSamples.sample_error_payload) ].
Proof.
  refine (proj1 (client_failure_results ClientSamples.sample_endpoints
                   (fun _ _ => McpClient.Response 200 (McpClient.Decoded ClientSamples.sample_error_payload))
                   (fun _ _ => "Server error") (fun _ => "TypeError")
                   "remote_k8s_list_pods" (JObj [])) 200 _ _ _ _ _);
    reflexivity.
Defined.

Example client_passes_result_through :
  McpClient.call_tool_async ClientSamples.sample_endpoints
    (fun url _ =>
       if String.eqb url "http://127.0.0.1:8081"
       then McpClient.Response 200
              (McpClient.Decoded
                 (JObj [("result", JObj [("success", JBool true); ("count", JInt 0)])]))
       else McpClient.ConnectError)
    (fun _ _ => "Server error") (fun _ => "TypeError")
    "local_k8s_list_pods" (JObj [])
  = JObj [("success", JBool true); ("count", JInt 0)].
Proof. vm_compute. reflexivity. Qed.

(** ** Vector index consistency *)

Lemma fits_empty : FaissInv.fits FaissIndex.empty_metadata 0.
Proof.
  split; [apply map_size_empty|].
  intros name info H. cbn in H. rewrite lookup_empty in H. discriminate.
Qed.

Lemma fits_insert (m : FaissIndex.metadata) (n : nat) (name desc : string) :
  FaissInv.fits m n ->
  FaissIndex.m_tools m !! name = None ->
  FaissInv.fits
    (FaissIndex.mkMeta (<[name := FaissIndex.mkInfo n desc]> (FaissIndex.m_tools m))
                       (<[n := name]> (FaissIndex.m_idx_to_tool m)))
    (S n).
Proof.
  intros [Hsize Hmap] Hfresh. split; cbn.
  - rewrite map_size_insert_None by exact Hfresh. rewrite Hsize. reflexivity.
  - intros name' info Hl. destruct (decide (name = name')) as [<-|Hne].
    + rewrite lookup_insert_eq in Hl. injection Hl as <-. cbn.
      split; [lia | apply lookup_insert_eq].
    + rewrite lookup_insert_ne in Hl by exact Hne.
      destruct (Hmap name' info Hl) as [Hlt Hback]. split; [lia|].
      rewrite lookup_insert_ne by lia. exact Hback.
Qed.

Lemma wf_init (faiss_ok : bool) (found : FaissIndex.files) :
  (forall m vectors,
      FaissIndex.metadata_file found = Some m ->
      FaissIndex.index_file found = Some vectors ->
      FaissInv.fits m (length vectors)) ->
  FaissInv.wf (FaissIndex.init faiss_ok found).
Proof.
  intros Hdisk. unfold FaissIndex.init.
  destruct faiss_ok.
  - destruct (FaissIndex.metadata_file found) as [m|] eqn:Hm;
      [destruct (FaissIndex.index_file found) as [v|] eqn:Hv|].
    + split; [apply Hdisk; reflexivity|]. cbn. intros m' v' Hm' Hv'.
      apply Hdisk; congruence.
    + split; [apply fits_empty|]. cbn. intros m' v' Hm' Hv'. congruence.
    + split; [apply fits_empty|]. cbn. intros m' v' Hm' Hv'. congruence.
  - split; [apply fits_empty | exact Hdisk].
Qed.

Lemma wf_create_empty (s : FaissIndex.t) :
  FaissInv.wf s -> FaissInv.wf (fst (FaissIndex._create_empty_index s)).
Proof.
  intros [Hfit Hdisk]. unfold FaissIndex._create_empty_index.
  destruct (FaissIndex.faiss_available s); cbn; [|split; assumption].
  split; [apply fits_empty | exact Hdisk].
Qed.

Lemma wf_save (s : FaissIndex.t) :
  is_Some (FaissIndex.index s) ->
  FaissInv.wf s -> FaissInv.wf (fst (FaissIndex._save s)).
Proof.
  intros [v Hv] [Hfit Hdisk]. unfold FaissIndex._save. rewrite Hv. cbn.
  unfold FaissInv.wf, FaissIndex.ntotal in *. cbn. rewrite Hv in *.
  split; [exact Hfit|]. intros m v' Hm Hv'. congruence.
Qed.

Lemma wf_clear (s : FaissIndex.t) :
  FaissInv.wf s -> FaissInv.wf (fst (FaissIndex.clear s)).
Proof.
  intros Hwf. unfold FaissIndex.clear.
  pose proof (wf_create_empty s Hwf) as Hc.
  unfold FaissIndex._create_empty_index in *.
  destruct (FaissIndex.faiss_available s); cbn in *; [|exact Hwf].
  apply (wf_save (FaissIndex.mkIndex true (Some []) FaissIndex.empty_metadata
                    (FaissIndex.disk s))); [eexists; reflexivity | exact Hc].
Qed.

Lemma remove_cases (s : FaissIndex.t) (name : string) :
  FaissIndex.remove s name = (s, FaissIndex.ReturnsFalse)
                             /\ FaissIndex.tools s !! name = None
  \/ (FaissIndex.faiss_available s = false
      /\ FaissIndex.remove s name = (s, FaissIndex.Raises))
  \/ (FaissIndex.faiss_available s = true
      /\ snd (FaissIndex.remove s name) = FaissIndex.ReturnsTrue
      /\ FaissIndex.faiss_available (fst (FaissIndex.remove s name)) = true
      /\ FaissIndex.index (fst (FaissIndex.remove s name)) = Some []
      /\ FaissIndex.meta (fst (FaissIndex.remove s name)) = FaissIndex.empty_metadata
      /\ (fst (FaissIndex.remove s name) = fst (FaissIndex.clear s)
          \/ fst (FaissIndex.remove s name) = fst (FaissIndex._create_empty_index s))).
Proof.
  unfold FaissIndex.remove, FaissIndex._rebuild_without, FaissIndex.clear,
    FaissIndex._create_empty_index.
  destruct (FaissIndex.tools s !! name) as [info|]; [|left; auto].
  right. destruct (FaissIndex.faiss_available s) eqn:Hf.
  - right. case_bool_decide; cbn; repeat split; auto.
  - left. case_bool_decide; cbn; auto.
Qed.

Lemma wf_remove (s : FaissIndex.t) (name : string) :
  FaissInv.wf s -> FaissInv.wf (fst (FaissIndex.remove s name)).
Proof.
  intros Hwf.
  destruct (remove_cases s name) as [[-> _] | [[_ ->] | (_ & _ & _ & _ & _ & [-> | ->])]];
    [exact Hwf | exact Hwf | apply wf_clear, Hwf | apply wf_create_empty, Hwf].
Qed.

Lemma wf_add normalize_L2 (s : FaissIndex.t) (name : string) (embedding : list Q)
      (desc : string) :
  FaissInv.wf s -> FaissInv.wf (fst (FaissIndex.add normalize_L2 s name embedding desc)).
Proof.
  intros Hwf. unfold FaissIndex.add.
  destruct (FaissIndex.index s) as [v0|] eqn:Hidx; [|exact Hwf].
  destruct (FaissIndex.faiss_available s) eqn:Hf; cbn [negb]; [|exact Hwf].
  (* the state in front of [self.index.add]: well formed, without the tool *)
  assert (Hs1 : exists s1 removed,
             match FaissIndex.tools s !! name with
             | Some _ => FaissIndex.remove s name
             | None => (s, FaissIndex.ReturnsFalse)
             end = (s1, removed)
             /\ FaissInv.wf s1 /\ removed <> FaissIndex.Raises
             /\ is_Some (FaissIndex.index s1)
             /\ FaissIndex.tools s1 !! name = None).
  { destruct (FaissIndex.tools s !! name) as [info|] eqn:Hl.
    - pose proof (wf_remove s name Hwf) as Hr.
      destruct (remove_cases s name)
        as [[_ Hnone] | [[Hoff _] | (_ & Hret & _ & Hi & Hm & _)]]; [congruence..|].
      destruct (FaissIndex.remove s name) as [s1 removed]. cbn in *.
      exists s1, removed.
      split; [reflexivity|]. split; [exact Hr|]. split; [congruence|]. split.
      + rewrite Hi. eexists; reflexivity.
      + unfold FaissIndex.tools. rewrite Hm. apply lookup_empty.
    - exists s, FaissIndex.ReturnsFalse.
      split; [reflexivity|]. split; [exact Hwf|]. split; [discriminate|].
      split; [|exact Hl]. rewrite Hidx. eexists; reflexivity. }
  destruct Hs1 as (s1 & removed & -> & Hwf1 & Hnr & [v1 Hv1] & Hfresh).
  rewrite Hv1.
  destruct (negb (length embedding =? FaissIndex.EMBEDDING_DIM)%nat).
  { destruct removed; try exact Hwf1. }
  assert (Hwf2 : FaissInv.wf
            (FaissIndex.mkIndex (FaissIndex.faiss_available s1)
               (Some (v1 ++ [normalize_L2 embedding])%list)
               (FaissIndex.mkMeta
                  (<[name := FaissIndex.mkInfo (length v1) (PyStr.take 200 desc)]>
                     (FaissIndex.tools s1))
                  (<[length v1 := name]> (FaissIndex.idx_to_tool s1)))
               (FaissIndex.disk s1))).
  { destruct Hwf1 as [Hfit Hdisk]. split; [|exact Hdisk].
    unfold FaissIndex.ntotal in *. rewrite Hv1 in Hfit. cbn.
    rewrite length_app. cbn [length]. rewrite Nat.add_1_r.
    apply fits_insert; assumption. }
  apply wf_save in Hwf2; [|eexists; reflexivity].
  cbn in Hwf2. destruct removed; try exact Hwf2. congruence.
Qed.

Lemma wf_step normalize_L2 (s : FaissIndex.t) (o : FaissIndex.op) :
  FaissInv.wf s -> FaissInv.wf (FaissIndex.step normalize_L2 s o).
Proof.
  intros Hwf. destruct o as [n e d | n | |]; cbn.
  - apply wf_add, Hwf.
  - apply wf_remove, Hwf.
  - apply wf_clear, Hwf.
  - apply wf_init. apply Hwf.
Qed.

Lemma wf_run normalize_L2 (faiss_ok : bool) (ops : list FaissIndex.op) :
  FaissInv.wf (FaissIndex.run normalize_L2 faiss_ok ops).
Proof.
  unfold FaissIndex.run.
  assert (Hgen : forall s, FaissInv.wf s ->
                           FaissInv.wf (fold_left (FaissIndex.step normalize_L2) ops s)).
  { induction ops as [|o ops IH]; intros s Hs; [exact Hs|].
    cbn. apply IH, wf_step, Hs. }
  apply Hgen, wf_init. cbn. intros m v Hm. discriminate.
Qed.

Lemma wf_consistent (s : FaissIndex.t) : FaissInv.wf s -> FaissIndex.consistent s.
Proof.
  intros [[Hsize Hmap] _]. split; [symmetry; exact Hsize|].
  intros name info Hl. apply (Hmap name info Hl).
Qed.

Lemma omap_all_none {A B : Type} (f : A -> option B) (l : list A) :
  (forall x, x ∈ l -> f x = None) -> omap f l = [].
Proof.
  induction l as [|x l IH]; intros H; [reflexivity|].
  cbn. rewrite (H x) by (left). apply IH. intros y Hy. apply H. right. exact Hy.
Qed.

Lemma consistent_verify (s : FaissIndex.t) :
  FaissIndex.consistent s -> FaissIndex.valid (FaissIndex.verify s) = true.
Proof.
  intros [Hsize Hmap]. unfold FaissIndex.verify. cbn.
  assert (Hm : omap (FaissIndex.mapping_issue s) (map_to_list (FaissIndex.tools s)) = []).
  { apply omap_all_none. intros [name info] Hin.
    apply elem_of_map_to_list in Hin. unfold FaissIndex.mapping_issue. cbn.
    rewrite bool_decide_eq_true_2 by (apply Hmap, Hin). reflexivity. }
  rewrite Hm, app_nil_r. unfold FaissIndex.ntotal in Hsize.
  destruct (FaissIndex.index s) as [v|]; [|reflexivity].
  rewrite Hsize, Nat.eqb_refl. reflexivity.
Qed.

(** C9: after any history of add, remove and clear operations (process
    restarts included) on an index that started with no files, the number
    of vectors equals the number of tools in the metadata, every
    (name, position) pair of [metadata.tools] is mapped back by
    [idx_to_tool], and [verify] reports the index valid. *)
Theorem index_consistency
    (normalize_L2 : list Q -> list Q) (faiss_ok : bool) (ops : list FaissIndex.op) :
  let s := FaissIndex.run normalize_L2 faiss_ok ops in
  FaissIndex.ntotal s = size (FaissIndex.tools s)
  /\ (forall name info,
        FaissIndex.tools s !! name = Some info ->
        FaissIndex.idx_to_tool s !! FaissIndex.idx info = Some name)
  /\ FaissIndex.valid (FaissIndex.verify s) = true.
Proof.
  cbn zeta.
  pose proof (wf_consistent _ (wf_run normalize_L2 faiss_ok ops)) as Hc.
  split; [apply Hc|]. split; [apply Hc|]. apply consistent_verify, Hc.
Qed.

(** ** Tool retrieval *)


Section RetrieverFacts.
Variable sqrt : Q -> Q.
Variable embed : string -> list Q.
Variable normalize_L2 : list Q -> list Q.
Variable faiss_search : list (list Q) -> list Q -> Z -> option (list (Q * Z)).

Hypothesis embed_dim :
  forall text, embed text = [] \/ length (embed text) = FaissIndex.EMBEDDING_DIM.



(** The query embedding [retrieve] works with. *)
Lemma query_embedding_spec (r : ToolRetriever.t) (query : string) :
  let '(r2, qe) := ToolRetriever._get_async_query_embedding embed r query in
  ToolRetriever.tools r2 = ToolRetriever.tools r
  /\ ToolRetriever.faiss_index r2 = ToolRetriever.faiss_index r
  /\ qe = match ToolRetriever.query_cache r !! query with
          | Some e => e
          | None => embed query
          end.
Proof.
  unfold ToolRetriever._get_async_query_embedding.
  destruct (ToolRetriever.query_cache r !! query); [auto|].
  destruct (embed query); auto.
Qed.





Hypothesis search_rows :
  forall vectors q k rows,
    faiss_search vectors q k = Some rows -> length rows = Z.to_nat k.


Hypothesis search_returns :
  forall vectors q k, 0 < k -> exists rows, faiss_search vectors q k = Some rows.


End RetrieverFacts.



Example retrieve_without_embedding_returns_all :
  snd (ToolRetriever.retrieve Ref.sqrt_floor RetrieverSamples.embed_down (fun v => v)
         ToolRetriever.flat_search RetrieverSamples.json_retriever "show pods" 1)
  = ToolRetriever.Returns RetrieverSamples.three_tools.
Proof. vm_compute. reflexivity. Qed.

Example retrieve_json_top_1 :
  snd (ToolRetriever.retrieve Ref.sqrt_floor RetrieverSamples.embed_query_only (fun v => v)
         ToolRetriever.flat_search RetrieverSamples.json_retriever "show pods" 1)
  = ToolRetriever.Returns
      [ToolRetriever.mkTool "local_k8s_list_pods" "List pods" (JObj [])].
Proof. vm_compute. reflexivity. Qed.


(** With a populated index and [top_k = 0], the search asks FAISS for
    zero neighbours; with a search that rejects [k <= 0] [retrieve]
    raises instead of returning an empty list. *)
Example retrieve_faiss_top_0_raises :
  let fi := FaissIndex.run (fun v => v) true
              [ FaissIndex.OpAdd "docker_list_containers" (repeat 1%Q 768) "List containers";
                FaissIndex.OpAdd "local_k8s_list_pods" (repeat 2%Q 768) "List pods" ] in
  let r := ToolRetriever.mkRetriever RetrieverSamples.three_tools ∅ (Some fi)
             (<["show pods" := repeat 1%Q 768]> ∅) in
  snd (ToolRetriever.retrieve Ref.sqrt_floor RetrieverSamples.embed_down (fun v => v)
         ToolRetriever.flat_search r "show pods" 0)
  = ToolRetriever.Raises.
Proof. vm_compute. reflexivity. Qed.



(** ** Runs of the vector index *)

Example index_after_two_adds :
  let s := FaissIndex.run (fun v => v) true
             [ FaissIndex.OpAdd "docker_list_containers" (repeat 1%Q 768) "List containers";
               FaissIndex.OpAdd "local_k8s_list_pods" (repeat 2%Q 768) "List pods" ] in
  FaissIndex.ntotal s = 2%nat
  /\ FaissIndex.tools s !! "local_k8s_list_pods" = Some (FaissIndex.mkInfo 1 "List pods")
  /\ FaissIndex.idx_to_tool s !! 1%nat = Some "local_k8s_list_pods".
Proof. cbn zeta. repeat split; vm_compute; reflexivity. Qed.

(** Removing one of two tools rebuilds to an empty index and empty metadata. *)
Example index_remove_one_of_two :
  let s := FaissIndex.run (fun v => v) true
             [ FaissIndex.OpAdd "docker_list_containers" (repeat 1%Q 768) "List containers";
               FaissIndex.OpAdd "local_k8s_list_pods" (repeat 2%Q 768) "List pods";
               FaissIndex.OpRemove "docker_list_containers" ] in
  FaissIndex.ntotal s = 0%nat /\ FaissIndex.count s = 0%nat.
Proof. cbn zeta. split; vm_compute; reflexivity. Qed.

Example index_wrong_dimension_raises :
  snd (FaissIndex.add (fun v => v) (FaissIndex.init true (FaissIndex.mkFiles None None))
         "docker_list_containers" [1; 2; 3]%Q "List containers")
  = FaissIndex.Raises.
Proof. vm_compute. reflexivity. Qed.

Example retrieve_faiss_top_1 :
  let fi := FaissIndex.run (fun v => v) true
              [ FaissIndex.OpAdd "docker_list_containers" (repeat 1%Q 768) "List containers";
                FaissIndex.OpAdd "local_k8s_list_pods" (repeat 2%Q 768) "List pods" ] in
  let r := ToolRetriever.mkRetriever RetrieverSamples.three_tools ∅ (Some fi)
             (<["show pods" := repeat 1%Q 768]> ∅) in
  snd (ToolRetriever.retrieve Ref.sqrt_floor RetrieverSamples.embed_down (fun v => v)
         ToolRetriever.flat_search r "show pods" 1)
  = ToolRetriever.Returns
      [ToolRetriever.mkTool "local_k8s_list_pods" "List pods" (JObj [])].
Proof. vm_compute. reflexivity. Qed.

(* ===================================================================== *)
(** * Part III: further properties of the same code *)
(* ===================================================================== *)

(** ** Safety classifier: families and impact bullets *)

Lemma string_app_assoc (a b c : string) : (a ++ b) ++ c = a ++ (b ++ c).
Proof.
  induction a as [|x a IH]; [reflexivity|].
  change (String x ((a ++ b) ++ c) = String x (a ++ (b ++ c))). f_equal. exact IH.
Qed.

Lemma prefix_app_r (p s t : string) :
  String.prefix p s = true -> String.prefix p (s ++ t) = true.
Proof.
  intros H. apply prefix_app_iff in H as [r ->].
  apply prefix_app_iff. exists (r ++ t). apply string_app_assoc.
Qed.

(** X1: every name that extends a name classified dangerous by prefix is
    dangerous too ([docker_run_container], matched exactly, is the one
    name whose extensions are not covered). *)
Theorem dangerous_prefix_extension (name suffix : string) :
  Safety.is_dangerous name = true ->
  name <> "docker_run_container" ->
  Safety.is_dangerous (name ++ suffix) = true.
Proof.
  unfold Safety.is_dangerous, Safety.DANGEROUS_TOOLS_EXACT. cbn [existsb].
  rewrite !orb_false_r. intros Hd Hne.
  destruct (String.eqb_spec name "docker_run_container") as [->|_]; [congruence|].
  destruct (String.eqb (name ++ suffix) "docker_run_container"); [reflexivity|].
  apply existsb_exists in Hd as (p & Hin & Hp).
  apply existsb_exists. exists p. split; [exact Hin|].
  unfold PyStr.startswith in *. apply prefix_app_r, Hp.
Qed.

Lemma dangerous_prefix_extension_witness :
  Safety.is_dangerous ("docker_stop" ++ "_all_containers") = true.
Proof.
  apply dangerous_prefix_extension; [reflexivity | discriminate].
Defined.

Example run_container_extension_not_dangerous :
  Safety.is_dangerous "docker_run_container_detached" = false.
Proof. reflexivity. Qed.

(** X2: the report of a dangerous tool names the tool in its reason and
    carries either three impact bullets or none; it carries none exactly
    when the name is neither [docker_stop_container] nor
    [docker_run_container] and contains none of "delete", "exec",
    "promote" (so [docker_rm...] and [docker_prune...] tools are HIGH with
    an empty impact list). *)
Theorem dangerous_impacts_shape
    (py_str : json -> string) (name : string) (arguments : gmap string json) :
  Safety.is_dangerous name = true ->
  let r := Safety.analyze_risk py_str name arguments in
  Safety.ra_reason r
    = "Tool '" ++ name ++ "' performs destructive or resource-intensive actions."
  /\ (length (Safety.ra_impact_analysis r) = 3%nat \/ Safety.ra_impact_analysis r = [])
  /\ (Safety.ra_impact_analysis r = [] <->
        name <> "docker_stop_container" /\ name <> "docker_run_container"
        /\ PyStr.contains "delete" name = false
        /\ PyStr.contains "exec" name = false
        /\ PyStr.contains "promote" name = false).
Proof.
  intros Hd. cbn zeta. unfold Safety.analyze_risk. rewrite Hd. cbn [negb].
  cbn [Safety.ra_reason Safety.ra_impact_analysis].
  split; [reflexivity|].
  destruct (String.eqb_spec name "docker_stop_container") as [Hs|Hs].
  { split; [left; reflexivity|]. split; [discriminate | tauto]. }
  destruct (String.eqb_spec name "docker_run_container") as [Hr|Hr].
  { split; [left; reflexivity|]. split; [discriminate | tauto]. }
  destruct (PyStr.contains "delete" name).
  { split; [left; reflexivity|]. split; [discriminate | intros (_ & _ & H & _); discriminate]. }
  destruct (PyStr.contains "exec" name).
  { split; [left; reflexivity|].
    split; [discriminate | intros (_ & _ & _ & H & _); discriminate]. }
  destruct (PyStr.contains "promote" name).
  { split; [left; reflexivity|].
    split; [discriminate | intros (_ & _ & _ & _ & H); discriminate]. }
  split; [right; reflexivity|]. split; [auto | reflexivity].
Qed.

Lemma dangerous_impacts_shape_witness :
  Safety.ra_impact_analysis
    (Safety.analyze_risk (fun _ => "web") "docker_rm_container"
       (<["container_id" := JStr "web"]> ∅)) = [].
Proof.
  apply (dangerous_impacts_shape (fun _ => "web") "docker_rm_container"
           (<["container_id" := JStr "web"]> ∅) eq_refl).
  repeat split; try discriminate; reflexivity.
Defined.

(** ** Semantic cache: what a hit returns, scopes, duplicates, persistence *)

(** X3: a hit returns the stored output and tool calls of an entry of the
    cache that passes the scope filter, whose score (the binary64 number
    [_cosine_similarity] computes) reaches the threshold under the
    code's [>=] and which no entry that passes the filter outscores. *)
Theorem lookup_hit_is_stored_best
    (fsum : list float -> float) (sqrt : float -> float)
    (embed : string -> list float) (c : SemanticCache.t)
    (query : string) (mcp : option string) (out : string) (tcs : list json) :
  SemanticCache.lookup fsum sqrt embed c query mcp = SemanticCache.Hit out tcs ->
  let score := fun e =>
    SemanticCache._cosine_similarity fsum sqrt (embed query) (SemanticCache.e_embedding e) in
  exists e,
    In e (SemanticCache.entries c)
    /\ SemanticCache.eligible mcp e = true
    /\ out = SemanticCache.e_output e
    /\ tcs = SemanticCache.e_tool_calls e
    /\ PrimFloat.leb (SemanticCache.threshold c) (score e) = true
    /\ forall e', In e' (SemanticCache.entries c) ->
                  SemanticCache.eligible mcp e' = true ->
                  PrimFloat.ltb (score e) (score e') = false.
Proof.
  intros H. pose proof (lookup_hit_inv fsum sqrt embed c query mcp) as Hinv.
  rewrite H in Hinv. exact Hinv.
Qed.

Lemma lookup_hit_is_stored_best_witness :
  exists e,
    In e [SemanticCache.mkEntry "list containers" [49; 9; 3; 3]%float "2 containers"
            [JStr "docker_list_containers"] None 0%float]
    /\ "2 containers" = SemanticCache.e_output e.
Proof.
  destruct (lookup_hit_is_stored_best Ref.sum_left PrimFloat.sqrt
              (fun _ => [1; 0; 0; 0]%float)
              (SemanticCache.mkCache SemanticCache.default_threshold
                 [SemanticCache.mkEntry "list containers" [49; 9; 3; 3]%float "2 containers"
                    [JStr "docker_list_containers"] None 0%float] [])
              "show containers" None "2 containers" [JStr "docker_list_containers"])
    as (e & Hin & _ & Hout & _).
  - vm_compute. reflexivity.
  - exists e. split; assumption.
Defined.

(** X4: with a threshold above -1, [lookup] never fails on a missing best
    match, and a lookup scoped to a backend misses whenever no entry was
    stored under that backend, whatever the scores are. *)
Theorem lookup_scope_isolation
    (fsum : list float -> float) (sqrt : float -> float)
    (embed : string -> list float) (c : SemanticCache.t)
    (query : string) (mcp : option string) :
  PrimFloat.ltb (-1)%float (SemanticCache.threshold c) = true ->
  SemanticCache.lookup fsum sqrt embed c query mcp <> SemanticCache.LookupTypeError
  /\ forall m, mcp = Some m -> m <> "" ->
       (forall e, In e (SemanticCache.entries c) -> SemanticCache.e_active_mcp e <> Some m) ->
       SemanticCache.lookup fsum sqrt embed c query mcp = SemanticCache.Miss.
Proof.
  intros Hthr. pose proof (lookup_hit_inv fsum sqrt embed c query mcp) as Hinv.
  cbn zeta in Hinv.
  assert (Hlow : PrimFloat.leb (SemanticCache.threshold c) (-1)%float = true -> False).
  { intros Hle. apply f64_leb_not_ltb in Hle. congruence. }
  split.
  - intros Heq. rewrite Heq in Hinv. exact (Hlow Hinv).
  - intros m -> Hm Hnone.
    destruct (SemanticCache.lookup fsum sqrt embed c query (Some m)) as [out tcs| |].
    + destruct Hinv as (e & Hin & Hok & _). exfalso.
      unfold SemanticCache.eligible, SemanticCache.str_truthy in Hok.
      destruct (String.eqb_spec m "") as [->|_]; [congruence|]. cbn in Hok.
      apply bool_decide_eq_true in Hok. exact (Hnone e Hin Hok).
    + reflexivity.
    + exfalso. exact (Hlow Hinv).
Qed.

Lemma lookup_scope_isolation_witness :
  SemanticCache.lookup Ref.sum_left PrimFloat.sqrt (fun _ => [1; 0]%float)
    (SemanticCache.mkCache SemanticCache.default_threshold
       [SemanticCache.mkEntry "list pods" [1; 0]%float "3 pods" [] (Some "k8s_local")
          0%float] [])
    "list pods" (Some "k8s_remote")
  = SemanticCache.Miss.
Proof.
  refine (proj2 (lookup_scope_isolation Ref.sum_left PrimFloat.sqrt
                   (fun _ => [1; 0]%float)
                   (SemanticCache.mkCache SemanticCache.default_threshold
                      [SemanticCache.mkEntry "list pods" [1; 0]%float "3 pods" []
                         (Some "k8s_local") 0%float] [])
                   "list pods" (Some "k8s_remote") _) "k8s_remote" eq_refl _ _).
  - reflexivity.
  - discriminate.
  - intros e [<-|[]]. discriminate.
Defined.

(** An entry without scope is skipped by a scoped lookup as well. *)
Example unscoped_entry_skipped_by_scoped_lookup :
  SemanticCache.lookup Ref.sum_left PrimFloat.sqrt (fun _ => [1; 0]%float)
    (SemanticCache.mkCache SemanticCache.default_threshold
       [SemanticCache.mkEntry "list pods" [1; 0]%float "3 pods" [] None 0%float] [])
    "list pods" (Some "k8s_remote")
  = SemanticCache.Miss.
Proof. vm_compute. reflexivity. Qed.

Lemma existsb_query_false (es : list SemanticCache.entry) (query : string) :
  existsb (fun e => String.eqb (SemanticCache.e_query e) query) es = false ->
  ~ In query (map SemanticCache.e_query es).
Proof.
  intros H Hin. apply in_map_iff in Hin as (e & He & Hin).
  assert (Ht : existsb (fun e => String.eqb (SemanticCache.e_query e) query) es = true).
  { apply existsb_exists. exists e. split; [exact Hin|]. rewrite He. apply String.eqb_refl. }
  congruence.
Qed.

Lemma NoDup_tl {A : Type} (l : list A) : List.NoDup l -> List.NoDup (List.tl l).
Proof. intros H. destruct l; [exact H|]. inversion H; assumption. Qed.

Lemma NoDup_snoc {A : Type} (l : list A) (x : A) :
  List.NoDup l -> ~ In x l -> List.NoDup (l ++ [x])%list.
Proof.
  induction l as [|y l IH]; intros Hnd Hx; cbn.
  - constructor; [intros [] | constructor].
  - inversion Hnd as [|? ? Hy Hl]; subst. constructor.
    + intros Hin. apply in_app_or in Hin as [Hin | [<- | []]]; [contradiction|].
      apply Hx. left. reflexivity.
    + apply IH; [exact Hl|]. intros Hin. apply Hx. right. exact Hin.
Qed.

Lemma add_keeps_queries_distinct
    (embed : string -> list float) (py_str : json -> string) (now : float)
    (c : SemanticCache.t) (query output : string) (tool_calls : list json)
    (active_mcp : option string) :
  List.NoDup (map SemanticCache.e_query (SemanticCache.entries c)) ->
  List.NoDup (map SemanticCache.e_query
                (SemanticCache.entries
                   (SemanticCache.add embed py_str now c query output tool_calls active_mcp))).
Proof.
  intros Hnd. unfold SemanticCache.add.
  destruct (_ || _)%bool; [exact Hnd|].
  destruct (existsb _ tool_calls); [exact Hnd|].
  destruct (embed query) as [|q0 qs]; [exact Hnd|].
  destruct (existsb _ (SemanticCache.entries c)) eqn:Hdup; [exact Hnd|].
  apply existsb_query_false in Hdup.
  cbn [SemanticCache._save SemanticCache.entries].
  assert (Happ : List.NoDup (map SemanticCache.e_query
                    (SemanticCache.entries c
                     ++ [SemanticCache.mkEntry query (q0 :: qs) output tool_calls
                           active_mcp now])%list)).
  { rewrite map_app. cbn [map SemanticCache.e_query]. apply NoDup_snoc; assumption. }
  destruct (Nat.ltb _ _); [|exact Happ].
  destruct (SemanticCache.entries c ++ _)%list as [|e0 rest]; [exact Happ|].
  cbn [List.tl]. cbn [map] in Happ. inversion Happ; assumption.
Qed.

Lemma cache_history_distinct
    (embed : string -> list float) (py_str : json -> string) (ops : list CacheHistory.op) :
  List.NoDup (map SemanticCache.e_query
                (SemanticCache.entries (CacheHistory.run embed py_str ops)))
  /\ Forall (fun s => List.NoDup (map SemanticCache.e_query s))
            (SemanticCache.disk_writes (CacheHistory.run embed py_str ops)).
Proof.
  unfold CacheHistory.run.
  assert (Hgen : forall c0,
          List.NoDup (map SemanticCache.e_query (SemanticCache.entries c0)) ->
          Forall (fun s => List.NoDup (map SemanticCache.e_query s))
                 (SemanticCache.disk_writes c0) ->
          List.NoDup (map SemanticCache.e_query
                        (SemanticCache.entries
                           (fold_left (CacheHistory.step embed py_str) ops c0)))
          /\ Forall (fun s => List.NoDup (map SemanticCache.e_query s))
                    (SemanticCache.disk_writes
                       (fold_left (CacheHistory.step embed py_str) ops c0))).
  { induction ops as [|o ops IH]; intros c0 Hnd Hdisk; [cbn; auto|].
    cbn [fold_left]. apply IH.
    - destruct o as [q out tcs mcp now|]; cbn [CacheHistory.step].
      + apply add_keeps_queries_distinct, Hnd.
      + unfold CacheHistory.reload. cbn [SemanticCache.entries].
        destruct Hdisk; [constructor | assumption].
    - destruct o as [q out tcs mcp now|]; cbn [CacheHistory.step]; [|exact Hdisk].
      pose proof (add_keeps_queries_distinct embed py_str now c0 q out tcs mcp Hnd) as Hb.
      destruct (add_cases embed py_str now c0 q out tcs mcp) as [-> | (_ & _ & Hw)];
        [exact Hdisk|].
      cbn zeta in Hw. rewrite Hw. constructor; assumption. }
  apply Hgen; cbn; constructor.
Qed.

(** X5: starting without a cache file, after any history of adds and
    restarts the cached queries are pairwise distinct, in memory and in
    every file written: an add whose query text is already cached stores
    nothing. *)
Theorem cache_queries_distinct
    (embed : string -> list float) (py_str : json -> string) (ops : list CacheHistory.op) :
  let c := CacheHistory.run embed py_str ops in
  List.NoDup (map SemanticCache.e_query (SemanticCache.entries c))
  /\ Forall (fun s => List.NoDup (map SemanticCache.e_query s))
            (SemanticCache.disk_writes c)
  /\ forall now query output tool_calls active_mcp,
       In query (map SemanticCache.e_query (SemanticCache.entries c)) ->
       SemanticCache.add embed py_str now c query output tool_calls active_mcp = c.
Proof.
  cbn zeta. split; [|split].
  3: { intros now query output tool_calls active_mcp Hin.
       unfold SemanticCache.add.
       destruct (_ || _)%bool; [reflexivity|].
       destruct (existsb _ tool_calls); [reflexivity|].
       destruct (embed query) as [|q0 qs]; [reflexivity|].
       destruct (existsb _ (SemanticCache.entries _)) eqn:Hdup; [reflexivity|].
       apply existsb_query_false in Hdup. contradiction. }
  all: pose proof (cache_history_distinct embed py_str ops) as H; apply H.
Qed.

(** X6: an add that passes the guards (clean output, no confirmation in
    the calls, an embedding for the query, query not cached yet) leaves
    the new entry last in the list, writes exactly the in-memory list to
    the cache file, and a restart right after it loads the same list. *)
Theorem add_success_appends_and_persists
    (embed : string -> list float) (py_str : json -> string) (now : float)
    (c : SemanticCache.t) (query output : string) (tool_calls : list json)
    (active_mcp : option string) :
  PyStr.contains "failed" (PyStr.lower output) = false ->
  PyStr.contains "error" (PyStr.lower output) = false ->
  existsb (fun tc => PyStr.contains "confirmation" (py_str tc)) tool_calls = false ->
  embed query <> [] ->
  ~ In query (map SemanticCache.e_query (SemanticCache.entries c)) ->
  let c' := SemanticCache.add embed py_str now c query output tool_calls active_mcp in
  let new_entry :=
    SemanticCache.mkEntry query (embed query) output tool_calls active_mcp now in
  In new_entry (SemanticCache.entries c')
  /\ List.last (SemanticCache.entries c') new_entry = new_entry
  /\ SemanticCache.disk_writes c' = SemanticCache.entries c' :: SemanticCache.disk_writes c
  /\ SemanticCache.entries (CacheHistory.reload c') = SemanticCache.entries c'.
Proof.
  intros Hf He Hc Hemb Hnew. cbn zeta.
  unfold SemanticCache.add. rewrite Hf, He, Hc. cbn [orb].
  destruct (embed query) as [|q0 qs] eqn:Hq; [congruence|].
  destruct (existsb _ (SemanticCache.entries c)) eqn:Hdup.
  { exfalso. apply Hnew. apply existsb_exists in Hdup as (e & Hin & Heq).
    apply String.eqb_eq in Heq. apply in_map_iff. eauto. }
  cbn [SemanticCache._save SemanticCache.entries SemanticCache.disk_writes
       SemanticCache.threshold CacheHistory.reload].
  set (new_entry := SemanticCache.mkEntry query (q0 :: qs) output tool_calls active_mcp now).
  assert (Hshape : exists pre,
             (if Nat.ltb SemanticCache.MAX_ENTRIES
                         (length (SemanticCache.entries c ++ [new_entry])%list)
              then List.tl (SemanticCache.entries c ++ [new_entry])%list
              else (SemanticCache.entries c ++ [new_entry])%list)
             = (pre ++ [new_entry])%list).
  { destruct (Nat.ltb_spec SemanticCache.MAX_ENTRIES
                (length (SemanticCache.entries c ++ [new_entry])%list)) as [Hlt|_];
      [|eauto].
    destruct (SemanticCache.entries c) as [|e0 es]; [|cbn; eauto].
    cbn in Hlt. unfold SemanticCache.MAX_ENTRIES in Hlt. lia. }
  destruct Hshape as [pre ->].
  split; [apply in_or_app; right; left; reflexivity|].
  split; [apply last_last|]. split; reflexivity.
Qed.

Lemma add_success_appends_and_persists_witness :
  let c' := SemanticCache.add (fun _ => [1; 2]%float) (fun _ => "{}") 7%float
              SemanticCache.fresh "list pods" "3 pods" [] None in
  SemanticCache.entries (CacheHistory.reload c') = SemanticCache.entries c'.
Proof.
  cbn zeta.
  apply (add_success_appends_and_persists (fun _ => [1; 2]%float) (fun _ => "{}") 7%float
           SemanticCache.fresh "list pods" "3 pods" [] None);
    try reflexivity; [discriminate | intros []].
Defined.

Lemma cache_queries_distinct_witness :
  let c := CacheHistory.run (fun _ => [1; 2]%float) (fun _ => "{}")
             [CacheHistory.OpAdd "list pods" "3 pods" [] None 7%float] in
  SemanticCache.add (fun _ => [1; 2]%float) (fun _ => "{}") 9%float c
    "list pods" "4 pods" [] None = c.
Proof.
  cbn zeta.
  apply (cache_queries_distinct (fun _ => [1; 2]%float) (fun _ => "{}")
           [CacheHistory.OpAdd "list pods" "3 pods" [] None 7%float]).
  vm_compute. left. reflexivity.
Defined.

(** X7: after an add that passes the guards, a lookup of the same query
    under the same scope hits, provided the similarity of the query's
    embedding with itself, as [_cosine_similarity] computes it, reaches
    the threshold. *)
Theorem add_then_lookup_hits
    (fsum : list float -> float) (sqrt : float -> float)
    (embed : string -> list float) (py_str : json -> string) (now : float)
    (es : list SemanticCache.entry) (w : list (list SemanticCache.entry))
    (query output : string) (tool_calls : list json) (active_mcp : option string) :
  PyStr.contains "failed" (PyStr.lower output) = false ->
  PyStr.contains "error" (PyStr.lower output) = false ->
  existsb (fun tc => PyStr.contains "confirmation" (py_str tc)) tool_calls = false ->
  embed query <> [] ->
  ~ In query (map SemanticCache.e_query es) ->
  PrimFloat.leb SemanticCache.default_threshold
    (SemanticCache._cosine_similarity fsum sqrt (embed query) (embed query)) = true ->
  let c := SemanticCache.mkCache SemanticCache.default_threshold es w in
  let c' := SemanticCache.add embed py_str now c query output tool_calls active_mcp in
  Ref.is_hit (SemanticCache.lookup fsum sqrt embed c' query active_mcp) = true.
Proof.
  intros Hf He Hc Hemb Hnew Hself. cbn zeta.
  set (c := SemanticCache.mkCache SemanticCache.default_threshold es w).
  set (new_entry :=
         SemanticCache.mkEntry query (embed query) output tool_calls active_mcp now).
  assert (Hin : In new_entry
                  (SemanticCache.entries
                     (SemanticCache.add embed py_str now c query output tool_calls
                        active_mcp))
                /\ SemanticCache.threshold
                     (SemanticCache.add embed py_str now c query output tool_calls
                        active_mcp) = SemanticCache.default_threshold).
  { unfold SemanticCache.add. rewrite Hf, He, Hc. cbn [orb].
    destruct (embed query) as [|q0 qs] eqn:Hq; [congruence|].
    destruct (existsb _ (SemanticCache.entries c)) eqn:Hdup.
    { exfalso. apply Hnew. apply existsb_exists in Hdup as (e & Hi & Heq).
      apply String.eqb_eq in Heq. apply in_map_iff. eauto. }
    cbn [SemanticCache._save SemanticCache.entries SemanticCache.threshold].
    split; [|reflexivity].
    subst new_entry. rewrite ?Hq.
    destruct (Nat.ltb_spec SemanticCache.MAX_ENTRIES
                (length (SemanticCache.entries c ++
                           [SemanticCache.mkEntry query (q0 :: qs) output tool_calls
                              active_mcp now])%list)) as [Hlt|_].
    - destruct (SemanticCache.entries c) as [|e0 rest].
      + cbn in Hlt. unfold SemanticCache.MAX_ENTRIES in Hlt. lia.
      + cbn [app List.tl]. apply in_or_app. right. left. reflexivity.
    - apply in_or_app. right. left. reflexivity. }
  destruct Hin as [Hin Hthr].
  destruct (SemanticCache.add embed py_str now c query output tool_calls active_mcp)
    as [thr es' w'] eqn:Hadd.
  cbn [SemanticCache.entries SemanticCache.threshold] in Hin, Hthr. subst thr.
  apply cache_lookup_hit_iff. exists new_entry. split; [exact Hin|]. split.
  - unfold SemanticCache.eligible. subst new_entry. cbn [SemanticCache.e_active_mcp].
    destruct (SemanticCache.str_truthy active_mcp); [|reflexivity].
    apply bool_decide_eq_true. reflexivity.
  - subst new_entry. cbn [SemanticCache.e_embedding]. exact Hself.
Qed.

Lemma add_then_lookup_hits_witness :
  Ref.is_hit
    (SemanticCache.lookup Ref.sum_left PrimFloat.sqrt (fun _ => [3; 4]%float)
       (SemanticCache.add (fun _ => [3; 4]%float) (fun _ => "{}") 7%float
          (SemanticCache.mkCache SemanticCache.default_threshold [] [])
          "list pods" "3 pods" [] (Some "k8s_local"))
       "list pods" (Some "k8s_local")) = true.
Proof.
  apply (add_then_lookup_hits Ref.sum_left PrimFloat.sqrt (fun _ => [3; 4]%float)
           (fun _ => "{}") 7%float
           [] [] "list pods" "3 pods" [] (Some "k8s_local"));
    try reflexivity; try discriminate.
  intros [].
Defined.

(** Where the proviso fails: squares that overflow give an infinite
    norm and a NaN score, squares that underflow give a zero norm and
    the score 0.0; the entry just added is then not found. *)
Example add_then_lookup_misses_on_overflow :
  SemanticCache.lookup Ref.sum_left PrimFloat.sqrt (fun _ => [0x1p+600; 1]%float)
    (SemanticCache.add (fun _ => [0x1p+600; 1]%float) (fun _ => "{}") 7%float
       (SemanticCache.mkCache SemanticCache.default_threshold [] [])
       "list pods" "3 pods" [] None)
    "list pods" None
  = SemanticCache.Miss
  /\ SemanticCache.lookup Ref.sum_left PrimFloat.sqrt (fun _ => [0x1p-600; 0]%float)
       (SemanticCache.add (fun _ => [0x1p-600; 0]%float) (fun _ => "{}") 7%float
          (SemanticCache.mkCache SemanticCache.default_threshold [] [])
          "list pods" "3 pods" [] None)
       "list pods" None
     = SemanticCache.Miss.
Proof. split; vm_compute; reflexivity. Qed.

(** ** Intent router: what the semantic tier returns *)

(** X8: when the semantic tier matches, it returns exactly one call, built
    from the tool and arguments of an intent whose score (the binary64
    number [_cosine_similarity] computes) is above 0.82 under the code's
    [>] and which no intent outscores. *)
Theorem semantic_tier_returns_best_intent
    (fsum : list float -> float) (sqrt : float -> float)
    (embed : string -> list float)
    (intents : list IntentRouter.SemanticIntent) (query : string)
    (calls : list IntentRouter.tool_call) :
  IntentRouter.semantic_tier fsum sqrt embed intents query = Some calls ->
  let score := fun i =>
    IntentRouter._cosine_similarity fsum sqrt (embed query) (IntentRouter.i_embedding i) in
  exists i,
    In i intents
    /\ calls = [IntentRouter.mkCall (IntentRouter.i_tool i) (IntentRouter.i_args i)]
    /\ PrimFloat.ltb IntentRouter.SEMANTIC_THRESHOLD (score i) = true
    /\ forall j, In j intents -> PrimFloat.ltb (score i) (score j) = false.
Proof.
  intros H. exact (semantic_tier_inv fsum sqrt embed intents query calls H).
Qed.

Lemma semantic_tier_returns_best_intent_witness :
  exists i,
    In i [ IntentRouter.mkIntent "show nodes" "local_k8s_list_nodes" (JObj [])
             [0; 1; 0; 0]%float;
           IntentRouter.mkIntent "show pods" "local_k8s_list_pods" (JObj [])
             [49; 9; 3; 3]%float ]
    /\ IntentRouter.i_tool i = "local_k8s_list_pods".
Proof.
  destruct (semantic_tier_returns_best_intent Ref.sum_left PrimFloat.sqrt
              (fun _ => [1; 0; 0; 0]%float)
              [ IntentRouter.mkIntent "show nodes" "local_k8s_list_nodes" (JObj [])
                  [0; 1; 0; 0]%float;
                IntentRouter.mkIntent "show pods" "local_k8s_list_pods" (JObj [])
                  [49; 9; 3; 3]%float ]
              "pods please"
              [IntentRouter.mkCall "local_k8s_list_pods" (JObj [])])
    as (i & Hin & Hc & _).
  - vm_compute. reflexivity.
  - exists i. split; [exact Hin|]. injection Hc as Ht _. symmetry. exact Ht.
Defined.

Lemma lstrip_all_space (s : string) :
  PyStr.lstrip s = "" <-> PyStr.split s = [].
Proof.
  unfold PyStr.split. induction s as [|c s IH]; cbn; [tauto|].
  destruct (PyStr.is_space c); [exact IH|].
  split; [discriminate|]. intros H.
  assert (Hne : forall w s', PyStr.split_go (Some w) s' <> []).
  { clear. intros w s'. revert w. induction s' as [|d s' IH]; intros w; cbn; [discriminate|].
    destruct (PyStr.is_space d); [discriminate | apply IH]. }
  exfalso. exact (Hne _ _ H).
Qed.

(** X9: a query without any non-whitespace character (no word for
    [split]) is answered [None] by [route] before any tier runs, whatever
    the regex tiers and the embedding service would give. *)
Theorem route_blank_query
    (fsum : list float -> float) (sqrt : float -> float) (embed : string -> list float)
    (regex_tiers : string -> option (list IntentRouter.tool_call))
    (intents : list IntentRouter.SemanticIntent) (query : string) :
  PyStr.split query = [] ->
  IntentRouter.route fsum sqrt embed regex_tiers intents query = None.
Proof.
  intros H. apply lstrip_all_space in H.
  unfold IntentRouter.route, PyStr.strip. rewrite H. reflexivity.
Qed.

Lemma route_blank_query_witness :
  IntentRouter.route Ref.sum_left PrimFloat.sqrt (fun _ => [1]%float)
    (fun _ => Some [IntentRouter.mkCall "docker_list_containers" (JObj [])])
    [] (String " " (String "009" (String "010" ""))) = None.
Proof. apply route_blank_query. reflexivity. Defined.

(** ** LLM agent: semantic validation, the marker, aliases, extraction *)

Lemma schema_map_fold_lookup (ts : list AgentModule.tool_schema)
      (m : gmap string AgentModule.tool_schema) (n : string) (t : AgentModule.tool_schema) :
  fold_left (fun m t => <[AgentModule.t_name t := t]> m) ts m !! n = Some t ->
  (In t ts /\ AgentModule.t_name t = n) \/ m !! n = Some t.
Proof.
  revert m. induction ts as [|t0 ts IH]; intros m H; cbn in H; [right; exact H|].
  destruct (IH _ H) as [[Hin Hn] | Hm]; [left; split; [right|]; assumption|].
  destruct (decide (AgentModule.t_name t0 = n)) as [Heq|Hne].
  - subst n. rewrite lookup_insert_eq in Hm. injection Hm as <-.
    left. split; [left|]; reflexivity.
  - rewrite lookup_insert_ne in Hm by exact Hne. right. exact Hm.
Qed.

Lemma schema_map_lookup (ts : list AgentModule.tool_schema) (n : string)
      (t : AgentModule.tool_schema) :
  AgentModule.schema_map ts !! n = Some t -> In t ts /\ AgentModule.t_name t = n.
Proof.
  intros H. apply schema_map_fold_lookup in H as [H | H]; [exact H|].
  rewrite lookup_empty in H. discriminate.
Qed.

Lemma check_required_valid_iff (py_str type_error_text : json -> string)
      (name args : json) (required : list string) :
  AgentModule.check_required py_str type_error_text name args required
    = AgentModule.SemValid
  <-> Forall (fun req => AgentModule.arg_present req args = AgentModule.Present) required.
Proof.
  induction required as [|req rest IH]; cbn.
  - split; [constructor | reflexivity].
  - destruct (AgentModule.arg_present req args) eqn:Hp.
    + rewrite IH. split; [intros H; constructor; assumption|].
      intros H. inversion H; assumption.
    + split; [discriminate|]. intros H. inversion H; congruence.
    + split; [discriminate|]. intros H. inversion H; congruence.
Qed.

(** X10: [_validate_semantics] accepts a call list exactly when every
    call's name is a string naming a tool of the schema list and every
    required parameter of that tool's descriptor is present in the call's
    arguments. *)
Theorem validate_semantics_exact
    (py_str type_error_text : json -> string)
    (tool_calls : list AgentModule.call) (tools_schema : list AgentModule.tool_schema) :
  AgentModule._validate_semantics py_str type_error_text tool_calls tools_schema
    = AgentModule.SemValid
  <-> Forall
        (fun c =>
           exists name t,
             AgentModule.call_name c = JStr name
             /\ AgentModule.schema_map tools_schema !! name = Some t
             /\ In t tools_schema /\ AgentModule.t_name t = name
             /\ Forall (fun req =>
                          AgentModule.arg_present req (AgentModule.call_arguments c)
                          = AgentModule.Present)
                       (AgentModule.t_required t))
        tool_calls.
Proof.
  induction tool_calls as [|c rest IH]; cbn [AgentModule._validate_semantics].
  - split; [constructor | reflexivity].
  - assert (Hbad : forall (r : AgentModule.semantics_result) (P : Prop),
               r <> AgentModule.SemValid ->
               (forall name, AgentModule.call_name c <> JStr name) ->
               (r = AgentModule.SemValid <->
                Forall (fun c0 =>
                    exists name t,
                      AgentModule.call_name c0 = JStr name
                      /\ AgentModule.schema_map tools_schema !! name = Some t
                      /\ In t tools_schema /\ AgentModule.t_name t = name
                      /\ Forall (fun req =>
                            AgentModule.arg_present req (AgentModule.call_arguments c0)
                            = AgentModule.Present) (AgentModule.t_required t))
                  (c :: rest))).
    { intros r _ Hr Hn. split; [congruence|]. intros H. inversion H as [|? ? Hc _]; subst.
      destruct Hc as (name & t & Hc & _). exfalso. exact (Hn name Hc). }
    destruct (AgentModule.call_name c) as [| b | z | q | name | l | d] eqn:Hname;
      try (apply (Hbad _ True); [discriminate | intros n; rewrite ?Hname; discriminate]).
    destruct (AgentModule.schema_map tools_schema !! name) as [t|] eqn:Hl.
    + pose proof (check_required_valid_iff py_str type_error_text (JStr name)
                    (AgentModule.call_arguments c) (AgentModule.t_required t)) as Hreq.
      destruct (AgentModule.check_required py_str type_error_text (JStr name)
                  (AgentModule.call_arguments c) (AgentModule.t_required t)) eqn:Hc.
      * rewrite IH. split.
        -- intros H. constructor; [|exact H].
           destruct (schema_map_lookup _ _ _ Hl) as [Hin Hn].
           exists name, t. split; [exact Hname|]. split; [exact Hl|].
           split; [exact Hin|]. split; [exact Hn|]. apply Hreq. reflexivity.
        -- intros H. inversion H; assumption.
      * split; [discriminate|]. intros H. inversion H as [|? ? Hc0 _]; subst.
        destruct Hc0 as (n' & t' & Hn' & Hl' & _ & _ & Hall).
        rewrite Hname in Hn'. injection Hn' as <-. rewrite Hl in Hl'. injection Hl' as <-.
        apply Hreq in Hall. discriminate.
      * split; [discriminate|]. intros H. inversion H as [|? ? Hc0 _]; subst.
        destruct Hc0 as (n' & t' & Hn' & Hl' & _ & _ & Hall).
        rewrite Hname in Hn'. injection Hn' as <-. rewrite Hl in Hl'. injection Hl' as <-.
        apply Hreq in Hall. discriminate.
    + split; [discriminate|]. intros H. inversion H as [|? ? Hc0 _]; subst.
      destruct Hc0 as (n' & t' & Hn' & Hl' & _). rewrite Hname in Hn'.
      injection Hn' as <-. congruence.
Qed.

Example semantics_missing_required :
  AgentModule._validate_semantics (fun _ => "docker_stop_container") (fun _ => "TypeError")
    [AgentModule.mkCall (JStr "docker_stop_container") (JObj [])]
    [AgentModule.mkTool "docker_stop_container" ["container_id"]]
  = AgentModule.SemError
      "Tool 'docker_stop_container' is missing required argument: 'container_id'.".
Proof. vm_compute. reflexivity. Qed.

Section Marker.
Variable loads : string -> option json.
Variable py_str : json -> string.
Variable type_error_text : json -> string.
Variable smart_prog : nat -> string -> AgentModule.llm_outcome.
Variable tools_schema : list AgentModule.tool_schema.
Variable query : string.

Lemma stage_b_marker (remaining : nat) :
  forall attempt last_error pred sent p calls,
    (forall p0 calls0, pred = Some p0 ->
        AgentModule._validated_calls p0 = Some calls0 ->
        AgentModule.judge loads py_str type_error_text tools_schema
          (AgentModule.tool_calls p0) = AgentModule.Validated calls0) ->
    AgentModule.returned
      (AgentModule.stage_b loads py_str type_error_text smart_prog tools_schema query
         remaining attempt last_error pred sent) = Some p ->
    AgentModule._validated_calls p = Some calls ->
    AgentModule.judge loads py_str type_error_text tools_schema (AgentModule.tool_calls p)
      = AgentModule.Validated calls.
Proof.
  induction remaining as [|rem IH]; intros attempt last_error pred sent p calls Hpred.
  - cbn. intros Hr Hm. exact (Hpred p calls Hr Hm).
  - cbn [AgentModule.stage_b].
    destruct (smart_prog attempt _) as [raw|message].
    + destruct (AgentModule.judge loads py_str type_error_text tools_schema raw)
        as [validated|e] eqn:Hj.
      * cbn. intros Hr Hm. injection Hr as <-. cbn in Hm. injection Hm as <-. exact Hj.
      * apply IH. intros p0 calls0 Hp0 Hm0. injection Hp0 as <-. discriminate.
    + apply IH. exact Hpred.
Qed.
End Marker.

(** X11: whenever [forward] returns a prediction that carries the
    [_validated_calls] marker, the marked list is non-empty, it is what
    [_validate_and_parse] extracts from that prediction's own raw output,
    and it passes [_validate_semantics] against the schema list. *)
Theorem forward_marker_sound
    (loads : string -> option json) (py_str type_error_text : json -> string)
    (fast_agent : string -> AgentModule.llm_outcome)
    (smart_prog : nat -> string -> AgentModule.llm_outcome)
    (max_retries : Z) (query : string) (tools_schema : list AgentModule.tool_schema)
    (p : AgentModule.prediction) (calls : list AgentModule.call) :
  AgentModule.returned
    (AgentModule.forward loads py_str type_error_text fast_agent smart_prog
       max_retries query tools_schema) = Some p ->
  AgentModule._validated_calls p = Some calls ->
  calls <> []
  /\ AgentModule._validate_and_parse loads (AgentModule.tool_calls p) = Some calls
  /\ AgentModule._validate_semantics py_str type_error_text calls tools_schema
     = AgentModule.SemValid.
Proof.
  intros Hr Hm.
  assert (Hj : AgentModule.judge loads py_str type_error_text tools_schema
                 (AgentModule.tool_calls p) = AgentModule.Validated calls).
  { unfold AgentModule.forward in Hr.
    destruct (fast_agent query) as [raw0|msg0].
    - destruct (AgentModule.judge loads py_str type_error_text tools_schema raw0)
        as [validated|e0] eqn:Hj0.
      + cbn in Hr. injection Hr as <-. cbn in Hm. injection Hm as <-. exact Hj0.
      + eapply stage_b_marker; [|exact Hr|exact Hm].
        intros p0 calls0 Hp0 Hm0. injection Hp0 as <-. discriminate.
    - eapply stage_b_marker; [|exact Hr|exact Hm].
      intros p0 calls0 Hp0. discriminate. }
  unfold AgentModule.judge in Hj.
  destruct (AgentModule._validate_and_parse loads (AgentModule.tool_calls p))
    as [[|c cs]|]; try discriminate.
  destruct (AgentModule._validate_semantics py_str type_error_text (c :: cs) tools_schema)
    eqn:Hs; try discriminate.
  injection Hj as <-. split; [discriminate|]. split; [reflexivity | exact Hs].
Qed.

Lemma forward_marker_sound_witness :
  AgentModule._validate_semantics (fun _ => "?") (fun _ => "TypeError")
    [AgentModule.mkCall (JStr "docker_list_containers") (JObj [])]
    [AgentModule.mkTool "docker_list_containers" []]
  = AgentModule.SemValid.
Proof.
  apply (forward_marker_sound Samples.sample_loads (fun _ => "?") (fun _ => "TypeError")
           (fun _ => AgentModule.Raised "timeout")
           (fun k _ => match k with
                       | O => AgentModule.Returned "no idea"
                       | _ => AgentModule.Returned Samples.object_text
                       end)
           AgentModule.default_max_retries "list containers"
           [AgentModule.mkTool "docker_list_containers" []]
           (AgentModule.mkPrediction Samples.object_text
              (Some [AgentModule.mkCall (JStr "docker_list_containers") (JObj [])])));
    vm_compute; reflexivity.
Defined.

(** X12: the three spellings of the name key and the three spellings of
    the arguments key are interchangeable: an item with a non-empty name
    under [name], [tool_name] or [tool] and a non-empty dict under
    [arguments], [parameters] or [input] normalizes to the same call, and
    a decoded one-element array of such an item is accepted as that call;
    without an arguments key the arguments default to the empty dict. *)
Theorem normalize_key_aliases
    (name_key args_key n : string) (a : list (string * json)) :
  In name_key ["name"; "tool_name"; "tool"] ->
  In args_key ["arguments"; "parameters"; "input"] ->
  n <> "" -> a <> [] ->
  AgentModule._normalize_single [(name_key, JStr n); (args_key, JObj a)]
    = AgentModule.mkCall (JStr n) (JObj a)
  /\ AgentModule.calls_of_data (JArr [JObj [(name_key, JStr n); (args_key, JObj a)]])
    = Some [AgentModule.mkCall (JStr n) (JObj a)]
  /\ AgentModule._normalize_single [(name_key, JStr n)]
    = AgentModule.mkCall (JStr n) (JObj []).
Proof.
  intros Hn Ha Hne Hane.
  assert (Ht : PyVal.truthy (JStr n) = true).
  { cbn. destruct (String.eqb_spec n ""); [contradiction | reflexivity]. }
  assert (Hta : PyVal.truthy (JObj a) = true).
  { destruct a; [contradiction | reflexivity]. }
  cbn in Hn, Ha.
  destruct Hn as [<- | [<- | [<- | []]]]; destruct Ha as [<- | [<- | [<- | []]]];
    repeat (progress (unfold AgentModule.calls_of_data, AgentModule._normalize_tool_list,
                        AgentModule._normalize_single, PyVal.py_or;
                      cbn -[PyVal.truthy]; rewrite ?Ht, ?Hta));
    auto.
Qed.

Lemma normalize_key_aliases_witness :
  AgentModule._normalize_single
    [("tool", JStr "docker_stop_container"); ("input", JObj [("container_id", JStr "web")])]
  = AgentModule.mkCall (JStr "docker_stop_container")
      (JObj [("container_id", JStr "web")]).
Proof.
  apply (normalize_key_aliases "tool" "input" "docker_stop_container"
           [("container_id", JStr "web")]).
  - right; right; left; reflexivity.
  - right; right; left; reflexivity.
  - discriminate.
  - discriminate.
Defined.

Lemma net_count_take_S (o c : ascii) (x : ascii) (s : string) (m : nat) :
  AgentParse.net_count o c (PyStr.take (S m) (String x s))
  = (if Ascii.eqb x o then 1 else if Ascii.eqb x c then -1 else 0)
    + AgentParse.net_count o c (PyStr.take m s).
Proof. reflexivity. Qed.

Lemma balanced_end_general (o c : ascii) (s : string) :
  forall (count : Z),
    match AgentModule.balanced_end o c s count with
    | Some n =>
        (0 < n <= String.length s)%nat
        /\ count + AgentParse.net_count o c (PyStr.take n s) = 0
        /\ forall m, (0 < m < n)%nat ->
                     count + AgentParse.net_count o c (PyStr.take m s) <> 0
    | None =>
        forall m, (0 < m <= String.length s)%nat ->
                  count + AgentParse.net_count o c (PyStr.take m s) <> 0
    end.
Proof.
  induction s as [|x s IH]; intros count; cbn [AgentModule.balanced_end].
  - intros m Hm. cbn in Hm. lia.
  - set (delta := if Ascii.eqb x o then 1 else if Ascii.eqb x c then -1 else 0).
    assert (Hcount : (if Ascii.eqb x o then count + 1
                      else if Ascii.eqb x c then count - 1 else count)
                     = count + delta).
    { subst delta. destruct (Ascii.eqb x o); [lia|]. destruct (Ascii.eqb x c); lia. }
    rewrite Hcount.
    destruct (Z.eqb_spec (count + delta) 0) as [Hz|Hnz].
    + split; [cbn; lia|]. split.
      * rewrite net_count_take_S. fold delta. cbn. lia.
      * intros m Hm. lia.
    + specialize (IH (count + delta)).
      destruct (AgentModule.balanced_end o c s (count + delta)) as [n|]; cbn [option_map].
      * destruct IH as (Hn & Hbal & Hmin). split; [cbn; lia|]. split.
        -- rewrite net_count_take_S. fold delta. lia.
        -- intros m Hm. destruct m as [|m]; [lia|].
           rewrite net_count_take_S. fold delta.
           destruct m as [|m]; [cbn; lia|].
           specialize (Hmin (S m)). lia.
      * intros m Hm. destruct m as [|m]; [lia|].
        rewrite net_count_take_S. fold delta.
        destruct m as [|m]; [cbn; lia|].
        specialize (IH (S m)). cbn in Hm. lia.
Qed.

(** X13: the bracket-counting loop of the prose extraction stops at the
    shortest non-empty prefix whose opening and closing brackets balance
    (brackets inside JSON strings count like any other), and finds
    nothing exactly when no prefix balances. *)
Theorem balanced_end_shortest (opening closing : ascii) (s : string) :
  match AgentModule.balanced_end opening closing s 0 with
  | Some n =>
      (0 < n <= String.length s)%nat
      /\ AgentParse.net_count opening closing (PyStr.take n s) = 0
      /\ forall m, (0 < m < n)%nat ->
                   AgentParse.net_count opening closing (PyStr.take m s) <> 0
  | None =>
      forall m, (0 < m <= String.length s)%nat ->
                AgentParse.net_count opening closing (PyStr.take m s) <> 0
  end.
Proof.
  pose proof (balanced_end_general opening closing s 0) as H.
  destruct (AgentModule.balanced_end opening closing s 0); exact H.
Qed.

Example extraction_counts_brackets_in_strings :
  AgentModule.extract_json_text
    ("Plan: [{" ++ Samples.quoted "name" ++ ": " ++ Samples.quoted "a]b" ++ "}] done")
  = Some ("[{" ++ Samples.quoted "name" ++ ": " ++ Samples.dq ++ "a]").
Proof. vm_compute. reflexivity. Qed.

(** ** LLM agent: the prose fallback of [parse_dspy_tool_calls] *)

Lemma word_not_special (c : ascii) :
  AgentParse.is_word c = true ->
  PyStr.is_space c = false
  /\ Ascii.eqb "[" c = false /\ Ascii.eqb "{" c = false /\ c <> "`"%char.
Proof.
  destruct c as [[] [] [] [] [] [] [] []]; vm_compute; intros H;
    try discriminate; repeat split; discriminate.
Qed.

Lemma word_run_all (w : string) :
  AgentParse.all_word w = true -> AgentParse.word_run w = w.
Proof.
  induction w as [|c w IH]; cbn; [reflexivity|].
  intros H. apply andb_true_iff in H as [Hc Hw]. rewrite Hc, IH by exact Hw. reflexivity.
Qed.

Lemma rstrip_all_word (w : string) :
  AgentParse.all_word w = true -> PyStr.rstrip w = w.
Proof.
  induction w as [|c w IH]; cbn; [reflexivity|].
  intros H. apply andb_true_iff in H as [Hc Hw]. rewrite IH by exact Hw.
  destruct (word_not_special c Hc) as (Hs & _). rewrite Hs.
  destruct w; reflexivity.
Qed.

Lemma strip_all_word (w : string) :
  AgentParse.all_word w = true -> PyStr.strip w = w.
Proof.
  intros H. unfold PyStr.strip.
  assert (Hl : PyStr.lstrip w = w).
  { destruct w as [|c w]; [reflexivity|]. cbn in *.
    apply andb_true_iff in H as [Hc _].
    destruct (word_not_special c Hc) as (Hs & _). rewrite Hs. reflexivity. }
  rewrite Hl. apply rstrip_all_word, H.
Qed.

Lemma find_char_all_word (b : ascii) (w : string) :
  AgentParse.is_word b = false -> AgentParse.all_word w = true ->
  PyStr.find_char b w = None.
Proof.
  intros Hb. induction w as [|c w IH]; cbn; [reflexivity|].
  intros H. apply andb_true_iff in H as [Hc Hw].
  destruct (Ascii.eqb_spec b c) as [->|_]; [congruence|].
  rewrite IH by exact Hw. reflexivity.
Qed.

Lemma all_word_app (a b : string) :
  AgentParse.all_word a = true -> AgentParse.all_word b = true ->
  AgentParse.all_word (a ++ b) = true.
Proof.
  induction a as [|c a IH]; intros Ha Hb; [exact Hb|].
  change (AgentParse.all_word (String c (a ++ b)) = true).
  cbn in *. apply andb_true_iff in Ha as [Hc Ha]. rewrite Hc. cbn. apply IH; assumption.
Qed.

Lemma first_tool_mention_unfold (s : string) :
  AgentParse.first_tool_mention s
  = match AgentParse.match_at s with
    | Some m => Some m
    | None =>
        match s with
        | EmptyString => None
        | String _ s' => AgentParse.first_tool_mention s'
        end
    end.
Proof. destruct s; reflexivity. Qed.

(** A reply that consists of word characters only never parses as JSON. *)
Lemma validate_rejects_words (loads : string -> option json) (x : string) :
  AgentParse.all_word x = true -> AgentModule._validate_and_parse loads x = None.
Proof.
  intros Hx. apply parse_rejects_bracketless; rewrite strip_all_word by exact Hx.
  - apply find_char_all_word; [reflexivity | exact Hx].
  - apply find_char_all_word; [reflexivity | exact Hx].
  - destruct x as [|c x]; [reflexivity|]. cbn in Hx.
    apply andb_true_iff in Hx as [Hc _].
    destruct (word_not_special c Hc) as (_ & _ & _ & Hq).
    unfold PyStr.startswith. cbn [String.prefix].
    destruct (ascii_dec "`" c) as [<-|_]; [congruence | reflexivity].
Qed.

(** X14: when the model's reply is just a tool name, the prose fallback
    of [parse_dspy_tool_calls] returns one call without arguments; for a
    [remote_k8s_...] or [docker_...] name the call names that tool, but
    for a [local_k8s_...] name the call is named [k8s_...], the name with
    its [local_] prefix cut off. *)
Theorem prose_fallback_names (loads : string -> option json) (w : string) :
  w <> "" -> AgentParse.all_word w = true ->
  AgentParse.parse_dspy_tool_calls loads (AgentParse.OutStr ("remote_k8s_" ++ w))
    = [AgentModule.mkCall (JStr ("remote_k8s_" ++ w)) (JObj [])]
  /\ AgentParse.parse_dspy_tool_calls loads (AgentParse.OutStr ("docker_" ++ w))
    = [AgentModule.mkCall (JStr ("docker_" ++ w)) (JObj [])]
  /\ AgentParse.parse_dspy_tool_calls loads (AgentParse.OutStr ("local_k8s_" ++ w))
    = [AgentModule.mkCall (JStr ("k8s_" ++ w)) (JObj [])].
Proof.
  intros Hne Hw.
  assert (Hrun : forall lit,
             AgentParse.all_word lit = true ->
             AgentParse.parse_dspy_tool_calls loads (AgentParse.OutStr (lit ++ w))
             = match AgentParse.first_tool_mention (lit ++ w) with
               | Some m => [AgentModule.mkCall (JStr m) (JObj [])]
               | None => []
               end).
  { intros lit Hlit. unfold AgentParse.parse_dspy_tool_calls.
    rewrite validate_rejects_words by (apply all_word_app; assumption).
    rewrite strip_all_word by (apply all_word_app; assumption). reflexivity. }
  assert (Hrun_w : AgentParse.word_run w = w) by (apply word_run_all, Hw).
  assert (Hw' : exists c w', w = String c w') by (destruct w; [congruence | eauto]).
  destruct Hw' as (c & w' & Hcw).
  assert (Halt : forall lit,
             AgentParse.match_alt lit (lit ++ w) = Some (lit ++ w)).
  { intros lit. unfold AgentParse.match_alt.
    assert (Hp : String.prefix lit (lit ++ w) = true).
    { induction lit as [|a lit IH]; [destruct w; reflexivity|].
      change (String a lit ++ w) with (String a (lit ++ w)). cbn.
      destruct (ascii_dec a a); [exact IH | congruence]. }
    assert (Hd : PyStr.drop (String.length lit) (lit ++ w) = w).
    { clear Hp. induction lit as [|a lit IH]; [reflexivity | exact IH]. }
    rewrite Hp, Hd, Hrun_w, Hcw. reflexivity. }
  rewrite !Hrun by reflexivity.
  split; [|split].
  - rewrite first_tool_mention_unfold. unfold AgentParse.match_at.
    rewrite Halt. reflexivity.
  - rewrite first_tool_mention_unfold.
    change (AgentParse.match_at ("docker_" ++ w))
      with (AgentParse.match_alt "docker_" ("docker_" ++ w)).
    rewrite Halt. reflexivity.
  - change (AgentParse.first_tool_mention ("local_k8s_" ++ w))
      with (AgentParse.first_tool_mention ("k8s_" ++ w)).
    rewrite first_tool_mention_unfold.
    change (AgentParse.match_at ("k8s_" ++ w))
      with (match AgentParse.match_alt "k8s_" ("k8s_" ++ w) with
            | Some m => Some m
            | None => AgentParse.match_alt "docker_" ("k8s_" ++ w)
            end).
    rewrite Halt. reflexivity.
Qed.

Lemma prose_fallback_names_witness :
  AgentParse.parse_dspy_tool_calls Samples.sample_loads
    (AgentParse.OutStr ("local_k8s_" ++ "list_pods"))
  = [AgentModule.mkCall (JStr ("k8s_" ++ "list_pods")) (JObj [])].
Proof.
  apply (prose_fallback_names Samples.sample_loads "list_pods");
    [discriminate | reflexivity].
Defined.

Example prose_fallback_in_sentence :
  AgentParse.parse_dspy_tool_calls Samples.sample_loads
    (AgentParse.OutStr "I would call local_k8s_describe_pod for that.")
  = [AgentModule.mkCall (JStr "k8s_describe_pod") (JObj [])].
Proof. vm_compute. reflexivity. Qed.

(** ** Smart router: what the later steps keep *)

Lemma candidates_nonempty get_last_mcp (query : string) (sid : option string) :
  SmartRouter.candidates get_last_mcp query sid <> ∅.
Proof.
  unfold SmartRouter.candidates, SmartRouter.after_fallback. cbv zeta.
  case_bool_decide as He; [|exact He].
  destruct (_ || _)%bool; [set_solver|].
  destruct (Nat.ltb _ _); set_solver.
Qed.

Lemma pulse_reading_disconnected_dec (p : SmartRouter.pulse_reading) :
  {p = SmartRouter.PulseStatus (Some "disconnected")}
  + {p <> SmartRouter.PulseStatus (Some "disconnected")}.
Proof.
  destruct p as [[st|]|]; [|right; discriminate|right; discriminate].
  destruct (String.eqb_spec st "disconnected") as [->|Hne];
    [left; reflexivity | right; congruence].
Qed.

(** X15: the pulse filter only ever removes k8s_remote from the
    candidates, and [route] returns an empty list exactly when k8s_remote
    is the only candidate, the query does not contain "remote", and Pulse
    reports the remote cluster "disconnected". *)
Theorem route_empty_iff get_last_mcp pulse (query : string) (sid : option string) :
  let C := SmartRouter.candidates get_last_mcp query sid in
  let R := SmartRouter.route get_last_mcp pulse query sid in
  R ⊆ C
  /\ C ∖ R ⊆ {[ "k8s_remote" ]}
  /\ (R = ∅ <->
      C = {[ "k8s_remote" ]}
      /\ PyStr.contains "remote" (PyStr.lower query) = false
      /\ pulse = SmartRouter.PulseStatus (Some "disconnected")).
Proof.
  cbv zeta. unfold SmartRouter.route.
  set (C := SmartRouter.candidates get_last_mcp query sid).
  set (q := PyStr.lower query).
  assert (Hother : forall x, x <> "k8s_remote" ->
                     (x ∈ SmartRouter.pulse_filter pulse q C <-> x ∈ C))
    by (intros x Hx; apply pulse_filter_other, Hx).
  pose proof (pulse_filter_remote pulse q C) as Hrem.
  assert (Hsub : SmartRouter.pulse_filter pulse q C ⊆ C).
  { intros x Hx. destruct (decide (x = "k8s_remote")) as [->|Hne].
    - apply Hrem in Hx. tauto.
    - apply Hother in Hx; assumption. }
  split; [exact Hsub|]. split.
  - intros x Hx. apply elem_of_difference in Hx as [HxC HxR].
    destruct (decide (x = "k8s_remote")) as [->|Hne]; [set_solver|].
    exfalso. apply HxR, Hother; assumption.
  - split.
    + intros Hempty.
      assert (HC : C = {[ "k8s_remote" ]}).
      { apply set_eq. intros x. split.
        - intros HxC. destruct (decide (x = "k8s_remote")) as [->|Hne]; [set_solver|].
          apply (Hother x Hne) in HxC. rewrite Hempty in HxC. set_solver.
        - intros Hx. apply elem_of_singleton in Hx as ->.
          pose proof (candidates_nonempty get_last_mcp query sid) as Hne.
          fold C in Hne.
          destruct (set_choose_L C Hne) as [y Hy].
          destruct (decide (y = "k8s_remote")) as [->|Hny]; [exact Hy|].
          apply (Hother y Hny) in Hy. rewrite Hempty in Hy. set_solver. }
      split; [exact HC|].
      assert (Hnot : ~ "k8s_remote" ∈ SmartRouter.pulse_filter pulse q C)
        by (rewrite Hempty; set_solver).
      rewrite Hrem in Hnot.
      destruct (PyStr.contains "remote" q) eqn:Hc.
      * exfalso. apply Hnot. split; [rewrite HC; set_solver | left; reflexivity].
      * split; [reflexivity|].
        destruct (pulse_reading_disconnected_dec pulse) as [Hp|Hp]; [exact Hp|].
        exfalso. apply Hnot. split; [rewrite HC; set_solver | right; exact Hp].
    + intros (HC & Hc & Hp). rewrite HC.
      unfold SmartRouter.pulse_filter, SmartRouter.MCP_K8S_REMOTE. cbv zeta.
      rewrite Hc, Hp. case_bool_decide; set_solver.
Qed.

(** The run behind the empty answer: "cluster" selects the remote
    cluster only, and the remote cluster is down. *)
Lemma route_empty_iff_witness :
  SmartRouter.route (fun _ => None)
    (SmartRouter.PulseStatus (Some "disconnected")) "cluster health" None = ∅.
Proof.
  apply route_empty_iff. split; [|split]; [|reflexivity|reflexivity].
  apply set_eq. intros x. vm_compute. tauto.
Defined.

Lemma status_is_k8s_term (q : string) :
  PyStr.contains "status" q = true ->
  SmartRouter.mentions_any SmartRouter.k8s_common q = true.
Proof.
  intros H. unfold SmartRouter.mentions_any, SmartRouter.k8s_common.
  cbn [existsb]. rewrite H. rewrite ?orb_true_r. reflexivity.
Qed.

(** X16: the "status" case of the fallback is never taken.  A query that
    contains "status" is always handled as a Kubernetes query: a
    Kubernetes backend is among its candidates, and docker is a candidate
    only when a docker keyword occurs in the query or the session's
    sticky backend is docker. *)
Theorem status_query_is_kubernetes get_last_mcp (query : string) (sid : option string) :
  PyStr.contains "status" (PyStr.lower query) = true ->
  let C := SmartRouter.candidates get_last_mcp query sid in
  ("k8s_local" ∈ C \/ "k8s_remote" ∈ C)
  /\ ("docker" ∈ C ->
      SmartRouter.mentions_any SmartRouter.docker_keywords (PyStr.lower query) = true
      \/ SmartRouter.sticky_backend get_last_mcp (PyStr.lower query) sid = Some "docker").
Proof.
  intros Hs. cbv zeta. unfold SmartRouter.candidates. cbv zeta.
  set (q := PyStr.lower query) in *.
  set (s := SmartRouter.after_keywords get_last_mcp q sid).
  assert (Hk : ("k8s_local" ∈ SmartRouter.after_k8s_terms q s
                \/ "k8s_remote" ∈ SmartRouter.after_k8s_terms q s)
               /\ ("docker" ∈ SmartRouter.after_k8s_terms q s -> "docker" ∈ s)).
  { unfold SmartRouter.after_k8s_terms, SmartRouter.MCP_K8S_LOCAL,
      SmartRouter.MCP_K8S_REMOTE. cbv zeta.
    rewrite (status_is_k8s_term q Hs).
    do 2 case_bool_decide; cbn [negb andb]; set_solver. }
  destruct Hk as [Hscope Hdocker].
  assert (Hfb : SmartRouter.after_fallback q (SmartRouter.after_k8s_terms q s)
                = SmartRouter.after_k8s_terms q s).
  { destruct Hscope as [H|H]; exact (after_fallback_nonempty q _ _ H). }
  rewrite Hfb. split; [exact Hscope|].
  intros Hd. apply Hdocker in Hd. subst s.
  apply after_keywords_spec in Hd as [Hd|Hd]; [right; exact Hd|].
  apply keyword_hits_spec in Hd as [[_ H]|[[H _]|[[H _]|[H _]]]];
    [left; exact H | discriminate | discriminate | discriminate].
Qed.

Lemma status_query_is_kubernetes_witness :
  "k8s_local" ∈ SmartRouter.candidates (fun _ => None) "check STATUS now" None
  \/ "k8s_remote" ∈ SmartRouter.candidates (fun _ => None) "check STATUS now" None.
Proof.
  apply (status_query_is_kubernetes (fun _ => None) "check STATUS now" None).
  reflexivity.
Defined.

(** X17: a backend selected by the sticky context or by one of its
    keywords stays selected: it is among the candidates, and [route]
    returns it unless it is k8s_remote (which the pulse filter may
    remove). *)
Theorem keyword_selection_survives get_last_mcp pulse
    (query : string) (sid : option string) (x : string) :
  x ∈ SmartRouter.after_keywords get_last_mcp (PyStr.lower query) sid ->
  x ∈ SmartRouter.candidates get_last_mcp query sid
  /\ (x <> "k8s_remote" -> x ∈ SmartRouter.route get_last_mcp pulse query sid).
Proof.
  intros Hx.
  assert (Hc : x ∈ SmartRouter.candidates get_last_mcp query sid).
  { unfold SmartRouter.candidates. cbv zeta.
    apply (after_k8s_terms_mono (PyStr.lower query)) in Hx.
    rewrite (after_fallback_nonempty _ _ _ Hx). exact Hx. }
  split; [exact Hc|].
  intros Hne. unfold SmartRouter.route. apply pulse_filter_other; assumption.
Qed.

Lemma keyword_selection_survives_witness :
  "docker" ∈ SmartRouter.candidates (fun _ => None) "restart the container" None
  /\ ("docker" <> "k8s_remote" ->
      "docker" ∈ SmartRouter.route (fun _ => None)
        (SmartRouter.PulseStatus (Some "disconnected")) "restart the container" None).
Proof.
  apply (keyword_selection_survives (fun _ => None)
           (SmartRouter.PulseStatus (Some "disconnected"))
           "restart the container" None "docker").
  vm_compute. tauto.
Defined.

(** ** Backend client: every outcome, and the connection tests *)

(** X18: whatever the network does, [call_tool_async] returns either the
    value of the [result] field of a 2xx response that decoded to a dict
    without an [error] key, or a dict with [success] false and an [error]
    field. *)
Theorem call_tool_async_classified (urls : McpClient.endpoints)
    (post : string -> json -> McpClient.post_outcome)
    (status_error_text : Z -> string -> string) (runtime_error_text : json -> string)
    (tool_name : string) (arguments : json) :
  let res := McpClient.call_tool_async urls post status_error_text runtime_error_text
               tool_name arguments in
  (exists code fields,
      post (McpClient.select_url urls tool_name) (McpClient.payload tool_name arguments)
      = McpClient.Response code (McpClient.Decoded (JObj fields))
      /\ McpClient.is_success code = true
      /\ PyVal.get "error" fields = None
      /\ PyVal.get "result" fields = Some res)
  \/ (McpClient.field "success" res = Some (JBool false)
      /\ exists e, McpClient.field "error" res = Some e).
Proof.
  cbv zeta. unfold McpClient.call_tool_async. cbv zeta.
  destruct (post _ _) as [| |message|code body] eqn:Hpost;
    try (right; split; [reflexivity | eexists; reflexivity]).
  destruct (McpClient.is_success code) eqn:Hcode;
    [|right; split; [reflexivity | eexists; reflexivity]].
  destruct body as [result|message];
    [|right; split; [reflexivity | eexists; reflexivity]].
  unfold McpClient.interpret.
  destruct result as [| | | | | |fields];
    try (right; split; [reflexivity | eexists; reflexivity]).
  destruct (PyVal.get "error" fields) as [e|] eqn:He;
    [right; split; [reflexivity | eexists; reflexivity]|].
  destruct (PyVal.get "result" fields) as [r|] eqn:Hr;
    [|right; split; [reflexivity | eexists; reflexivity]].
  left. exists code, fields. auto.
Qed.

Section SyncClient.
Variable urls : McpClient.endpoints.
Variable post : string -> json -> McpSyncClient.post_outcome.
Variable http_error : Z -> string -> option string.
Variable runtime_error_text : json -> string.

Local Abbreviation test_connection :=
  (McpSyncClient.test_connection urls post http_error runtime_error_text).
Local Abbreviation docker_post :=
  (post (McpClient.MCP_URL urls)
     (McpClient.payload "docker_list_containers" (JObj []))).

Lemma cannot_connect_in_message (url : string) :
  PyStr.contains "Cannot connect" ("Cannot connect to server at " ++ url) = true.
Proof.
  apply contains_app_iff. exists "", (" to server at " ++ url). reflexivity.
Qed.

Lemma test_connection_refused :
  docker_post = McpSyncClient.ConnectionError ->
  test_connection = McpSyncClient.Returns false.
Proof.
  intros Hp. unfold McpSyncClient.test_connection, McpSyncClient.call_tool,
    McpSyncClient._sync_call. rewrite Hp.
  unfold McpSyncClient.connection_verdict, McpClient.failure.
  cbn [McpSyncClient.py_in PyVal.has_key PyVal.get String.eqb Ascii.eqb Bool.eqb].
  cbn -[PyStr.contains String.append].
  rewrite cannot_connect_in_message. reflexivity.
Qed.

Lemma test_connection_other_failure (message : string) :
  PyStr.contains "Cannot connect" ("Error: " ++ message) = false ->
  docker_post = McpSyncClient.OtherError message
  \/ (exists code body,
        docker_post = McpSyncClient.Response code body
        /\ http_error code (McpClient.MCP_URL urls) = Some message) ->
  test_connection = McpSyncClient.Returns true.
Proof.
  intros Hc Hp.
  assert (Hres : McpSyncClient.call_tool urls post http_error runtime_error_text
                   "docker_list_containers" (JObj [])
                 = McpSyncClient.sync_error message).
  { unfold McpSyncClient.call_tool, McpSyncClient._sync_call.
    destruct Hp as [Hp | (code & body & Hp & Hh)]; rewrite Hp; [reflexivity|].
    rewrite Hh. reflexivity. }
  unfold McpSyncClient.test_connection. rewrite Hres.
  unfold McpSyncClient.connection_verdict, McpSyncClient.sync_error, McpClient.failure.
  cbn -[PyStr.contains String.append]. rewrite Hc. reflexivity.
Qed.

Lemma test_connection_bad_error_field (code : Z) (fields : list (string * json))
    (e : json) :
  docker_post = McpSyncClient.Response code (McpClient.Decoded (JObj fields)) ->
  http_error code (McpClient.MCP_URL urls) = None ->
  PyVal.get "error" fields = Some e ->
  McpSyncClient.py_in "Cannot connect" e = None ->
  test_connection = McpSyncClient.Raises.
Proof.
  intros Hp Hh He Hin.
  unfold McpSyncClient.test_connection, McpSyncClient.call_tool,
    McpSyncClient._sync_call. rewrite Hp, Hh, He.
  unfold McpSyncClient.connection_verdict, McpClient.failure.
  cbn -[McpSyncClient.py_in]. 
  change (McpSyncClient.py_in "error" (JObj [("success", JBool false); ("error", e)]))
    with (Some true).
  cbn -[McpSyncClient.py_in]. rewrite Hin. reflexivity.
Qed.
End SyncClient.

(** X19: the synchronous connection test.  [test_connection] answers
    False when the connection is refused.  For any other failure whose
    text does not contain "Cannot connect" (a read timeout, an HTTP
    error status) it answers True.  When the server's reply carries an
    [error] field that is null, a number or a boolean, the test raises
    instead of answering. *)
Theorem test_connection_verdicts (urls : McpClient.endpoints)
    (post : string -> json -> McpSyncClient.post_outcome)
    (http_error : Z -> string -> option string) (runtime_error_text : json -> string) :
  let test := McpSyncClient.test_connection urls post http_error runtime_error_text in
  let reply := post (McpClient.MCP_URL urls)
                 (McpClient.payload "docker_list_containers" (JObj [])) in
  (reply = McpSyncClient.ConnectionError -> test = McpSyncClient.Returns false)
  /\ (forall message,
        PyStr.contains "Cannot connect" ("Error: " ++ message) = false ->
        reply = McpSyncClient.OtherError message
        \/ (exists code body,
              reply = McpSyncClient.Response code body
              /\ http_error code (McpClient.MCP_URL urls) = Some message) ->
        test = McpSyncClient.Returns true)
  /\ (forall code fields e,
        reply = McpSyncClient.Response code (McpClient.Decoded (JObj fields)) ->
        http_error code (McpClient.MCP_URL urls) = None ->
        PyVal.get "error" fields = Some e ->
        (e = JNull \/ (exists b, e = JBool b) \/ (exists z, e = JInt z)
         \/ (exists q, e = JFloat q)) ->
        test = McpSyncClient.Raises).
Proof.
  cbv zeta. split; [|split].
  - apply test_connection_refused.
  - apply test_connection_other_failure.
  - intros code fields e Hp Hh He Hkind.
    apply (test_connection_bad_error_field _ _ _ _ code fields e Hp Hh He).
    destruct Hkind as [->|[[b ->]|[[z ->]|[q ->]]]]; reflexivity.
Qed.

Lemma test_connection_verdicts_witness :
  McpSyncClient.test_connection ClientSamples.sample_endpoints
    (fun _ _ => McpSyncClient.OtherError "Read timed out")
    (fun _ _ => None) (fun _ => "")
  = McpSyncClient.Returns true.
Proof.
  exact (proj1 (proj2 (test_connection_verdicts ClientSamples.sample_endpoints
                         (fun _ _ => McpSyncClient.OtherError "Read timed out")
                         (fun _ _ => None) (fun _ => "")))
           "Read timed out" eq_refl (or_introl eq_refl)).
Defined.

(** ** FAISS index: what [add] and [remove] do to the stored tools *)

Lemma add_fresh_state normalize_L2 (s : FaissIndex.t) (name : string)
      (emb : list Q) (desc : string) (vectors : list (list Q)) :
  FaissIndex.faiss_available s = true ->
  FaissIndex.index s = Some vectors ->
  FaissIndex.tools s !! name = None ->
  length emb = FaissIndex.EMBEDDING_DIM ->
  FaissIndex.add normalize_L2 s name emb desc
  = (let m := FaissIndex.mkMeta
                (<[name := FaissIndex.mkInfo (length vectors) (PyStr.take 200 desc)]>
                   (FaissIndex.tools s))
                (<[length vectors := name]> (FaissIndex.idx_to_tool s)) in
     let v := (vectors ++ [normalize_L2 emb])%list in
     (FaissIndex.mkIndex true (Some v) m (FaissIndex.mkFiles (Some m) (Some v)),
      FaissIndex.ReturnsTrue)).
Proof.
  intros Hf Hi Hl Hdim. unfold FaissIndex.add.
  rewrite Hi, Hf, Hl. cbn [negb]. rewrite Hi, Hdim, Nat.eqb_refl. cbn [negb].
  unfold FaissIndex._save. cbn. rewrite Hf. reflexivity.
Qed.

(** X20: adding a tool that is not yet indexed, with a 768-dimensional
    embedding, to a working index returns True, appends the normalised
    vector, and records the tool at the old index size with its
    description cut to 200 characters; every other tool's info is
    unchanged, the count grows by one, and the new state is what the
    files hold. *)
Theorem add_new_tool normalize_L2 (s : FaissIndex.t) (name : string)
    (emb : list Q) (desc : string) (vectors : list (list Q)) :
  FaissIndex.faiss_available s = true ->
  FaissIndex.index s = Some vectors ->
  FaissIndex.tools s !! name = None ->
  length emb = FaissIndex.EMBEDDING_DIM ->
  let s' := fst (FaissIndex.add normalize_L2 s name emb desc) in
  snd (FaissIndex.add normalize_L2 s name emb desc) = FaissIndex.ReturnsTrue
  /\ FaissIndex.index s' = Some (vectors ++ [normalize_L2 emb])%list
  /\ FaissQueries.get_info s' name
     = Some (FaissQueries.mkView name (length vectors) (PyStr.take 200 desc) true)
  /\ (forall other, other <> name ->
        FaissQueries.get_info s' other = FaissQueries.get_info s other)
  /\ FaissIndex.count s' = S (FaissIndex.count s)
  /\ FaissIndex.disk s'
     = FaissIndex.mkFiles (Some (FaissIndex.meta s')) (FaissIndex.index s').
Proof.
  intros Hf Hi Hl Hdim. cbv zeta.
  rewrite (add_fresh_state normalize_L2 s name emb desc vectors Hf Hi Hl Hdim).
  cbn [fst snd FaissIndex.index FaissIndex.disk FaissIndex.meta].
  split; [reflexivity|]. split; [reflexivity|].
  unfold FaissQueries.get_info, FaissIndex.count, FaissIndex.tools.
  cbn [FaissIndex.meta FaissIndex.m_tools].
  split; [rewrite lookup_insert_eq; reflexivity|].
  split; [intros other Hne; rewrite lookup_insert_ne by congruence; reflexivity|].
  split; [|reflexivity].
  apply map_size_insert_None. exact Hl.
Qed.

Lemma add_new_tool_witness :
  FaissQueries.get_info
    (fst (FaissIndex.add (fun v => v) (FaissIndex.init true (FaissIndex.mkFiles None None))
            "docker_list_containers" (repeat 1%Q 768) "List containers"))
    "docker_list_containers"
  = Some (FaissQueries.mkView "docker_list_containers" 0
            (PyStr.take 200 "List containers") true).
Proof.
  apply (add_new_tool (fun v => v) (FaissIndex.init true (FaissIndex.mkFiles None None))
           "docker_list_containers" (repeat 1%Q 768) "List containers" []);
    vm_compute; reflexivity.
Defined.

(** X21: adding a tool that is already indexed (an update) leaves an
    index that holds this tool alone, at position 0: every other tool is
    dropped from the index and from the metadata. *)
Theorem add_existing_tool_drops_others normalize_L2 (s : FaissIndex.t) (name : string)
    (emb : list Q) (desc : string) :
  FaissIndex.faiss_available s = true ->
  is_Some (FaissIndex.index s) ->
  is_Some (FaissIndex.tools s !! name) ->
  length emb = FaissIndex.EMBEDDING_DIM ->
  let s' := fst (FaissIndex.add normalize_L2 s name emb desc) in
  snd (FaissIndex.add normalize_L2 s name emb desc) = FaissIndex.ReturnsTrue
  /\ FaissIndex.index s' = Some [normalize_L2 emb]
  /\ FaissIndex.tools s'
     = {[ name := FaissIndex.mkInfo 0 (PyStr.take 200 desc) ]}
  /\ FaissIndex.idx_to_tool s' = {[ 0%nat := name ]}
  /\ (forall other, other <> name -> FaissQueries.get_info s' other = None).
Proof.
  intros Hf [vectors Hi] [info Hl] Hdim. cbv zeta.
  assert (Hadd :
             FaissIndex.add normalize_L2 s name emb desc
             = (let m := FaissIndex.mkMeta
                           {[ name := FaissIndex.mkInfo 0 (PyStr.take 200 desc) ]}
                           {[ 0%nat := name ]} in
                (FaissIndex.mkIndex true (Some [normalize_L2 emb]) m
                   (FaissIndex.mkFiles (Some m) (Some [normalize_L2 emb])),
                 FaissIndex.ReturnsTrue))).
  { unfold FaissIndex.add.
    rewrite Hi, Hf, Hl. cbn [negb].
    destruct (remove_cases s name)
      as [[_ Hnone] | [[Hoff _] | (_ & Hret & Hf1 & Hi1 & Hm1 & _)]]; [congruence..|].
    destruct (FaissIndex.remove s name) as [s1 removed]. cbn [fst snd] in *.
    subst removed. rewrite Hi1, Hdim, Nat.eqb_refl. cbn [negb length].
    unfold FaissIndex._save, FaissIndex.tools, FaissIndex.idx_to_tool.
    cbn. rewrite Hf1, Hm1. cbn. reflexivity. }
  rewrite Hadd. cbn.
  split; [reflexivity|]. split; [reflexivity|]. split; [reflexivity|].
  split; [reflexivity|].
  intros other Hne. unfold FaissQueries.get_info, FaissIndex.tools. cbn.
  rewrite lookup_singleton_ne by congruence. reflexivity.
Qed.

Lemma add_existing_tool_drops_others_witness :
  FaissQueries.get_info
    (fst (FaissIndex.add (fun v => v)
            (FaissIndex.run (fun v => v) true
               [ FaissIndex.OpAdd "docker_list_containers" (repeat 1%Q 768)
                   "List containers";
                 FaissIndex.OpAdd "local_k8s_list_pods" (repeat 2%Q 768) "List pods" ])
            "local_k8s_list_pods" (repeat 3%Q 768) "Pods"))
    "docker_list_containers" = None.
Proof.
  apply (add_existing_tool_drops_others (fun v => v)
           (FaissIndex.run (fun v => v) true
              [ FaissIndex.OpAdd "docker_list_containers" (repeat 1%Q 768) "List containers";
                FaissIndex.OpAdd "local_k8s_list_pods" (repeat 2%Q 768) "List pods" ])
           "local_k8s_list_pods" (repeat 3%Q 768) "Pods").
  - vm_compute; reflexivity.
  - eexists; vm_compute; reflexivity.
  - eexists; vm_compute; reflexivity.
  - vm_compute; reflexivity.
  - discriminate.
Defined.

(** X22: removing one of several indexed tools returns True and leaves
    an empty index with empty metadata, but writes nothing: when the
    files held the state before the removal, a restart brings every tool
    back, the removed one included. *)
Theorem remove_one_of_several_not_persisted (s : FaissIndex.t) (name : string) :
  FaissIndex.faiss_available s = true ->
  is_Some (FaissIndex.tools s !! name) ->
  delete name (FaissIndex.tools s) <> ∅ ->
  FaissIndex.disk s = FaissIndex.mkFiles (Some (FaissIndex.meta s)) (FaissIndex.index s) ->
  is_Some (FaissIndex.index s) ->
  let s' := fst (FaissIndex.remove s name) in
  snd (FaissIndex.remove s name) = FaissIndex.ReturnsTrue
  /\ FaissIndex.count s' = 0%nat
  /\ FaissIndex.ntotal s' = 0%nat
  /\ FaissIndex.disk s' = FaissIndex.disk s
  /\ FaissIndex.init (FaissIndex.faiss_available s') (FaissIndex.disk s') = s.
Proof.
  intros Hf [info Hl] Hkeep Hdisk [vectors Hi]. cbv zeta.
  unfold FaissIndex.remove. rewrite Hl.
  rewrite bool_decide_eq_false_2 by exact Hkeep.
  unfold FaissIndex._rebuild_without, FaissIndex._create_empty_index. rewrite Hf.
  cbn [fst snd FaissIndex.disk FaissIndex.faiss_available].
  split; [reflexivity|]. split; [reflexivity|]. split; [reflexivity|].
  split; [reflexivity|].
  unfold FaissIndex.init. rewrite Hdisk. cbn. rewrite Hi.
  destruct s as [fa ix m d]. cbn in *. subst. reflexivity.
Qed.

Lemma remove_one_of_several_not_persisted_witness :
  let s := FaissIndex.run (fun v => v) true
             [ FaissIndex.OpAdd "docker_list_containers" (repeat 1%Q 768) "List containers";
               FaissIndex.OpAdd "local_k8s_list_pods" (repeat 2%Q 768) "List pods" ] in
  let s' := fst (FaissIndex.remove s "docker_list_containers") in
  FaissIndex.init (FaissIndex.faiss_available s') (FaissIndex.disk s') = s.
Proof.
  cbv zeta.
  apply (remove_one_of_several_not_persisted
           (FaissIndex.run (fun v => v) true
              [ FaissIndex.OpAdd "docker_list_containers" (repeat 1%Q 768) "List containers";
                FaissIndex.OpAdd "local_k8s_list_pods" (repeat 2%Q 768) "List pods" ])
           "docker_list_containers").
  - vm_compute; reflexivity.
  - eexists; vm_compute; reflexivity.
  - intros H.
    assert (Hl : delete "docker_list_containers"
                   (FaissIndex.tools
                      (FaissIndex.run (fun v => v) true
                         [ FaissIndex.OpAdd "docker_list_containers" (repeat 1%Q 768)
                             "List containers";
                           FaissIndex.OpAdd "local_k8s_list_pods" (repeat 2%Q 768)
                             "List pods" ]))
                 !! "local_k8s_list_pods" = None)
      by (rewrite H; apply lookup_empty).
    vm_compute in Hl. discriminate.
  - vm_compute; reflexivity.
  - eexists; vm_compute; reflexivity.
Defined.

(** ** FAISS index: [verify] and the positions of a reachable index *)

Lemma omap_nil_inv {A B : Type} (f : A -> option B) (l : list A) :
  omap f l = [] -> forall x, x ∈ l -> f x = None.
Proof.
  induction l as [|y l IH]; intros H x Hx; [inversion Hx|].
  cbn in H. destruct (f y) eqn:Hy; [discriminate|].
  apply elem_of_cons in Hx as [->|Hx]; [exact Hy | apply IH; assumption].
Qed.

(** X23: on an index object that has an index, [verify] reports
    [valid] exactly when the index size equals the number of tools and
    every tool's recorded position maps back to the tool. *)
Theorem verify_valid_iff_consistent (s : FaissIndex.t) :
  is_Some (FaissIndex.index s) ->
  (FaissIndex.valid (FaissIndex.verify s) = true <-> FaissIndex.consistent s).
Proof.
  intros [vectors Hi]. split; [|apply consistent_verify].
  unfold FaissIndex.verify, FaissIndex.consistent, FaissIndex.ntotal.
  rewrite Hi. cbn [FaissIndex.valid].
  destruct (Nat.eqb_spec (length vectors) (size (FaissIndex.tools s))) as [Hsz|Hsz];
    [|discriminate].
  cbn [app]. intros Hv. split; [exact Hsz|].
  intros name info Hl.
  destruct (omap _ _) eqn:Hm in Hv; [|discriminate].
  pose proof (omap_nil_inv _ _ Hm (name, info)) as Hnone.
  unfold FaissIndex.mapping_issue in Hnone. cbn [fst snd] in Hnone.
  case_bool_decide as Hd; [exact Hd|].
  exfalso. assert (Some (FaissIndex.MappingMismatch name) = None); [|discriminate].
  apply Hnone. apply elem_of_map_to_list. exact Hl.
Qed.

Lemma verify_valid_iff_consistent_witness :
  FaissIndex.valid
    (FaissIndex.verify
       (FaissIndex.mkIndex true (Some [])
          (FaissIndex.mkMeta {[ "docker_ps" := FaissIndex.mkInfo 0 "" ]} ∅)
          (FaissIndex.mkFiles None None))) = true
  <-> FaissIndex.consistent
        (FaissIndex.mkIndex true (Some [])
           (FaissIndex.mkMeta {[ "docker_ps" := FaissIndex.mkInfo 0 "" ]} ∅)
           (FaissIndex.mkFiles None None)).
Proof.
  apply (verify_valid_iff_consistent
           (FaissIndex.mkIndex true (Some [])
              (FaissIndex.mkMeta {[ "docker_ps" := FaissIndex.mkInfo 0 "" ]} ∅)
              (FaissIndex.mkFiles None None))).
  eexists; reflexivity.
Defined.

Lemma fits_dense (m : FaissIndex.metadata) (n i : nat) :
  FaissInv.fits m n -> (i < n)%nat ->
  exists name info,
    FaissIndex.m_idx_to_tool m !! i = Some name
    /\ FaissIndex.m_tools m !! name = Some info
    /\ FaissIndex.idx info = i.
Proof.
  intros [Hsize Hmap] Hi.
  set (l := map_to_list (FaissIndex.m_tools m)).
  set (f := fun p : string * FaissIndex.tool_info => FaissIndex.idx (snd p)).
  assert (Hnd : NoDup (f <$> l)).
  { apply NoDup_fmap_2_strong; [|apply NoDup_map_to_list].
    intros [n1 i1] [n2 i2] H1 H2 Hf. unfold f in Hf. cbn in Hf.
    apply elem_of_map_to_list in H1, H2.
    pose proof (proj2 (Hmap _ _ H1)) as E1. pose proof (proj2 (Hmap _ _ H2)) as E2.
    rewrite Hf in E1. assert (n1 = n2) by congruence. subst n2.
    assert (i1 = i2) by congruence. subst i2. reflexivity. }
  assert (Hsub : (f <$> l) ⊆+ seq 0 n).
  { apply NoDup_submseteq; [exact Hnd|].
    intros x Hx. apply list_elem_of_fmap in Hx as ([n1 i1] & -> & Hin).
    apply elem_of_map_to_list in Hin. apply elem_of_seq. unfold f. cbn.
    pose proof (proj1 (Hmap _ _ Hin)). lia. }
  assert (Hperm : (f <$> l) ≡ₚ seq 0 n).
  { apply submseteq_length_Permutation; [exact Hsub|].
    rewrite length_seq, length_fmap. unfold l. rewrite length_map_to_list. lia. }
  assert (Hin : i ∈ f <$> l) by (rewrite Hperm; apply elem_of_seq; lia).
  apply list_elem_of_fmap in Hin as ([name info] & Hfi & Hin).
  apply elem_of_map_to_list in Hin. unfold f in Hfi. cbn in Hfi.
  exists name, info. split; [|split; [exact Hin | congruence]].
  rewrite Hfi. apply (Hmap _ _ Hin).
Qed.

(** X24: in every state reachable from an index created without files,
    the positions are dense: each position below the index size is
    mapped to a tool whose recorded position it is.  A search hit on a
    stored vector therefore always resolves to an indexed tool. *)
Theorem reachable_positions_resolve
    (normalize_L2 : list Q -> list Q) (faiss_ok : bool) (ops : list FaissIndex.op)
    (i : nat) :
  let s := FaissIndex.run normalize_L2 faiss_ok ops in
  (i < FaissIndex.ntotal s)%nat ->
  exists name info,
    FaissIndex.idx_to_tool s !! i = Some name
    /\ FaissIndex.tools s !! name = Some info
    /\ FaissIndex.idx info = i.
Proof.
  cbv zeta. intros Hi.
  destruct (wf_run normalize_L2 faiss_ok ops) as [Hfit _].
  exact (fits_dense _ _ i Hfit Hi).
Qed.

Lemma reachable_positions_resolve_witness :
  exists name info,
    FaissIndex.idx_to_tool
      (FaissIndex.run (fun v => v) true
         [ FaissIndex.OpAdd "docker_list_containers" (repeat 1%Q 768) "List containers" ])
      !! 0%nat = Some name
    /\ FaissIndex.tools
         (FaissIndex.run (fun v => v) true
            [ FaissIndex.OpAdd "docker_list_containers" (repeat 1%Q 768) "List containers" ])
         !! name = Some info
    /\ FaissIndex.idx info = 0%nat.
Proof.
  apply (reachable_positions_resolve (fun v => v) true
           [ FaissIndex.OpAdd "docker_list_containers" (repeat 1%Q 768) "List containers" ]
           0%nat).
  vm_compute. lia.
Defined.

(** ** Tool retriever: the query cache, the JSON ranking, known tools *)

(** X25: the query-embedding cache.  A non-empty embedding returned for
    a query is in the cache afterwards, so asking again returns it
    without calling the embedding service; an empty embedding (service
    failure) leaves the retriever unchanged; and a cache of at most 257
    entries stays at most 257 entries. *)
Theorem query_cache_round_trip (embed : string -> list Q)
    (r : ToolRetriever.t) (query : string) :
  let r' := fst (ToolRetriever._get_async_query_embedding embed r query) in
  let emb := snd (ToolRetriever._get_async_query_embedding embed r query) in
  (emb <> [] ->
   ToolRetriever.query_cache r' !! query = Some emb
   /\ forall embed', ToolRetriever._get_async_query_embedding embed' r' query = (r', emb))
  /\ (emb = [] -> r' = r)
  /\ ((size (ToolRetriever.query_cache r) <= 257)%nat ->
      (size (ToolRetriever.query_cache r') <= 257)%nat).
Proof.
  cbv zeta. unfold ToolRetriever._get_async_query_embedding.
  destruct (ToolRetriever.query_cache r !! query) as [e|] eqn:Hq; cbn [fst snd].
  - split; [|split; [reflexivity | auto]].
    intros _. split; [exact Hq|]. intros embed'. rewrite Hq. reflexivity.
  - destruct (embed query) as [|e0 es] eqn:He; cbn [fst snd].
    + split; [congruence|]. split; [reflexivity | auto].
    + split; [|split; [discriminate|]].
      * intros _. cbn [ToolRetriever.query_cache].
        rewrite lookup_insert_eq. split; [reflexivity|]. intros embed'. reflexivity.
      * intros Hsz. cbn [ToolRetriever.query_cache].
        destruct (Nat.ltb_spec 256 (size (ToolRetriever.query_cache r))) as [Hbig|Hsmall].
        -- rewrite insert_empty, map_size_singleton. lia.
        -- rewrite map_size_insert_None by exact Hq. lia.
Qed.

Lemma query_cache_round_trip_witness :
  ToolRetriever.query_cache
    (fst (ToolRetriever._get_async_query_embedding RetrieverSamples.embed_query_only
            RetrieverSamples.json_retriever "show pods")) !! "show pods"
  = Some [0; 2]%Q.
Proof.
  apply (query_cache_round_trip RetrieverSamples.embed_query_only
           RetrieverSamples.json_retriever "show pods").
  vm_compute. discriminate.
Defined.

Section SortDesc.
Context {A : Type}.

Local Abbreviation desc_sorted :=
  (StronglySorted (fun a b : Q * A => (fst b <= fst a)%Q)).

Lemma insert_desc_perm (x : Q * A) (l : list (Q * A)) :
  ToolRetriever.insert_desc x l ≡ₚ x :: l.
Proof.
  induction l as [|y l IH]; cbn; [reflexivity|].
  destruct (Vec.Qltb (fst x) (fst y)); [|reflexivity].
  rewrite IH. apply perm_swap.
Qed.

Lemma sort_desc_perm (l : list (Q * A)) : ToolRetriever.sort_desc l ≡ₚ l.
Proof.
  induction l as [|x l IH]; cbn; [reflexivity|].
  unfold ToolRetriever.sort_desc in *. cbn. rewrite insert_desc_perm, IH. reflexivity.
Qed.



End SortDesc.




Lemma tool_map_lookup_gen (ts : list ToolRetriever.tool)
      (m : gmap string ToolRetriever.tool) (n : string) (t : ToolRetriever.tool) :
  fold_left (fun m t => <[ToolRetriever.name t := t]> m) ts m !! n = Some t ->
  t ∈ ts \/ m !! n = Some t.
Proof.
  revert m. induction ts as [|x ts IH]; intros m H; cbn in H; [right; exact H|].
  apply IH in H as [H|H]; [left; right; exact H|].
  destruct (decide (ToolRetriever.name x = n)) as [Hn|Hn].
  - subst n. rewrite lookup_insert_eq in H. injection H as <-. left; left.
  - rewrite lookup_insert_ne in H by exact Hn. right; exact H.
Qed.

Lemma tool_map_lookup (ts : list ToolRetriever.tool) (n : string)
      (t : ToolRetriever.tool) :
  ToolRetriever.tool_map ts !! n = Some t -> t ∈ ts.
Proof.
  intros H. apply tool_map_lookup_gen in H as [H|H]; [exact H|].
  rewrite lookup_empty in H. discriminate.
Qed.

(** X27: [retrieve] never invents a tool.  Whatever the embedding
    service and the FAISS search answer, and for every [top_k], each
    descriptor it returns is one of [self.tools], and [self.tools] is
    left unchanged. *)
Theorem retrieve_returns_known_tools
    (sqrt : Q -> Q) (embed : string -> list Q) (normalize_L2 : list Q -> list Q)
    (faiss_search : list (list Q) -> list Q -> Z -> option (list (Q * Z)))
    (r : ToolRetriever.t) (query : string) (top_k : Z)
    (found : list ToolRetriever.tool) :
  snd (ToolRetriever.retrieve sqrt embed normalize_L2 faiss_search r query top_k)
    = ToolRetriever.Returns found ->
  (forall d, d ∈ found -> d ∈ ToolRetriever.tools r)
  /\ ToolRetriever.tools
       (fst (ToolRetriever.retrieve sqrt embed normalize_L2 faiss_search r query top_k))
     = ToolRetriever.tools r.
Proof.
  unfold ToolRetriever.retrieve.
  destruct (ToolRetriever._async_ensure_synced embed normalize_L2 r) as [r1|] eqn:Hsync;
    [|discriminate].
  assert (Ht1 : ToolRetriever.tools r1 = ToolRetriever.tools r).
  { unfold ToolRetriever._async_ensure_synced in Hsync.
    destruct (ToolRetriever.faiss_index r) as [fi|]; [|congruence].
    destruct (ToolRetriever.sync_missing _ _ _ _ _); [|discriminate].
    injection Hsync as <-. reflexivity. }
  pose proof (query_embedding_spec embed r1 query) as Hq.
  destruct (ToolRetriever._get_async_query_embedding embed r1 query) as [r2 qe].
  destruct Hq as (Ht2 & _ & _). rewrite Ht1 in Ht2.
  assert (Hjson : forall l,
             ToolRetriever._retrieve_json sqrt r2 qe top_k = ToolRetriever.Returns l ->
             forall d, d ∈ l -> d ∈ ToolRetriever.tools r).
  { unfold ToolRetriever._retrieve_json. intros l Hl d Hd. injection Hl as <-.
    apply list_elem_of_In, in_map_iff in Hd as (p & <- & Hp).
    assert (Hin : In p (ToolRetriever.sort_desc
                          (map (fun tool =>
                                  match ToolRetriever.tool_embeddings r2
                                        !! ToolRetriever.name tool with
                                  | Some ((_ :: _) as emb) =>
                                      (Vec.cosine_similarity sqrt qe emb, tool)
                                  | _ => (0%Q, tool)
                                  end) (ToolRetriever.tools r2)))).
    { unfold ToolRetriever.slice_to in Hp.
      destruct (Z.leb 0 top_k);
        (apply list_elem_of_In; apply list_elem_of_In in Hp;
         apply elem_of_take in Hp as (i & Hi & _);
         exact (list_elem_of_lookup_2 _ _ _ Hi)). }
    apply list_elem_of_In in Hin. rewrite sort_desc_perm in Hin.
    apply list_elem_of_In, in_map_iff in Hin as (tool & <- & Htool).
    rewrite <- Ht2. apply list_elem_of_In.
    destruct (ToolRetriever.tool_embeddings r2 !! ToolRetriever.name tool) as [[|e es]|];
      exact Htool. }
  assert (Hfaiss : forall fi l,
             ToolRetriever._retrieve_faiss normalize_L2 faiss_search r2 fi qe top_k
               = ToolRetriever.Returns l ->
             forall d, d ∈ l -> d ∈ ToolRetriever.tools r).
  { unfold ToolRetriever._retrieve_faiss. intros fi l Hl d Hd.
    destruct (ToolRetriever.search _ _ _ _ _) as [results|]; [|discriminate].
    injection Hl as <-. apply list_elem_of_omap in Hd as (res & _ & Hres).
    rewrite <- Ht2. exact (tool_map_lookup _ _ _ Hres). }
  destruct qe as [|q0 qs]; cbn [fst snd].
  - intros H. injection H as <-. split; [|exact Ht2]. intros d Hd. rewrite <- Ht2. exact Hd.
  - destruct (ToolRetriever.faiss_index r2) as [fi|];
      [destruct (Nat.ltb 0 (FaissIndex.count fi))|]; cbn [fst snd]; intros H;
      (split; [|exact Ht2]); eauto.
Qed.

Lemma retrieve_returns_known_tools_witness :
  ToolRetriever.mkTool "local_k8s_list_pods" "List pods" (JObj [])
  ∈ ToolRetriever.tools RetrieverSamples.json_retriever.
Proof.
  apply (retrieve_returns_known_tools Ref.sqrt_floor RetrieverSamples.embed_query_only
           (fun v => v) ToolRetriever.flat_search RetrieverSamples.json_retriever
           "show pods" 1
           [ ToolRetriever.mkTool "local_k8s_list_pods" "List pods" (JObj []) ]).
  - vm_compute. reflexivity.
  - left.
Defined.

(** ** FAISS search on a reachable index *)

Lemma named_results_elem (fi : FaissIndex.t) (rows : list (Q * Z))
      (name : string) (score : Q) :
  (name, score) ∈ ToolRetriever.named_results fi rows ->
  exists i, (score, i) ∈ rows /\ 0 <= i
            /\ FaissIndex.idx_to_tool fi !! Z.to_nat i = Some name.
Proof.
  induction rows as [|[sc i] rows IH]; cbn; intros H; [inversion H|].
  assert (Hrec : (name, score) ∈ ToolRetriever.named_results fi rows ->
                 exists i0, (score, i0) ∈ (sc, i) :: rows /\ 0 <= i0
                            /\ FaissIndex.idx_to_tool fi !! Z.to_nat i0 = Some name).
  { intros H'. destruct (IH H') as (i0 & Hin & Hrest). exists i0.
    split; [right; exact Hin | exact Hrest]. }
  destruct (Z.ltb_spec i 0) as [Hneg|Hpos]; [exact (Hrec H)|].
  destruct (FaissIndex.idx_to_tool fi !! Z.to_nat i) as [n|] eqn:Hl; [|exact (Hrec H)].
  destruct (String.eqb n ""); [exact (Hrec H)|].
  apply elem_of_cons in H as [H|H]; [|exact (Hrec H)].
  injection H as -> ->. exists i. split; [left|]. split; [exact Hpos | exact Hl].
Qed.

(** X28: on every index state reachable from an index created without
    files, [search] returns only indexed tools: when FAISS answers with
    positions below the index size, every name in the result is a key of
    the tools metadata. *)
Theorem search_returns_indexed_tools
    (normalize_L2 : list Q -> list Q)
    (faiss_search : list (list Q) -> list Q -> Z -> option (list (Q * Z)))
    (faiss_ok : bool) (ops : list FaissIndex.op)
    (query_embedding : list Q) (top_k : Z) (results : list (string * Q)) :
  let fi := FaissIndex.run normalize_L2 faiss_ok ops in
  (forall vectors q k rows,
      faiss_search vectors q k = Some rows ->
      forall p, p ∈ rows -> snd p < Z.of_nat (length vectors)) ->
  ToolRetriever.search normalize_L2 faiss_search fi query_embedding top_k
    = Some results ->
  forall name score,
    (name, score) ∈ results -> is_Some (FaissIndex.tools fi !! name).
Proof.
  cbv zeta. intros Hrows Hs name score Hin.
  set (fi := FaissIndex.run normalize_L2 faiss_ok ops) in *.
  destruct (wf_run normalize_L2 faiss_ok ops) as [Hfit _]. fold fi in Hfit.
  unfold ToolRetriever.search in Hs.
  destruct (FaissIndex.index fi) as [vectors|] eqn:Hi;
    [|injection Hs as <-; inversion Hin].
  destruct (_ || _)%bool; [injection Hs as <-; inversion Hin|].
  destruct (faiss_search vectors _ _) as [rows|] eqn:Hfs; [|discriminate].
  injection Hs as <-.
  apply named_results_elem in Hin as (i & Hrow & Hpos & Hname).
  pose proof (Hrows _ _ _ _ Hfs _ Hrow) as Hlt. cbn in Hlt.
  assert (Hn : (Z.to_nat i < FaissIndex.ntotal fi)%nat)
    by (unfold FaissIndex.ntotal; rewrite Hi; lia).
  destruct (fits_dense _ _ _ Hfit Hn) as (name' & info & Hm & Ht & _).
  unfold FaissIndex.idx_to_tool in Hname.
  assert (name' = name) by congruence. subst name'.
  exists info. exact Ht.
Qed.

Lemma flat_search_positions (vectors : list (list Q)) (q : list Q) (k : Z)
      (rows : list (Q * Z)) :
  ToolRetriever.flat_search vectors q k = Some rows ->
  forall p, p ∈ rows -> snd p < Z.of_nat (length vectors).
Proof.
  unfold ToolRetriever.flat_search. destruct (Z.leb k 0); [discriminate|].
  intros H. injection H as <-. intros p Hp.
  assert (Hgen : forall vs pos p',
             p' ∈ ToolRetriever.indexed_scores q vs pos ->
             snd p' < pos + Z.of_nat (length vs)).
  { induction vs as [|v vs IH]; intros pos p' Hp'; cbn in Hp'; [inversion Hp'|].
    apply elem_of_cons in Hp' as [->|Hp']; [cbn; lia|].
    apply IH in Hp'. cbn [length]. lia. }
  apply elem_of_app in Hp as [Hp|Hp].
  - apply elem_of_take in Hp as (i & Hi & _).
    apply list_elem_of_lookup_2 in Hi. rewrite sort_desc_perm in Hi.
    apply Hgen in Hi. lia.
  - apply list_elem_of_In, repeat_spec in Hp. subst p. cbn. lia.
Qed.

Lemma search_returns_indexed_tools_witness :
  is_Some
    (FaissIndex.tools
       (FaissIndex.run (fun v => v) true
          [ FaissIndex.OpAdd "docker_list_containers" (repeat 1%Q 768) "List containers";
            FaissIndex.OpAdd "local_k8s_list_pods" (repeat 2%Q 768) "List pods" ])
       !! "local_k8s_list_pods").
Proof.
  apply (search_returns_indexed_tools (fun v => v) ToolRetriever.flat_search true
           [ FaissIndex.OpAdd "docker_list_containers" (repeat 1%Q 768) "List containers";
             FaissIndex.OpAdd "local_k8s_list_pods" (repeat 2%Q 768) "List pods" ]
           (repeat 1%Q 768) 1 [("local_k8s_list_pods", 1536%Q)]
           flat_search_positions ltac:(vm_compute; reflexivity)
           "local_k8s_list_pods" 1536%Q).
  left.
Defined.

(** ** Semantic cache: persistence *)

(** X29: the semantic cache loses nothing on a restart.  After any
    history of adds and restarts that starts without a cache file, the
    entries in memory are what the last [_save] wrote (or there are no
    entries and no file), so reloading gives back the same cache and
    every later lookup answers the same. *)
Theorem cache_survives_restart
    (fsum : list float -> float) (sqrt : float -> float)
    (embed : string -> list float) (py_str : json -> string)
    (ops : list CacheHistory.op) :
  let c := CacheHistory.run embed py_str ops in
  CacheHistory.reload c = c
  /\ forall query active_mcp,
       SemanticCache.lookup fsum sqrt embed (CacheHistory.reload c) query active_mcp
       = SemanticCache.lookup fsum sqrt embed c query active_mcp.
Proof.
  cbv zeta.
  assert (Hinv : CacheHistory.reload (CacheHistory.run embed py_str ops)
                 = CacheHistory.run embed py_str ops).
  { unfold CacheHistory.run.
    assert (Hgen : forall c0,
               CacheHistory.reload c0 = c0 ->
               CacheHistory.reload (fold_left (CacheHistory.step embed py_str) ops c0)
               = fold_left (CacheHistory.step embed py_str) ops c0).
    { induction ops as [|o ops IH]; intros c0 H0; [exact H0|].
      cbn [fold_left]. apply IH.
      destruct o as [q out tcs mcp now|]; cbn [CacheHistory.step].
      - destruct (add_cases embed py_str now c0 q out tcs mcp) as [-> | (_ & _ & Hw)];
          [exact H0|].
        cbn zeta in Hw.
        destruct (SemanticCache.add embed py_str now c0 q out tcs mcp) as [th es dw].
        cbn in Hw. unfold CacheHistory.reload. cbn. rewrite Hw. reflexivity.
      - destruct c0 as [th es dw]. unfold CacheHistory.reload. cbn. reflexivity. }
    apply Hgen. reflexivity. }
  split; [exact Hinv|]. intros query active_mcp. rewrite Hinv. reflexivity.
Qed.
